(** * The ncnn backend wrapper of mmdeploy: model and properties

    A shallow embedding of [src/mmdeploy/backend/ncnn/wrapper.py].

    The class [NCNNWrapper] adapts the single-sample ncnn engine to batched
    tensor maps: [forward] checks the inputs, runs one extractor per sample
    and stacks the per-sample results.  Python objects are modelled as
    follows.

    - A [torch.Tensor] that the wrapper makes is a shape, its elements in
      row-major order and a device.  A tensor that a caller hands in is a
      window on a storage, with strides, an offset and an element type:
      [ncnn.Mat] reads the memory behind it, not its elements.  The type of
      the elements is a parameter: the wrapper only moves them around.
    - A Python [dict] is an insertion-ordered association list with unique
      keys; [dict_set] replaces in place or appends, as Python does.
    - Exceptions are a result type; assertion messages are a data type, so
      that the f-string of [__ncnn_execute] keeps exactly what it formats.
    - The engine is a deterministic function from the inputs bound to an
      extractor and an output name to a status and a matrix.  Every call
      into the engine is recorded in a log that the computation threads
      through, so that "before any extractor is created" is a statement
      about the log.  A second reading of the same code, against an engine
      with a state of its own, is given for the claim on repeated calls. *)

From stdpp Require Import base list strings gmap.
From Stdlib Require Floats.SpecFloat.

Set Default Proof Using "Type".

(** ** Python values *)

Inductive device_type := cpu | cuda.

Global Instance device_type_eq_dec : EqDecision device_type.
Proof. solve_decision. Defined.

(** [torch.dtype]: the element types that numpy has too, and [bfloat16],
    which it has not.  Complex tensors are left out. *)
Inductive dtype :=
  | float32
  | float64
  | float16
  | bfloat16
  | int64
  | int32
  | int16
  | int8
  | uint8
  | bool8.

Global Instance dtype_eq_dec : EqDecision dtype.
Proof. solve_decision. Defined.

(** [t.element_size()]: the bytes of one element. *)
Definition element_size (d : dtype) : nat :=
  match d with
  | float32 | int32 => 4
  | float64 | int64 => 8
  | float16 | bfloat16 | int16 => 2
  | int8 | uint8 | bool8 => 1
  end.

Section Wrapper.

Context {scalar : Type}.

(** [torch.Tensor], by its elements: [shape] is [t.shape], [data] the
    elements in row-major order, [device] is [t.device.type].  The tensors
    that the wrapper makes ([torch.from_numpy] of a new array,
    [torch.stack]) are new and contiguous, and are given like this. *)
Record Tensor := mkTensor {
  shape : list nat;
  data : list scalar;
  device : device_type
}.

(** [torch.Tensor], as it lies in memory: the tensors that a caller hands
    in.  [dims] is the size and the stride (counted in elements) of every
    dimension, [storage_offset] is [t.storage_offset()], [storage] the
    elements of the storage that the tensor is a window on, [view_dtype] is
    [t.dtype] and [view_device] is [t.device.type]. *)
Record View := mkView {
  dims : list (nat * nat);
  storage_offset : nat;
  storage : list scalar;
  view_dtype : dtype;
  view_device : device_type
}.

(** [numpy.ndarray] made by [np.array]: a new array, given by its
    elements. *)
Record ndarray := mkArray {
  np_shape : list nat;
  np_data : list scalar
}.

(** [numpy.ndarray] made by [t.numpy()]: it shares the memory of [t].
    [arr_memory] is what lies at its data pointer and after it. *)
Record SharedArray := mkShared {
  arr_dims : list (nat * nat);
  arr_memory : list scalar;
  arr_dtype : dtype
}.

(** [ncnn.Mat]. *)
Record Mat := mkMat {
  mat_shape : list nat;
  mat_data : list scalar
}.

(** The messages of the three [assert] statements of the class.  The last
    one is the f-string ['Failed to extract output : {out}.'], which formats
    the matrix [out] and nothing else. *)
Inductive assert_msg :=
  | SameBatchSize
  | CpuOnly
  | FailedExtract (out : Mat)
  | NoMessage.

(** [MatDims n] is the message of [ncnn.Mat] for an array of [n]
    dimensions, more than it converts. *)
Inductive runtime_msg :=
  | StackEmpty
  | StackMismatch
  | MatDims (ndim : nat).

(** [Undefined] is not an exception: native code reads memory that is not
    what it takes it for, and the process dies or goes on with what it
    read.  The model says nothing about what follows. *)
Inductive exn :=
  | AssertionError (msg : assert_msg)
  | IndexError
  | KeyError (key : string)
  | TypeError
  | RuntimeError (msg : runtime_msg)
  | Undefined.

Inductive result (A : Type) :=
  | Ok (a : A)
  | Raise (e : exn).
Global Arguments Ok {A} a.
Global Arguments Raise {A} e.

(** ** Dictionaries *)

Definition dict (V : Type) := list (string * V).

Fixpoint dict_get {V} (d : dict V) (k : string) : option V :=
  match d with
  | [] => None
  | (k', v) :: d' => if decide (k' = k) then Some v else dict_get d' k
  end.

(** [d[k] = v]: an existing key keeps its position. *)
Fixpoint dict_set {V} (k : string) (v : V) (d : dict V) : dict V :=
  match d with
  | [] => [(k, v)]
  | (k', v') :: d' =>
      if decide (k' = k) then (k', v) :: d' else (k', v') :: dict_set k v d'
  end.

(** [dict(pairs)]. *)
Definition dict_of_pairs {V} (l : list (string * V)) : dict V :=
  foldl (fun d kv => dict_set kv.1 kv.2 d) [] l.

Definition keys {V} (d : dict V) : list string := d.*1.
Definition values {V} (d : dict V) : list V := d.*2.

(** ** The engine *)

(** What the wrapper asks of the engine, in the order it asks. *)
Inductive event :=
  | EvCreateExtractor
  | EvInput (name : string) (m : Mat)
  | EvExtract (name : string).

(** [ncnn.Net] after loading.  [net_output_names] is [None] when the object
    has no attribute [output_names]; [net_extract] is the forward pass of
    one sample: from the bound inputs and an output name to the pair
    [(status, matrix)] of [Extractor.extract]. *)
Record Net := mkNet {
  net_output_names : option (list string);
  net_extract : dict Mat -> string -> Z * Mat
}.

(** [ncnn.Extractor]: the net it was created from and the inputs bound so
    far. *)
Record Extractor := mkExtractor {
  ex_net : Net;
  ex_bound : dict Mat
}.

(** ** Computations: an engine log and an exception *)

Definition M (A : Type) : Type := list event -> list event * result A.

Definition ret {A} (a : A) : M A := fun s => (s, Ok a).

Definition raise {A} (e : exn) : M A := fun s => (s, Raise e).

Definition bind {A B} (m : M A) (k : A -> M B) : M B :=
  fun s =>
    match m s with
    | (s', Ok a) => k a s'
    | (s', Raise e) => (s', Raise e)
    end.

Definition emit (ev : event) : M unit := fun s => (s ++ [ev], Ok tt).

Definition lift {A} (r : result A) : M A := fun s => (s, r).

Notation "'let*' x ':=' c 'in' k" := (bind c (fun x => k))
  (at level 10, x pattern, c at level 100, k at level 200).

(** [assert cond, msg]. *)
Definition py_assert (cond : bool) (msg : assert_msg) : M unit :=
  if cond then ret tt else raise (AssertionError msg).

(** [for x in l: state = body x state]. *)
Fixpoint for_each {A S} (l : list A) (body : A -> S -> M S) (st : S) : M S :=
  match l with
  | [] => ret st
  | x :: l' => let* st' := body x st in for_each l' body st'
  end.

(** [range(n)]. *)
Definition range (n : nat) : list nat := seq 0 n.

(** ** Tensor operations used by the wrapper *)

Definition numel (sh : list nat) : nat := foldr Nat.mul 1 sh.

(** [t.size(0)]: fails on a tensor without dimensions. *)
Definition size0 (t : Tensor) : result nat :=
  match shape t with
  | [] => Raise IndexError
  | d :: _ => Ok d
  end.

(** [t[i]] for a non-negative [i], on the elements. *)
Definition tensor_index (t : Tensor) (i : nat) : result Tensor :=
  match shape t with
  | [] => Raise IndexError
  | d :: sh =>
      if decide (i < d)
      then Ok (mkTensor sh (take (numel sh) (drop (i * numel sh) (data t)))
                        (device t))
      else Raise IndexError
  end.

(** [t.detach()] only drops autograd bookkeeping, which is not modelled. *)
Definition detach {T : Type} (t : T) : T := t.

(** ** Tensors in memory *)

(** The elements of a window, in row-major order. *)
Fixpoint gather (ds : list (nat * nat)) (off : nat) (st : list scalar)
  : list scalar :=
  match ds with
  | [] => option_list (st !! off)
  | (d, stride) :: ds' =>
      flat_map (fun i => gather ds' (off + i * stride) st) (seq 0 d)
  end.

(** A tensor in memory is read as the tensor of its elements wherever only
    its shape, its elements or its device are asked for. *)
Definition elements (v : View) : Tensor :=
  mkTensor (dims v).*1 (gather (dims v) (storage_offset v) (storage v))
           (view_device v).

Coercion elements : View >-> Tensor.

(** The sizes [sh] with the strides of a C-contiguous tensor. *)
Fixpoint row_major (sh : list nat) : list (nat * nat) :=
  match sh with
  | [] => []
  | d :: sh' => (d, numel sh') :: row_major sh'
  end.

(** A tensor just made from its elements: contiguous, the only window on
    its storage. *)
Definition fresh (dt : dtype) (t : Tensor) : View :=
  mkView (row_major (shape t)) 0 (data t) dt (device t).

(** [t[i]] for a non-negative [i]: a window on the same storage. *)
Definition select (t : View) (i : nat) : result View :=
  match dims t with
  | [] => Raise IndexError
  | (d, stride) :: ds =>
      if decide (i < d)
      then Ok (mkView ds (storage_offset t + i * stride) (storage t)
                      (view_dtype t) (view_device t))
      else Raise IndexError
  end.

(** Whether a tensor is dense and does not overlap itself: ordered by
    stride, the dimensions of more than one element have the strides of a
    contiguous tensor. *)
Fixpoint insert_by_stride (p : nat * nat) (l : list (nat * nat))
  : list (nat * nat) :=
  match l with
  | [] => [p]
  | q :: l' => if decide (p.2 <= q.2) then p :: l else q :: insert_by_stride p l'
  end.

Fixpoint packed (ds : list (nat * nat)) (next : nat) : bool :=
  match ds with
  | [] => true
  | (d, stride) :: ds' => bool_decide (stride = next) && packed ds' (next * d)
  end.

Definition dense (ds : list (nat * nat)) : bool :=
  packed (foldr insert_by_stride [] (filter (fun p => 2 <= p.1) ds)) 1.

(** [t.cpu()]: a tensor in host memory is returned as it is.  Any other is
    copied to a storage of its own, in [torch.preserve_format]: with the
    strides of [t] when [t] is dense and does not overlap itself, and
    contiguous otherwise. *)
Definition to_cpu (t : View) : View :=
  if decide (view_device t = cpu) then t
  else if dense (dims t)
       then mkView (dims t) 0
                   (take (numel (dims t).*1)
                         (drop (storage_offset t) (storage t)))
                   (view_dtype t) cpu
       else mkView (row_major (dims t).*1) 0
                   (gather (dims t) (storage_offset t) (storage t))
                   (view_dtype t) cpu.

(** [t.numpy()]: an array on the memory of [t], for a tensor in host memory
    of an element type that numpy has. *)
Definition numpy (t : View) : result SharedArray :=
  if decide (view_device t = cpu /\ view_dtype t <> bfloat16)
  then Ok (mkShared (dims t) (drop (storage_offset t) (storage t))
                    (view_dtype t))
  else Raise TypeError.

(** [ncnn.Mat(array)]: the matrix is laid over the memory of the array.
    ncnn refuses more than four dimensions and makes no matrix of none.  It
    takes the dimensions of the array and reads as many elements as they
    say from the data pointer on, without looking at the strides; it is
    made for elements of four bytes. *)
Definition Mat_of_array (a : SharedArray) : result Mat :=
  let sh := (arr_dims a).*1 in
  if decide (4 < length sh) then Raise (RuntimeError (MatDims (length sh)))
  else if decide (length sh = 0) then Raise TypeError
  else if decide (element_size (arr_dtype a) = 4 /\
                  numel sh <= length (arr_memory a))
       then Ok (mkMat sh (take (numel sh) (arr_memory a)))
       else Raise Undefined.

(** Lines 99-100:
    [ncnn.Mat(input_tensor[batch_id].detach().cpu().numpy())]. *)
Definition sample_mat (input_tensor : View) (batch_id : nat) : result Mat :=
  match select input_tensor batch_id with
  | Ok x =>
      match numpy (to_cpu (detach x)) with
      | Ok a => Mat_of_array a
      | Raise e => Raise e
      end
  | Raise e => Raise e
  end.

(** ** Tensors that the wrapper makes *)

(** [np.array(mat)]. *)
Definition np_array (m : Mat) : ndarray := mkArray (mat_shape m) (mat_data m).

(** [torch.from_numpy(array)]. *)
Definition from_numpy (a : ndarray) : Tensor :=
  mkTensor (np_shape a) (np_data a) cpu.

(** The elements of a list of optional tensors when none is [None]. *)
Fixpoint all_tensors (l : list (option Tensor)) : option (list Tensor) :=
  match l with
  | [] => Some []
  | None :: _ => None
  | Some t :: l' =>
      match all_tensors l' with
      | Some ts => Some (t :: ts)
      | None => None
      end
  end.

Definition same_layout (t0 t : Tensor) : bool :=
  bool_decide (shape t = shape t0 /\ device t = device t0).

(** [torch.stack(l)]: every element must be a tensor, the list must not be
    empty, and all tensors must agree in shape and device.  The result has
    one more leading dimension, of the length of the list. *)
Definition torch_stack (l : list (option Tensor)) : result Tensor :=
  match all_tensors l with
  | None => Raise TypeError
  | Some [] => Raise (RuntimeError StackEmpty)
  | Some (t0 :: ts) =>
      if forallb (same_layout t0) ts
      then Ok (mkTensor (length (t0 :: ts) :: shape t0)
                        (concat (map data (t0 :: ts)))
                        (device t0))
      else Raise (RuntimeError StackMismatch)
  end.

(** ** Engine calls *)

(** [net.create_extractor()]. *)
Definition create_extractor (net : Net) : M Extractor :=
  let* _ := emit EvCreateExtractor in
  ret (mkExtractor net []).

(** [ex.input(name, mat)]; the extractor is mutated, so the new state is
    returned. *)
Definition extractor_input (ex : Extractor) (name : string) (m : Mat)
  : M Extractor :=
  let* _ := emit (EvInput name m) in
  ret (mkExtractor (ex_net ex) (dict_set name m (ex_bound ex))).

(** [ex.extract(name)]. *)
Definition extractor_extract (ex : Extractor) (name : string) : M (Z * Mat) :=
  let* _ := emit (EvExtract name) in
  ret (net_extract (ex_net ex) (ex_bound ex) name).

(** ** The wrapper *)

(** An [NCNNWrapper] object: [self._net] and the [self._output_names] kept
    by the base class. *)
Record NCNNWrapper := mkWrapper {
  _net : Net;
  _output_names : list string
}.

(** Modelled from the spec: [BaseWrapper.__init__] of [mmdeploy/backend/base]
    is not among the sources.  It keeps the resolved output names as they
    are given, for the lifetime of the wrapper. *)
Definition BaseWrapper_init (net : Net) (output_names : list string)
  : NCNNWrapper :=
  mkWrapper net output_names.

(** [NCNNWrapper.__init__] (lines 37-55).  [load] stands for lines 43-48:
    creating the net, registering the custom layers and loading the two
    files. *)
Definition init (load : string -> string -> Net) (param_file bin_file : string)
    (output_names : option (list string)) : result NCNNWrapper :=
  let net := load param_file bin_file in
  match output_names with
  | Some names => Ok (BaseWrapper_init net names)
  | None =>
      match net_output_names net with
      | None => Raise (AssertionError NoMessage)
      | Some names => Ok (BaseWrapper_init net names)
      end
  end.

(** [get_backend_file_count] (lines 57-66). *)
Definition get_backend_file_count : nat := 2.

(** [__ncnn_execute] (lines 116-134).  The decorator
    [TimeCounter.count_time] of [mmdeploy/utils/timer] is not among the
    sources; it is the timing hook of the per-sample extraction and is taken
    to pass arguments, result and exceptions through. *)
Definition ncnn_execute (extractor : Extractor) (output_names : list string)
  : M (dict Mat) :=
  for_each output_names
    (fun name result =>
       let* r := extractor_extract extractor name in
       let out_ret := r.1 in
       let out := r.2 in
       let* _ := py_assert (bool_decide (out_ret = 0%Z)) (FailedExtract out) in
       ret (dict_set name out result))
    [].

(** Lines 80-84 of [forward]: the checks on all inputs but the first. *)
Definition check_inputs (batch_size : nat) (rest : list View) : M unit :=
  for_each rest
    (fun input_tensor _ =>
       let* n := lift (size0 input_tensor) in
       let* _ := py_assert (bool_decide (n = batch_size)) SameBatchSize in
       py_assert (bool_decide (view_device input_tensor = cpu)) CpuOnly)
    tt.

(** Lines 78-84: the batch size, read from the first input. *)
Definition forward_validate (inputs : dict View) : M nat :=
  let input_list := values inputs in
  let* first := lift (match input_list !! 0 return result View with
                      | Some t => Ok t
                      | None => Raise IndexError
                      end) in
  let* batch_size := lift (size0 first) in
  let* _ := check_inputs batch_size (drop 1 input_list) in
  ret batch_size.

(** Lines 98-101: the slice of every input is bound under its name. *)
Definition set_inputs (inputs : dict View) (batch_id : nat) (ex : Extractor)
  : M Extractor :=
  for_each inputs
    (fun item ex =>
       let name := item.1 in
       let input_tensor := item.2 in
       let* input_mat := lift (sample_mat input_tensor batch_id) in
       extractor_input ex name input_mat)
    ex.

(** Lines 95-105: one extractor, all inputs bound, all outputs extracted. *)
Definition run_sample (w : NCNNWrapper) (inputs : dict View) (batch_id : nat)
  : M (dict Mat) :=
  let* ex := create_extractor (_net w) in
  let* ex := set_inputs inputs batch_id ex in
  ncnn_execute ex (_output_names w).

(** [d[k]] *)
Definition dict_getitem {V} (d : dict V) (k : string) : result V :=
  match dict_get d k with
  | Some v => Ok v
  | None => Raise (KeyError k)
  end.

(** [l[i] = x] for a non-negative [i]. *)
Definition list_setitem {A} (l : list A) (i : nat) (x : A) : result (list A) :=
  if decide (i < length l) then Ok (<[i := x]> l) else Raise IndexError.

(** Lines 106-108: the results of one sample go to its slot. *)
Definition store_sample (output_names : list string) (result : dict Mat)
    (batch_id : nat) (outputs : dict (list (option Tensor)))
  : M (dict (list (option Tensor))) :=
  for_each output_names
    (fun name outputs =>
       let* out := lift (dict_getitem result name) in
       let* slots := lift (dict_getitem outputs name) in
       let* slots' :=
         lift (list_setitem slots batch_id (Some (from_numpy (np_array out)))) in
       ret (dict_set name slots' outputs))
    outputs.

(** Lines 111-112: every list of slots becomes one tensor. *)
Fixpoint stack_outputs (outputs : dict (list (option Tensor)))
  : M (dict Tensor) :=
  match outputs with
  | [] => ret []
  | (name, slots) :: outputs' =>
      let* t := lift (torch_stack slots) in
      let* rest := stack_outputs outputs' in
      ret ((name, t) :: rest)
  end.

(** Lines 93-108: the loop over the samples. *)
Definition run_batch (w : NCNNWrapper) (inputs : dict View) (batch_size : nat)
    (outputs : dict (list (option Tensor)))
  : M (dict (list (option Tensor))) :=
  for_each (range batch_size)
    (fun batch_id outputs =>
       let* result := run_sample w inputs batch_id in
       store_sample (_output_names w) result batch_id outputs)
    outputs.

(** [NCNNWrapper.forward] (lines 68-114). *)
Definition forward (w : NCNNWrapper) (inputs : dict View) : M (dict Tensor) :=
  let* batch_size := forward_validate inputs in
  let output_names := _output_names w in
  let outputs :=
    dict_of_pairs (map (fun name => (name, replicate batch_size None))
                       output_names) in
  let* outputs := run_batch w inputs batch_size outputs in
  stack_outputs outputs.

(** ** What the statements below talk about *)

(** A batch of size [b]: at least one input, every input with leading
    dimension [b] and held in host memory. *)
Definition valid_batch (inputs : dict View) (b : nat) : Prop :=
  inputs <> [] /\
  Forall (fun t : View => size0 t = Ok b /\ device t = cpu) (values inputs).

(** What a failed check reports: the exception of [size(0)] on a tensor
    without dimensions, or one of the two assertions. *)
Definition rejected (b : nat) (t : Tensor) (e : exn) : Prop :=
  size0 t = Raise e \/
  (exists n, size0 t = Ok n /\ n <> b /\ e = AssertionError SameBatchSize) \/
  (size0 t = Ok b /\ device t <> cpu /\ e = AssertionError CpuOnly).

(** The keys of [dict((name, ...) for name in names)]: the names in the
    order of their first occurrence. *)
Definition resolved_keys (names : list string) : list string :=
  keys (dict_of_pairs (map (fun name => (name, tt)) names)).

(** The inputs that the extractor of sample [j] has bound when the outputs
    are extracted (lines 98-101). *)
Definition bind_slice (j : nat) (d : dict Mat) (item : string * View)
  : dict Mat :=
  match sample_mat item.2 j with
  | Ok m => dict_set item.1 m d
  | Raise _ => d
  end.

Definition sample_inputs (inputs : dict View) (j : nat) : dict Mat :=
  foldl (bind_slice j) [] inputs.

(** The pair that [ex.extract(name)] returns for sample [j]. *)
Definition extraction (w : NCNNWrapper) (inputs : dict View) (j : nat)
    (name : string) : Z * Mat :=
  net_extract (_net w) (sample_inputs inputs j) name.

(** The tensor stored in slot [j] of output [name] (lines 107-108). *)
Definition sample_output (w : NCNNWrapper) (inputs : dict View) (j : nat)
    (name : string) : Tensor :=
  from_numpy (np_array (extraction w inputs j name).2).

(** The accumulator after the first [i] samples of a batch of [b]: one list
    of [b] slots for each resolved name, the first [i] of them filled. *)
Definition filled (w : NCNNWrapper) (inputs : dict View) (b i : nat)
    (outputs : dict (list (option Tensor))) : Prop :=
  keys outputs = resolved_keys (_output_names w) /\
  forall n slots,
    dict_get outputs n = Some slots ->
    length slots = b /\
    forall j, j < i -> slots !! j = Some (Some (sample_output w inputs j n)).

(** [t.unsqueeze(0)]: the same elements under a new leading dimension of
    length one. *)
Definition unsqueeze0 (t : Tensor) : Tensor :=
  mkTensor (1 :: shape t) (data t) (device t).

(** The number of extractors that a log records. *)
Definition is_create (ev : event) : bool :=
  match ev with
  | EvCreateExtractor => true
  | _ => false
  end.

Definition extractors_created (s : list event) : nat :=
  length (filter (fun ev => is_create ev = true) s).

End Wrapper.

(** * More of the wrapper: what the engine is asked, and what comes back *)

Section Traces.

Context {scalar : Type}.

(** The matrix bound for sample [j] of an input [t] in host memory (line
    100): the dimensions of [t[j]], and the memory at its data pointer. *)
Definition sample_slice (t : @View scalar) (j : nat) : Mat :=
  match dims t with
  | [] => mkMat [] []
  | (d, stride) :: ds =>
      mkMat ds.*1
            (take (numel ds.*1)
                  (drop (storage_offset t + j * stride) (storage t)))
  end.

(** An input whose samples [ncnn.Mat] takes: a sample has one to four
    dimensions, the elements are four bytes wide, and the memory of every
    sample lies within the storage. *)
Definition bindable (t : @View scalar) : Prop :=
  match dims t with
  | [] => False
  | (d, stride) :: ds =>
      1 <= length ds <= 4 /\
      element_size (view_dtype t) = 4 /\
      forall j, j < d ->
        storage_offset t + j * stride + numel ds.*1 <= length (storage t)
  end.


(** The calls of lines 98-101 for sample [j], in the order of the inputs. *)
Definition input_events (inputs : dict (@View scalar)) (j : nat)
  : list event :=
  map (fun item => EvInput item.1 (sample_slice item.2 j)) inputs.

(** Everything the engine is asked for one sample that succeeds. *)
Definition sample_events (w : @NCNNWrapper scalar) (inputs : dict View)
    (j : nat) : list event :=
  EvCreateExtractor :: input_events inputs j ++
  map EvExtract (_output_names w).

(** The first output of sample [j], in the order of the resolved names,
    whose extraction has a status other than 0, with its position. *)
Definition first_failure (w : @NCNNWrapper scalar) (inputs : dict View)
    (j : nat) : option (nat * string) :=
  list_find (fun n => (extraction w inputs j n).1 <> 0%Z) (_output_names w).

(** A tensor whose buffer has as many elements as its shape says. *)
Definition well_formed (t : @Tensor scalar) : Prop :=
  length (data t) = numel (shape t).

(** An engine that returns, for an output name, the matrix bound under
    that name, and fails with status -1 for any other name. *)
Definition echo_net : @Net scalar :=
  mkNet None
        (fun bound name =>
           match dict_get bound name with
           | Some m => (0%Z, m)
           | None => ((-1)%Z, mkMat [] [])
           end).

End Traces.

(** * The same code against an engine with a state of its own

    [ncnn.Net] and [ncnn.Extractor] are objects of the engine.  Here the
    engine is an object with any state [engine_state]; an extractor is
    whatever the engine hands out for one, and every call may read and
    change the state.  The computations thread the state of the engine
    instead of a log.  The functions are those of [NCNNWrapper] again, with
    the three calls into the engine taken from [Engine]. *)

Section Stateful.

Context {scalar : Type} {engine_state extractor : Type}.

(** The three calls that the wrapper makes: [net.create_extractor()],
    [ex.input(name, mat)] and [ex.extract(name)]. *)
Record Engine := mkEngine {
  eng_create : engine_state -> engine_state * extractor;
  eng_input :
    extractor -> string -> @Mat scalar -> engine_state ->
    engine_state * extractor;
  eng_extract :
    extractor -> string -> engine_state -> engine_state * (Z * @Mat scalar)
}.

Definition ST (A : Type) : Type :=
  engine_state -> engine_state * @result scalar A.

Definition st_ret {A} (a : A) : ST A := fun st => (st, Ok a).

Definition st_raise {A} (e : exn) : ST A := fun st => (st, Raise e).

Definition st_bind {A B} (m : ST A) (k : A -> ST B) : ST B :=
  fun st =>
    match m st with
    | (st', Ok a) => k a st'
    | (st', Raise e) => (st', Raise e)
    end.

Definition st_lift {A} (r : result A) : ST A := fun st => (st, r).

Notation "'let*' x ':=' c 'in' k" := (st_bind c (fun x => k))
  (at level 10, x pattern, c at level 100, k at level 200).

Definition st_assert (cond : bool) (msg : assert_msg) : ST unit :=
  if cond then st_ret tt else st_raise (AssertionError msg).

Fixpoint st_for_each {A S} (l : list A) (body : A -> S -> ST S) (acc : S)
  : ST S :=
  match l with
  | [] => st_ret acc
  | x :: l' => let* acc' := body x acc in st_for_each l' body acc'
  end.

(** A run on the engine and a run on the log agree up to [R]: both raise
    the same exception, or both return, with values that [R] relates at
    the state the engine is left in. *)
Definition agree {A B} (R : engine_state -> A -> B -> Prop)
    (a : engine_state * @result scalar A)
    (b : list (@event scalar) * @result scalar B) : Prop :=
  match a.2, b.2 with
  | Ok x, Ok y => R a.1 x y
  | Raise e, Raise e' => e = e'
  | _, _ => False
  end.

Context (E : Engine).

(** [net.create_extractor()]. *)
Definition create_extractor_on : ST extractor :=
  fun st => let r := eng_create E st in (r.1, Ok r.2).

(** [ex.input(name, mat)]. *)
Definition extractor_input_on (ex : extractor) (name : string) (m : Mat)
  : ST extractor :=
  fun st => let r := eng_input E ex name m st in (r.1, Ok r.2).

(** [ex.extract(name)]. *)
Definition extractor_extract_on (ex : extractor) (name : string)
  : ST (Z * Mat) :=
  fun st => let r := eng_extract E ex name st in (r.1, Ok r.2).

(** [__ncnn_execute] (lines 116-134). *)
Definition ncnn_execute_on (ex : extractor) (output_names : list string)
  : ST (dict Mat) :=
  st_for_each output_names
    (fun name result =>
       let* r := extractor_extract_on ex name in
       let out_ret := r.1 in
       let out := r.2 in
       let* _ := st_assert (bool_decide (out_ret = 0%Z)) (FailedExtract out) in
       st_ret (dict_set name out result))
    [].

(** Lines 80-84. *)
Definition check_inputs_on (batch_size : nat) (rest : list (@View scalar))
  : ST unit :=
  st_for_each rest
    (fun input_tensor _ =>
       let* n := st_lift (size0 input_tensor) in
       let* _ := st_assert (bool_decide (n = batch_size)) SameBatchSize in
       st_assert (bool_decide (view_device input_tensor = cpu)) CpuOnly)
    tt.

(** Lines 78-84. *)
Definition forward_validate_on (inputs : dict (@View scalar)) : ST nat :=
  let input_list := values inputs in
  let* first := st_lift (match input_list !! 0%nat return result View with
                         | Some t => Ok t
                         | None => Raise IndexError
                         end) in
  let* batch_size := st_lift (size0 first) in
  let* _ := check_inputs_on batch_size (drop 1 input_list) in
  st_ret batch_size.

(** Lines 98-101. *)
Definition set_inputs_on (inputs : dict (@View scalar)) (batch_id : nat)
    (ex : extractor) : ST extractor :=
  st_for_each inputs
    (fun item ex =>
       let name := item.1 in
       let input_tensor := item.2 in
       let* input_mat := st_lift (sample_mat input_tensor batch_id) in
       extractor_input_on ex name input_mat)
    ex.

(** Lines 95-105. *)
Definition run_sample_on (output_names : list string)
    (inputs : dict (@View scalar)) (batch_id : nat) : ST (dict Mat) :=
  let* ex := create_extractor_on in
  let* ex := set_inputs_on inputs batch_id ex in
  ncnn_execute_on ex output_names.

(** Lines 106-108. *)
Definition store_sample_on (output_names : list string) (result : dict Mat)
    (batch_id : nat) (outputs : dict (list (option (@Tensor scalar))))
  : ST (dict (list (option Tensor))) :=
  st_for_each output_names
    (fun name outputs =>
       let* out := st_lift (dict_getitem result name) in
       let* slots := st_lift (dict_getitem outputs name) in
       let* slots' :=
         st_lift (list_setitem slots batch_id
                    (Some (from_numpy (np_array out)))) in
       st_ret (dict_set name slots' outputs))
    outputs.

(** Lines 111-112. *)
Fixpoint stack_outputs_on (outputs : dict (list (option (@Tensor scalar))))
  : ST (dict Tensor) :=
  match outputs with
  | [] => st_ret []
  | (name, slots) :: outputs' =>
      let* t := st_lift (torch_stack slots) in
      let* rest := stack_outputs_on outputs' in
      st_ret ((name, t) :: rest)
  end.

(** Lines 93-108. *)
Definition run_batch_on (output_names : list string)
    (inputs : dict (@View scalar)) (batch_size : nat)
    (outputs : dict (list (option (@Tensor scalar))))
  : ST (dict (list (option Tensor))) :=
  st_for_each (range batch_size)
    (fun batch_id outputs =>
       let* result := run_sample_on output_names inputs batch_id in
       store_sample_on output_names result batch_id outputs)
    outputs.

(** [NCNNWrapper.forward] (lines 68-114), for a wrapper that keeps the
    resolved names [output_names] and whose net is that of the engine. *)
Definition forward_on (output_names : list string)
    (inputs : dict (@View scalar)) : ST (dict Tensor) :=
  let* batch_size := forward_validate_on inputs in
  let outputs :=
    dict_of_pairs (map (fun name => (name, replicate batch_size None))
                       output_names) in
  let* outputs := run_batch_on output_names inputs batch_size outputs in
  stack_outputs_on outputs.

(** An engine that is a deterministic function: what an extractor answers
    depends on nothing but what was bound to it.  [bound] reads, from the
    state of the engine, what an extractor has bound; a new extractor has
    nothing bound, [input] binds, and [extract] answers as the function
    [net_extract] of the net and leaves what is bound as it is.  The rest
    of the state may change with every call. *)
Record deterministic_engine (net : @Net scalar)
    (bound : engine_state -> extractor -> dict (@Mat scalar)) : Prop := {
  created_empty :
    forall st, bound (eng_create E st).1 (eng_create E st).2 = [];
  input_binds :
    forall ex name m st,
      bound (eng_input E ex name m st).1 (eng_input E ex name m st).2 =
      dict_set name m (bound st ex);
  extract_answers :
    forall ex name st,
      (eng_extract E ex name st).2 = net_extract net (bound st ex) name;
  extract_keeps :
    forall ex name st, bound (eng_extract E ex name st).1 ex = bound st ex
}.

(** An extractor of the engine and an extractor of the log that are on the
    same net and have the same bound. *)
Definition same_extractor (net : @Net scalar)
    (bound : engine_state -> extractor -> dict (@Mat scalar))
    (st : engine_state) (ex : extractor) (ex' : @Extractor scalar) : Prop :=
  ex_net ex' = net /\ ex_bound ex' = bound st ex.

End Stateful.

(** The engine of the first reading: its state is the log, an extractor
    is the net with what it has bound. *)
Definition logged_engine {scalar : Type} (net : @Net scalar)
  : @Engine scalar (list event) Extractor :=
  mkEngine (fun s => (s ++ [EvCreateExtractor], mkExtractor net []))
           (fun ex name m s =>
              (s ++ [EvInput name m],
               mkExtractor (ex_net ex) (dict_set name m (ex_bound ex))))
           (fun ex name s =>
              (s ++ [EvExtract name],
               net_extract (ex_net ex) (ex_bound ex) name)).

(** * The TensorRT rewrite of SRCNN

    [src/mmdeploy/codebase/mmedit/models/backbones/srcnn.py].  The class
    wraps a module that its caller still holds, and changes that module in
    place.  Objects therefore live in a heap and are passed by reference;
    an object is its class name and its attribute dictionary.  An
    [nn.Upsample] is represented by the attributes that the arguments of
    its constructor set; a Python [float] is an IEEE 754 binary64
    number. *)

Module SRCNN__tensorrt.

Abbreviation pyfloat := SpecFloat.spec_float.

(** Python values: [None], a [bool], an [int], a [float], a [str], a tuple
    of [int]s, a tuple of [float]s and a reference to an object. *)
Inductive value :=
  | VNone
  | VBool (b : bool)
  | VInt (z : Z)
  | VFloat (x : pyfloat)
  | VStr (s : string)
  | VTuple (zs : list Z)
  | VFloats (xs : list pyfloat)
  | VRef (l : nat).

Record object := mkObject {
  cls : string;
  attrs : dict value
}.

Abbreviation heap := (list object).

Inductive error :=
  | AttributeError (name : string)
  | TypeError
  | ValueError
  | OverflowError.

Inductive outcome (A : Type) :=
  | Done (a : A)
  | Failed (e : error).
Global Arguments Done {A} a.
Global Arguments Failed {A} e.

(** [v.name], for the attribute names that the class uses: only objects of
    the heap have them. *)
Definition getattr (h : heap) (v : value) (name : string) : outcome value :=
  match v with
  | VRef l =>
      match h !! l with
      | Some o =>
          match dict_get (attrs o) name with
          | Some x => Done x
          | None => Failed (AttributeError name)
          end
      | None => Failed (AttributeError name)
      end
  | _ => Failed (AttributeError name)
  end.

(** [v.name = x]. *)
Definition setattr (h : heap) (v : value) (name : string) (x : value)
  : outcome heap :=
  match v with
  | VRef l =>
      match h !! l with
      | Some o => Done (<[l := mkObject (cls o) (dict_set name x (attrs o))]> h)
      | None => Failed (AttributeError name)
      end
  | _ => Failed (AttributeError name)
  end.

(** A new object; its reference is the next free place of the heap. *)
Definition alloc (h : heap) (o : object) : heap * nat := (h ++ [o], length h).

(** [float(z)] of an [int]: the nearest binary64 number, ties to even, and
    [OverflowError] beyond the largest one. *)
Definition float_of_int (z : Z) : outcome pyfloat :=
  match SpecFloat.binary_normalize 53 1024 z 0 false with
  | SpecFloat.S754_infinity _ => Failed OverflowError
  | x => Done x
  end.

(** [tuple(float(z) for z in zs)]. *)
Fixpoint floats_of_ints (zs : list Z) : outcome (list pyfloat) :=
  match zs with
  | [] => Done []
  | z :: zs' =>
      match float_of_int z with
      | Failed e => Failed e
      | Done x =>
          match floats_of_ints zs' with
          | Failed e => Failed e
          | Done xs => Done (x :: xs)
          end
      end
  end.

(** [bool(v)].  The objects of the heap define neither [__bool__] nor
    [__len__], so every one of them is true. *)
Definition truthy (v : value) : bool :=
  match v with
  | VNone => false
  | VBool b => b
  | VInt z => negb (z =? 0)%Z
  | VFloat (SpecFloat.S754_zero _) => false
  | VFloat _ => true
  | VStr EmptyString => false
  | VStr _ => true
  | VTuple [] => false
  | VTuple _ => true
  | VFloats [] => false
  | VFloats _ => true
  | VRef _ => true
  end.

Section Construction.

(** [float(s)] of a string: the number that Python reads in [s], and [None]
    where it raises [ValueError].  How Python reads a number is not among
    the sources. *)
Context (float_of_str : string -> option pyfloat).

(** [float(v)].  The objects of the heap define neither [__float__] nor
    [__index__]. *)
Definition float (v : value) : outcome pyfloat :=
  match v with
  | VBool b => float_of_int (if b then 1 else 0)
  | VInt z => float_of_int z
  | VFloat x => Done x
  | VStr s =>
      match float_of_str s with
      | Some x => Done x
      | None => Failed ValueError
      end
  | VNone | VTuple _ | VFloats _ | VRef _ => Failed TypeError
  end.

(** [nn.Upsample(scale_factor=factor, mode=mode, align_corners=align)].
    The class is that of [torch.nn], not among the sources; its constructor
    keeps [tuple(float(f) for f in scale_factor)] for a tuple and
    [float(scale_factor) if scale_factor else None] for anything else, then
    the mode and the alignment as they are given. *)
Definition Upsample (factor : value) (mode : string) (align : bool)
  : outcome object :=
  let made scale_factor :=
    Done (mkObject "Upsample"
            [("scale_factor", scale_factor); ("mode", VStr mode);
             ("align_corners", VBool align)]) in
  match factor with
  | VTuple zs =>
      match floats_of_ints zs with
      | Failed e => Failed e
      | Done xs => made (VFloats xs)
      end
  | VFloats xs => made (VFloats xs)
  | _ =>
      if truthy factor
      then match float factor with
           | Failed e => Failed e
           | Done x => made (VFloat x)
           end
      else made VNone
  end.

(** [SRCNN__tensorrt(module, channels, kernel_sizes, upscale_factor)]
    (lines 30-42): the new object, then the body of [__init__].  When
    [nn.Upsample] raises, the assignment of line 39 does not take place. *)
Definition init (h : heap) (module channels kernel_sizes upscale_factor : value)
  : heap * outcome nat :=
  let (h1, self) := alloc h (mkObject "SRCNN__tensorrt" []) in
  match setattr h1 (VRef self) "_module" module with
  | Failed e => (h1, Failed e)
  | Done h2 =>
      match getattr h2 module "upscale_factor" with
      | Failed e => (h2, Failed e)
      | Done factor =>
          match Upsample factor "bilinear" false with
          | Failed e => (h2, Failed e)
          | Done upsampler =>
              let (h3, up) := alloc h2 upsampler in
              match setattr h3 module "img_upsampler" (VRef up) with
              | Failed e => (h3, Failed e)
              | Done h4 => (h4, Done self)
              end
          end
      end
  end.

End Construction.

Section Calls.

(** The positional and keyword arguments of a call are passed on as they
    are. *)
Context {arguments : Type}.

(** What calling a method of an object does: the modules that the class
    wraps are not among the sources.  [__call__] is the call of the object
    itself. *)
Context (invoke : heap -> value -> string -> arguments -> heap * outcome value).

(** [forward] (lines 44-46). *)
Definition forward (h : heap) (self : value) (args : arguments)
  : heap * outcome value :=
  match getattr h self "_module" with
  | Done module => invoke h module "__call__" args
  | Failed e => (h, Failed e)
  end.

(** [init_weights] (lines 48-50). *)
Definition init_weights (h : heap) (self : value) (args : arguments)
  : heap * outcome value :=
  match getattr h self "_module" with
  | Done module => invoke h module "init_weights" args
  | Failed e => (h, Failed e)
  end.

End Calls.

End SRCNN__tensorrt.

(** * The rewrites of [AnchorHead.get_bboxes]

    [src/mmdeploy/codebase/mmdet/models/dense_heads/anchor_head.py].  The
    two functions move tensors around and call into code that is not among
    the sources.  The moves (permute, reshape, expand, indexing, cat,
    slicing) are written out on the shape and the flat buffer of a tensor.
    The numeric kernels of torch, the anchor generator and the box coder of
    the head, and the helpers of mmdeploy ([is_dynamic_shape],
    [get_backend], [get_post_processing_params], [pad_with_value],
    [multiclass_nms]) are parameters. *)

Module anchor_head.

Inductive error :=
  | AssertionError
  | IndexError
  | KeyError (key : string)
  | AttributeError (name : string)
  | TorchError.

Inductive outcome (A : Type) :=
  | Done (a : A)
  | Failed (e : error).
Global Arguments Done {A} a.
Global Arguments Failed {A} e.

Global Instance outcome_ret : MRet outcome := fun A a => Done a.

Global Instance outcome_bind : MBind outcome :=
  fun A B f m =>
    match m with
    | Done a => f a
    | Failed e => Failed e
    end.

(** [assert cond]. *)
Definition py_assert (cond : bool) : outcome unit :=
  if cond then Done tt else Failed AssertionError.

(** A missing value raises [e]. *)
Definition require {A} (e : error) (o : option A) : outcome A :=
  match o with
  | Some a => Done a
  | None => Failed e
  end.

(** The members of [mmdeploy.utils.Backend] that matter here. *)
Inductive Backend :=
  | TENSORRT
  | NCNN
  | OtherBackend (name : string).

Global Instance Backend_eq_dec : EqDecision Backend.
Proof. solve_decision. Defined.

(** A tensor of indices. *)
Record ITensor := mkITensor {
  ishape : list nat;
  idata : list nat
}.

(** ** Moving elements *)

(** [count] consecutive pieces of [n] elements. *)
Definition chunks {A} (n count : nat) (l : list A) : list (list A) :=
  map (fun i => take n (drop (i * n) l)) (seq 0 count).

(** [shape[-2:]]. *)
Definition last_two (sh : list nat) : list nat := drop (length sh - 2) sh.

(** The buffer of [t.permute(0, 2, 3, 1)] for [t] of shape [n, c, h, w]. *)
Definition permute_0231_data {A} (n c h w : nat) (d : list A) : list A :=
  flat_map (fun i =>
    flat_map (fun y =>
      flat_map (fun x =>
        flat_map (fun k =>
          option_list (d !! (((i * c + k) * h + y) * w + x)))
          (seq 0 c))
        (seq 0 w))
      (seq 0 h))
    (seq 0 n).

(** The buffer of a tensor of shape [sh] expanded to the shape [target]:
    a new leading dimension repeats the whole, a dimension of size 1 is
    repeated, any other dimension must agree. *)
Fixpoint expand_data {A} (target sh : list nat) (d : list A)
  : option (list A) :=
  match target with
  | [] =>
      match sh with
      | [] => Some d
      | _ :: _ => None
      end
  | e :: target' =>
      if decide (length sh < length target)
      then
        match expand_data target' sh d with
        | Some piece => Some (concat (replicate e piece))
        | None => None
        end
      else
        match sh with
        | [] => None
        | size :: sh' =>
            if decide (size = e)
            then
              match mapM (expand_data target' sh')
                         (chunks (foldr Nat.mul 1 sh') size d) with
              | Some pieces => Some (concat pieces)
              | None => None
              end
            else if decide (size = 1)
            then
              match expand_data target' sh' d with
              | Some piece => Some (concat (replicate e piece))
              | None => None
              end
            else None
        end
  end.

Section Functions.

Context {scalar : Type}.

(** The numeric kernels of torch.  [softmax_at row x] is the softmax of the
    element [x] of the row [row]; [row_max] is the maximum of a row that is
    not empty; [topk k row] is the indices of the [k] largest elements of a
    row of at least [k] elements; [zero] is the float [0.]. *)
Record Kernels := mkKernels {
  sigmoid : scalar -> scalar;
  softmax_at : list scalar -> scalar -> scalar;
  row_max : list scalar -> scalar;
  topk : nat -> list scalar -> list nat;
  zero : scalar
}.

(** [t.permute(0, 2, 3, 1)]: for four dimensions only. *)
Definition permute_0231 (t : @Tensor scalar) : outcome Tensor :=
  match shape t with
  | [n; c; h; w] =>
      Done (mkTensor [n; h; w; c] (permute_0231_data n c h w (data t))
                     (device t))
  | _ => Failed TorchError
  end.

(** [t.reshape(b, -1, k)]: the middle dimension is what is left of the
    elements; it cannot be found when [b * k] is 0 or does not divide their
    number. *)
Definition reshape3 (t : @Tensor scalar) (b k : nat) : outcome Tensor :=
  let total := numel (shape t) in
  if decide (b * k = 0) then Failed TorchError
  else if decide (total `mod` (b * k) = 0)
       then Done (mkTensor [b; total `div` (b * k); k] (data t) (device t))
       else Failed TorchError.

(** The number of rows and the length of a row along the last dimension. *)
Definition row_count (sh : list nat) : nat := numel (removelast sh).
Definition row_length (sh : list nat) : nat := default 1 (last sh).

(** A function applied to every row along the last dimension. *)
Definition map_rows (f : list scalar -> list scalar) (t : @Tensor scalar)
  : list scalar :=
  concat (map f (chunks (row_length (shape t)) (row_count (shape t)) (data t))).

(** [t.sigmoid()]. *)
Definition t_sigmoid (K : Kernels) (t : @Tensor scalar) : Tensor :=
  mkTensor (shape t) (map (sigmoid K) (data t)) (device t).

(** [t.softmax(-1)]. *)
Definition t_softmax (K : Kernels) (t : @Tensor scalar) : Tensor :=
  mkTensor (shape t) (map_rows (fun row => map (softmax_at K row) row) t)
           (device t).

(** [t[..., :-1]]. *)
Definition drop_last_column (t : @Tensor scalar) : outcome Tensor :=
  match shape t with
  | [] => Failed IndexError
  | _ :: _ =>
      Done (mkTensor (removelast (shape t) ++ [row_length (shape t) - 1])
                     (map_rows (take (row_length (shape t) - 1)) t)
                     (device t))
  end.

(** [t[..., :n]]. *)
Definition first_columns (t : @Tensor scalar) (n : nat) : outcome Tensor :=
  match shape t with
  | [] => Failed IndexError
  | _ :: _ =>
      Done (mkTensor (removelast (shape t) ++ [row_length (shape t) `min` n])
                     (map_rows (take n) t)
                     (device t))
  end.

(** [t.max(-1)], the values: one for every row, which must not be empty. *)
Definition max_last (K : Kernels) (t : @Tensor scalar) : outcome Tensor :=
  match shape t with
  | [] => Failed TorchError
  | _ :: _ =>
      if decide (row_length (shape t) = 0) then Failed TorchError
      else Done (mkTensor (removelast (shape t))
                          (map (row_max K)
                               (chunks (row_length (shape t))
                                       (row_count (shape t)) (data t)))
                          (device t))
  end.

(** [t.topk(k)], the indices: [k] for every row, which must have at least
    [k] elements. *)
Definition topk_last (K : Kernels) (t : @Tensor scalar) (k : nat)
  : outcome ITensor :=
  match shape t with
  | [] => Failed TorchError
  | _ :: _ =>
      if decide (k <= row_length (shape t))
      then Done (mkITensor (removelast (shape t) ++ [k])
                           (concat (map (topk K k)
                                        (chunks (row_length (shape t))
                                                (row_count (shape t))
                                                (data t)))))
      else Failed TorchError
  end.

(** [a.expand_as(b)]. *)
Definition expand_as (a b : @Tensor scalar) : outcome Tensor :=
  match expand_data (shape b) (shape a) (data a) with
  | Some d => Done (mkTensor (shape b) d (device a))
  | None => Failed TorchError
  end.

(** [torch.arange(n).view(-1, 1).expand_as(i)]. *)
Definition arange_column_as (n : nat) (i : ITensor) : outcome ITensor :=
  match expand_data (ishape i) [n; 1] (seq 0 n) with
  | Some d => Done (mkITensor (ishape i) d)
  | None => Failed TorchError
  end.

(** Row [i] of sample [b] of a tensor of shape [n, rows, k]. *)
Definition row_at (t : @Tensor scalar) (b i : nat) : option (list scalar) :=
  match shape t with
  | [n; rows; k] =>
      if decide (b < n /\ i < rows)
      then Some (take k (drop ((b * rows + i) * k) (data t)))
      else None
  | _ => None
  end.

(** [t[bi, ri, :]] for a tensor [t] of three dimensions and two index
    tensors of one shape. *)
Definition index_pairs (t : @Tensor scalar) (bi ri : ITensor)
  : outcome Tensor :=
  if decide (ishape bi = ishape ri) then
    match mapM (fun p => row_at t p.1 p.2) (zip (idata bi) (idata ri)) with
    | Some rows =>
        Done (mkTensor (ishape ri ++ [row_length (shape t)]) (concat rows)
                       (device t))
    | None => Failed TorchError
    end
  else Failed TorchError.

(** [i.view(-1)]. *)
Definition view_flat (i : ITensor) : ITensor :=
  mkITensor [length (idata i)] (idata i).

(** [t[:, ri, :]] for a tensor [t] of three dimensions and a tensor [ri] of
    one dimension. *)
Definition index_rows (t : @Tensor scalar) (ri : ITensor) : outcome Tensor :=
  match shape t, ishape ri with
  | [n; rows; k], [_] =>
      match mapM (fun b => mapM (row_at t b) (idata ri)) (seq 0 n) with
      | Some samples =>
          Done (mkTensor [n; length (idata ri); k]
                         (concat (map (@concat scalar) samples)) (device t))
      | None => Failed TorchError
      end
  | _, _ => Failed TorchError
  end.

(** A shape of three dimensions, the first [n] and the last [k]. *)
Definition fits_dim1 (n k : nat) (sh : list nat) : bool :=
  match sh with
  | [n'; _; k'] => bool_decide (n' = n /\ k' = k)
  | _ => false
  end.

(** [torch.cat(ts, dim=1)] for tensors of three dimensions that agree in the
    first and in the last, and in the device. *)
Definition cat_dim1 (ts : list (@Tensor scalar)) : outcome Tensor :=
  match ts with
  | [] => Failed TorchError
  | t0 :: _ =>
      match shape t0 with
      | [n; _; k] =>
          if forallb (fun t =>
                        fits_dim1 n k (shape t) &&
                        bool_decide (device t = device t0)) ts
          then
            Done (mkTensor
                    [n; foldr (fun t acc => nth 1 (shape t) 0 + acc) 0 ts; k]
                    (flat_map (fun b =>
                       flat_map (fun t =>
                         take (nth 1 (shape t) 0 * k)
                              (drop (b * (nth 1 (shape t) 0 * k)) (data t)))
                         ts)
                       (seq 0 n))
                    (device t0))
          else Failed TorchError
      | _ => Failed TorchError
      end
  end.

(** ** What the functions are given *)

(** The test configuration: what [cfg.get] and [cfg.nms.get] find. *)
Record NmsCfg := mkNmsCfg {
  nms_iou_threshold : option scalar
}.

Record Cfg := mkCfg {
  nms_pre : option Z;
  score_thr : option scalar;
  max_per_img : option Z;
  nms : option NmsCfg
}.

(** The result of [get_post_processing_params]. *)
Record PostParams := mkPostParams {
  max_output_boxes_per_class : Z;
  iou_threshold : scalar;
  score_threshold : scalar;
  pre_top_k : Z;
  keep_top_k : Z
}.

(** The deploy configuration [ctx.cfg] is only passed to helpers of
    mmdeploy; [nms_result] is whatever [multiclass_nms] returns. *)
Context {deploy_cfg nms_result : Type}.

(** The helpers of mmdeploy that the functions call; none of them is among
    the sources. *)
Record Helpers := mkHelpers {
  is_dynamic_shape : deploy_cfg -> bool;
  get_backend : deploy_cfg -> Backend;
  get_post_processing_params : deploy_cfg -> PostParams;
  pad_with_value :
    @Tensor scalar -> nat -> Z -> option scalar -> outcome (@Tensor scalar);
  multiclass_nms :
    @Tensor scalar -> @Tensor scalar -> Z -> scalar -> scalar -> Z -> Z ->
    outcome nms_result
}.

(** The head [self]: what the functions read from it and call on it. *)
Record AnchorHead := mkAnchorHead {
  grid_anchors : list (list nat) -> device_type -> outcome (list (@Tensor scalar));
  cls_out_channels : nat;
  use_sigmoid_cls : bool;
  num_classes : nat;
  test_cfg : option Cfg;
  decode : @Tensor scalar -> @Tensor scalar -> list nat -> outcome (@Tensor scalar)
}.

(** What is returned: boxes and scores, or the result of the NMS. *)
Inductive detections :=
  | Raw (bboxes scores : @Tensor scalar)
  | Kept (r : nms_result).

(** The candidates of one level. *)
Record Level := mkLevel {
  level_bboxes : @Tensor scalar;
  level_scores : @Tensor scalar;
  level_anchors : @Tensor scalar
}.

Context (H : Helpers) (K : Kernels).

(** Lines 75-117: one turn of the loop of [anchor_head__get_bboxes]. *)
Definition level_default (ctx : deploy_cfg) (self : AnchorHead)
    (is_dynamic_flag : bool) (batch_size : nat) (pre_topk : Z)
    (item : @Tensor scalar * @Tensor scalar * @Tensor scalar)
  : outcome Level :=
  let cls_score := item.1.1 in
  let bbox_pred := item.1.2 in
  let anchors := item.2 in
  _ ← py_assert (bool_decide (last_two (shape cls_score) =
                               last_two (shape bbox_pred)));
  cls_score ← permute_0231 cls_score;
  cls_score ← reshape3 cls_score batch_size (cls_out_channels self);
  let scores :=
    if use_sigmoid_cls self then t_sigmoid K cls_score
    else t_softmax K cls_score in
  bbox_pred ← permute_0231 bbox_pred;
  bbox_pred ← reshape3 bbox_pred batch_size 4;
  let anchors := if negb is_dynamic_flag then detach anchors else anchors in
  anchors ← expand_as anchors bbox_pred;
  let backend := get_backend H ctx in
  padded ←
    (if decide (backend = TENSORRT)
     then
       anchors ← pad_with_value H anchors 1 pre_topk None;
       bbox_pred ← pad_with_value H bbox_pred 1 pre_topk None;
       scores ← pad_with_value H scores 1 pre_topk (Some (zero K));
       mret (mkLevel bbox_pred scores anchors)
     else mret (mkLevel bbox_pred scores anchors));
  let anchors := level_anchors padded in
  let bbox_pred := level_bboxes padded in
  let scores := level_scores padded in
  if decide (0 < pre_topk)%Z
  then
    max_scores ←
      (if use_sigmoid_cls self then max_last K scores
       else
         foreground ← drop_last_column scores;
         max_last K foreground);
    topk_inds ← topk_last K max_scores (Z.to_nat pre_topk);
    batch_inds ← arange_column_as batch_size topk_inds;
    anchors ← index_pairs anchors batch_inds topk_inds;
    bbox_pred ← index_pairs bbox_pred batch_inds topk_inds;
    scores ← index_pairs scores batch_inds topk_inds;
    mret (mkLevel bbox_pred scores anchors)
  else mret (mkLevel bbox_pred scores anchors).

(** Lines 119-145, the same in both functions: the levels are joined, the
    boxes decoded, and the NMS applied when asked for. *)
Definition finish (ctx : deploy_cfg) (self : AnchorHead)
    (img_metas : dict (list nat)) (with_nms : bool) (cfg : Cfg)
    (levels : list Level) : outcome detections :=
  batch_mlvl_valid_bboxes ← cat_dim1 (map level_bboxes levels);
  batch_mlvl_scores ← cat_dim1 (map level_scores levels);
  batch_mlvl_anchors ← cat_dim1 (map level_anchors levels);
  max_shape ← require (KeyError "img_shape") (dict_get img_metas "img_shape");
  batch_mlvl_bboxes ←
    decode self batch_mlvl_anchors batch_mlvl_valid_bboxes max_shape;
  batch_mlvl_scores ←
    (if negb (use_sigmoid_cls self)
     then first_columns batch_mlvl_scores (num_classes self)
     else mret batch_mlvl_scores);
  if negb with_nms
  then mret (Raw batch_mlvl_bboxes batch_mlvl_scores)
  else
    let post_params := get_post_processing_params H ctx in
    let max_output_boxes_per_class := max_output_boxes_per_class post_params in
    nms_cfg ← require (AttributeError "nms") (nms cfg);
    let iou_threshold :=
      default (iou_threshold post_params) (nms_iou_threshold nms_cfg) in
    let score_threshold :=
      default (score_threshold post_params) (score_thr cfg) in
    let pre_top_k := pre_top_k post_params in
    let keep_top_k := default (keep_top_k post_params) (max_per_img cfg) in
    r ← multiclass_nms H batch_mlvl_bboxes batch_mlvl_scores
          max_output_boxes_per_class iou_threshold score_threshold
          pre_top_k keep_top_k;
    mret (Kept r).

(** [anchor_head__get_bboxes] (lines 12-145). *)
Definition anchor_head__get_bboxes (ctx : deploy_cfg) (self : AnchorHead)
    (cls_scores bbox_preds : list (@Tensor scalar))
    (img_metas : dict (list nat)) (with_nms : bool) (cfg : option Cfg)
  : outcome detections :=
  _ ← py_assert (bool_decide (length cls_scores = length bbox_preds));
  let deploy_cfg := ctx in
  let is_dynamic_flag := is_dynamic_shape H deploy_cfg in
  first ← require IndexError (cls_scores !! 0);
  let device := device first in
  let featmap_sizes := map (fun t => last_two (shape t)) cls_scores in
  mlvl_anchors ← grid_anchors self featmap_sizes device;
  let mlvl_cls_scores := map detach cls_scores in
  let mlvl_bbox_preds := map detach bbox_preds in
  let cfg := match cfg with None => test_cfg self | Some c => Some c end in
  _ ← py_assert (bool_decide (length mlvl_cls_scores = length mlvl_bbox_preds /\
                               length mlvl_bbox_preds = length mlvl_anchors));
  first ← require IndexError (mlvl_cls_scores !! 0);
  batch_size ← require IndexError (shape first !! 0);
  cfg ← require (AttributeError "get") cfg;
  let pre_topk := default (-1)%Z (nms_pre cfg) in
  levels ←
    mapM (level_default deploy_cfg self is_dynamic_flag batch_size pre_topk)
         (zip (zip mlvl_cls_scores mlvl_bbox_preds) mlvl_anchors);
  finish deploy_cfg self img_metas with_nms cfg levels.

(** Lines 213-244: one turn of the loop of
    [anchor_head__get_bboxes__ncnn]. *)
Definition level_ncnn (self : AnchorHead) (batch_size : nat) (pre_topk : Z)
    (item : @Tensor scalar * @Tensor scalar * @Tensor scalar)
  : outcome Level :=
  let cls_score := item.1.1 in
  let bbox_pred := item.1.2 in
  let anchors := item.2 in
  _ ← py_assert (bool_decide (last_two (shape cls_score) =
                               last_two (shape bbox_pred)));
  cls_score ← permute_0231 cls_score;
  cls_score ← reshape3 cls_score batch_size (cls_out_channels self);
  let scores :=
    if use_sigmoid_cls self then t_sigmoid K cls_score
    else t_softmax K cls_score in
  bbox_pred ← permute_0231 bbox_pred;
  bbox_pred ← reshape3 bbox_pred batch_size 4;
  anchors ← expand_as anchors bbox_pred;
  let anchors := detach anchors in
  if decide (0 < pre_topk)%Z
  then
    max_scores ←
      (if use_sigmoid_cls self then max_last K scores
       else
         foreground ← drop_last_column scores;
         max_last K foreground);
    topk_inds ← topk_last K max_scores (Z.to_nat pre_topk);
    let topk_inds := view_flat topk_inds in
    anchors ← index_rows anchors topk_inds;
    bbox_pred ← index_rows bbox_pred topk_inds;
    scores ← index_rows scores topk_inds;
    mret (mkLevel bbox_pred scores anchors)
  else mret (mkLevel bbox_pred scores anchors).

(** [anchor_head__get_bboxes__ncnn] (lines 150-273). *)
Definition anchor_head__get_bboxes__ncnn (ctx : deploy_cfg) (self : AnchorHead)
    (cls_scores bbox_preds : list (@Tensor scalar))
    (img_metas : dict (list nat)) (with_nms : bool) (cfg : option Cfg)
  : outcome detections :=
  _ ← py_assert (bool_decide (length cls_scores = length bbox_preds));
  let deploy_cfg := ctx in
  _ ← py_assert (negb (is_dynamic_shape H deploy_cfg));
  first ← require IndexError (cls_scores !! 0);
  let device := device first in
  let featmap_sizes := map (fun t => last_two (shape t)) cls_scores in
  mlvl_anchors ← grid_anchors self featmap_sizes device;
  let mlvl_cls_scores := map detach cls_scores in
  let mlvl_bbox_preds := map detach bbox_preds in
  let cfg := match cfg with None => test_cfg self | Some c => Some c end in
  _ ← py_assert (bool_decide (length mlvl_cls_scores = length mlvl_bbox_preds /\
                               length mlvl_bbox_preds = length mlvl_anchors));
  let batch_size := 1 in
  cfg ← require (AttributeError "get") cfg;
  let pre_topk := default (-1)%Z (nms_pre cfg) in
  levels ←
    mapM (level_ncnn self batch_size pre_topk)
         (zip (zip mlvl_cls_scores mlvl_bbox_preds) mlvl_anchors);
  finish deploy_cfg self img_metas with_nms cfg levels.

(** ** What the properties speak of *)

(** The configuration that is used: [self.test_cfg if cfg is None else cfg]. *)
Definition used_cfg (self : AnchorHead) (cfg : option Cfg) : option Cfg :=
  match cfg with None => test_cfg self | Some c => Some c end.

(** [cls_scores[0].shape[0]], and 0 where there is none. *)
Definition batch_size_of (cls_scores : list (@Tensor scalar)) : nat :=
  default 0 (first ← cls_scores !! 0; shape first !! 0).

(** [cfg.get('nms_pre', -1)] of the configuration that is used. *)
Definition nms_pre_of (self : AnchorHead) (cfg : option Cfg) : Z :=
  default (-1)%Z (c ← used_cfg self cfg; nms_pre c).

(** The rows that a level has for every image: one for every anchor at
    every position of the feature map. *)
Definition positions (self : AnchorHead) (batch_size : nat)
    (cls_score : @Tensor scalar) : nat :=
  numel (shape cls_score) `div` (batch_size * cls_out_channels self).

(** The rows that a level hands on for every image. *)
Definition candidates (self : AnchorHead) (batch_size : nat) (pre_topk : Z)
    (cls_score : @Tensor scalar) : nat :=
  if decide (0 < pre_topk)%Z then Z.to_nat pre_topk
  else positions self batch_size cls_score.

(** The columns of the scores that are returned. *)
Definition score_columns (self : AnchorHead) : nat :=
  if use_sigmoid_cls self then cls_out_channels self
  else cls_out_channels self `min` num_classes self.

(** What the NMS is called with, for the configuration [c]: three of the
    thresholds are taken from [c] where it has them. *)
Definition nms_call (ctx : deploy_cfg) (c : Cfg)
    (bboxes scores : @Tensor scalar) : outcome detections :=
  let post_params := get_post_processing_params H ctx in
  nms_cfg ← require (AttributeError "nms") (nms c);
  r ← multiclass_nms H bboxes scores
        (max_output_boxes_per_class post_params)
        (default (iou_threshold post_params) (nms_iou_threshold nms_cfg))
        (default (score_threshold post_params) (score_thr c))
        (pre_top_k post_params)
        (default (keep_top_k post_params) (max_per_img c));
  mret (Kept r).

(** What follows the NMS-free result [d] when the NMS is asked for. *)
Definition then_nms (ctx : deploy_cfg) (self : AnchorHead)
    (cfg : option Cfg) (d : detections) : outcome detections :=
  match d with
  | Raw bboxes scores =>
      c ← require (AttributeError "get") (used_cfg self cfg);
      nms_call ctx c bboxes scores
  | Kept r => mret (Kept r)
  end.

(** [cls_score.sigmoid()] or [cls_score.softmax(-1)], as the head says. *)
Definition activated (self : AnchorHead) (t : @Tensor scalar) : Tensor :=
  if use_sigmoid_cls self then t_sigmoid K t else t_softmax K t.

(** What the two tensors of a level must be like for a turn of the loop to
    get past its first two statements: four dimensions each, the last two
    the same. *)
Definition level_fits (cls_score bbox_pred : @Tensor scalar) : Prop :=
  length (shape cls_score) = 4 /\
  length (shape bbox_pred) = 4 /\
  last_two (shape cls_score) = last_two (shape bbox_pred).

End Functions.

End anchor_head.


(** * Examples *)

Open Scope Z_scope.

(** A matrix without elements, as ncnn returns it for a failed extraction. *)
Definition empty_mat : @Mat Z := mkMat [] [].

(** A toy detector over one input, [input], of two elements a sample.
    Output [boxes] is the sample itself, output [scores] the sum of its
    elements; any other name fails with status -1. *)
Definition detector_extract (bound : dict (@Mat Z)) (name : string)
  : Z * @Mat Z :=
  match dict_get bound "input" with
  | Some m =>
      if decide (name = "boxes") then (0, m)
      else if decide (name = "scores")
           then (0, mkMat [1%nat] [foldr Z.add 0 (mat_data m)])
           else (-1, empty_mat)
  | None => (-1, empty_mat)
  end.

Definition detector : @Net Z :=
  mkNet (Some ["boxes"; "scores"]) detector_extract.

Definition detector_wrapper : @NCNNWrapper Z :=
  mkWrapper detector ["boxes"; "scores"].

(** A net whose object has no attribute [output_names]. *)
Definition silent_net : @Net Z := mkNet None detector_extract.

(** The detector with the extraction of [broken] failing with status -100. *)
Definition failing_on (broken : string) : @Net Z :=
  mkNet (Some ["boxes"; "scores"])
        (fun bound name =>
           if decide (name = broken) then (-100, empty_mat)
           else detector_extract bound name).

(** A net whose output [boxes] has as many rows as the first element of
    the sample says. *)
Definition ragged : @Net Z :=
  mkNet (Some ["boxes"])
        (fun bound name =>
           match dict_get bound "input" with
           | Some m =>
               let rows := Z.to_nat (hd 0 (mat_data m)) in
               (0, mkMat [rows] (replicate rows 0))
           | None => (-1, empty_mat)
           end).

(** An engine with a state of its own: it counts the calls made to it and
    numbers the extractors it hands out; a table keeps what each of them
    has bound. *)
Record counting_state := mkCounting {
  calls : nat;
  next_extractor : nat;
  table : nat -> dict (@Mat Z)
}.

Definition counting_engine (net : @Net Z) : @Engine Z counting_state nat :=
  mkEngine
    (fun st =>
       (mkCounting (S (calls st)) (S (next_extractor st))
          (fun i => if decide (i = next_extractor st) then []
                    else table st i),
        next_extractor st))
    (fun ex name m st =>
       (mkCounting (S (calls st)) (next_extractor st)
          (fun i => if decide (i = ex) then dict_set name m (table st ex)
                    else table st i),
        ex))
    (fun ex name st =>
       (mkCounting (S (calls st)) (next_extractor st) (table st),
        net_extract net (table st ex) name)).

(** The engine before any call. *)
Definition idle : counting_state := mkCounting 0 0 (fun _ => []).

(** Inputs as [torch.tensor(...)] makes them: contiguous, of 32-bit
    floats. *)
Definition one_sample : dict (@View Z) :=
  [("input", fresh float32 (mkTensor [1; 2]%nat [3; 4] cpu))].

Definition two_samples : dict (@View Z) :=
  [("input", fresh float32 (mkTensor [2; 2]%nat [1; 2; 3; 4] cpu))].

Definition no_samples : dict (@View Z) :=
  [("input", fresh float32 (mkTensor [0; 2]%nat [] cpu))].

Definition one_sample_on_gpu : dict (@View Z) :=
  [("input", fresh float32 (mkTensor [1; 2]%nat [3; 4] cuda))].

Definition mixed_batch : dict (@View Z) :=
  [("input", fresh float32 (mkTensor [2; 2]%nat [1; 2; 3; 4] cpu));
   ("mask", fresh float32 (mkTensor [3; 1]%nat [1; 0; 1] cpu))].

Definition no_samples_gpu_mask : dict (@View Z) :=
  [("input", fresh float32 (mkTensor [0; 2]%nat [] cpu));
   ("mask", fresh float32 (mkTensor [0; 1]%nat [] cuda))].

(** A net that answers every name with status 0 and the same matrix. *)
Definition constant_net : @Net Z :=
  mkNet (Some ["boxes"]) (fun _ _ => (0, mkMat [1%nat] [0])).

(** A batch of two numbers: its samples have no dimension. *)
Definition flat_batch : dict (@View Z) :=
  [("input", fresh float32 (mkTensor [2]%nat [3; 4] cpu))].

(** [torch.tensor([[1., 2.], [3., 4.], [5., 6.]]).t()]: the elements
    [[1, 3, 5], [2, 4, 6]] over the storage of the tensor that was
    transposed. *)
Definition transposed_batch : dict (@View Z) :=
  [("input", mkView [(2, 1); (3, 2)]%nat 0 [1; 2; 3; 4; 5; 6] float32 cpu)].

(** A batch of one sample of five dimensions. *)
Definition deep_batch : dict (@View Z) :=
  [("input", fresh float32 (mkTensor [1; 1; 1; 1; 1; 2]%nat [3; 4] cpu))].

(** A batch of 64-bit floats. *)
Definition double_batch : dict (@View Z) :=
  [("input", fresh float64 (mkTensor [1; 2]%nat [3; 4] cpu))].

Close Scope Z_scope.

(** The detector with the extraction of [scores] failing, with status
    -100, for the samples whose first element is 3. *)
Definition rejects_three : @Net Z :=
  mkNet (Some ["boxes"; "scores"])
        (fun bound name =>
           match dict_get bound "input" with
           | Some m =>
               if decide (name = "scores" /\ hd 0%Z (mat_data m) = 3%Z)
               then ((-100)%Z, empty_mat)
               else detector_extract bound name
           | None => ((-1)%Z, empty_mat)
           end).

(** Two inputs, the second with another batch size and on the GPU. *)
Definition doubly_wrong : dict (@View Z) :=
  [("input", fresh float32 (mkTensor [2; 2] [1; 2; 3; 4]%Z cpu));
   ("mask", fresh float32 (mkTensor [3; 1] [1; 0; 1]%Z cuda))].

(** The number [z] as a [float]. *)
Definition float_z (z : Z) : SRCNN__tensorrt.pyfloat :=
  SpecFloat.binary_normalize 53 1024 z 0 false.

(** A reading of strings for the examples: a string of decimal digits is
    read as its number.  Of the other strings that Python reads as numbers
    (signs, fractions, exponents, infinities) none occurs in the examples,
    and none is read here. *)
Fixpoint digits_value (s : string) (acc : Z) : option Z :=
  match s with
  | EmptyString => Some acc
  | String c s' =>
      let n := Z.of_nat (Ascii.nat_of_ascii c) in
      if decide (48 <= n <= 57)%Z
      then digits_value s' (10 * acc + (n - 48))%Z
      else None
  end.

Definition float_of_digits (s : string) : option SRCNN__tensorrt.pyfloat :=
  match s with
  | EmptyString => None
  | _ => float_z <$> digits_value s 0
  end.

(** A heap with an SRCNN module at 0, upsampled bicubically by 4, and a
    module at 2 that has no upscale factor. *)
Definition srcnn_heap : list SRCNN__tensorrt.object :=
  [SRCNN__tensorrt.mkObject "SRCNN"
     [("upscale_factor", SRCNN__tensorrt.VInt 4);
      ("img_upsampler", SRCNN__tensorrt.VRef 1)];
   SRCNN__tensorrt.mkObject "Upsample"
     [("scale_factor", SRCNN__tensorrt.VFloat (float_z 4));
      ("mode", SRCNN__tensorrt.VStr "bicubic");
      ("align_corners", SRCNN__tensorrt.VBool false)];
   SRCNN__tensorrt.mkObject "Identity" []].

(** The upsampler that the rewrite makes for that module. *)
Definition bilinear_by_4 : SRCNN__tensorrt.object :=
  SRCNN__tensorrt.mkObject "Upsample"
    [("scale_factor", SRCNN__tensorrt.VFloat (float_z 4));
     ("mode", SRCNN__tensorrt.VStr "bilinear");
     ("align_corners", SRCNN__tensorrt.VBool false)].

(** A heap with a module at 0 whose upscale factor is the string [x2]. *)
Definition srcnn_heap_x2 : list SRCNN__tensorrt.object :=
  [SRCNN__tensorrt.mkObject "SRCNN"
     [("upscale_factor", SRCNN__tensorrt.VStr "x2");
      ("img_upsampler", SRCNN__tensorrt.VRef 1)];
   SRCNN__tensorrt.mkObject "Upsample"
     [("scale_factor", SRCNN__tensorrt.VFloat (float_z 2));
      ("mode", SRCNN__tensorrt.VStr "bicubic");
      ("align_corners", SRCNN__tensorrt.VBool false)]].

(** A call that returns the class name of the object called. *)
Definition name_of_class (h : list SRCNN__tensorrt.object)
    (v : SRCNN__tensorrt.value) (method : string) (args : unit)
  : list SRCNN__tensorrt.object * SRCNN__tensorrt.outcome SRCNN__tensorrt.value :=
  match v with
  | SRCNN__tensorrt.VRef l =>
      match h !! l with
      | Some o => (h, SRCNN__tensorrt.Done
                        (SRCNN__tensorrt.VStr (SRCNN__tensorrt.cls o)))
      | None => (h, SRCNN__tensorrt.Done SRCNN__tensorrt.VNone)
      end
  | _ => (h, SRCNN__tensorrt.Done SRCNN__tensorrt.VNone)
  end.

(** The heap after one rewrite of the module at 0, and after a second. *)
Definition srcnn_heap_once : list SRCNN__tensorrt.object :=
  (SRCNN__tensorrt.init float_of_digits srcnn_heap (SRCNN__tensorrt.VRef 0)
     SRCNN__tensorrt.VNone SRCNN__tensorrt.VNone (SRCNN__tensorrt.VInt 2)).1.

Definition srcnn_heap_twice : list SRCNN__tensorrt.object :=
  (SRCNN__tensorrt.init float_of_digits srcnn_heap_once
     (SRCNN__tensorrt.VRef 0)
     SRCNN__tensorrt.VNone SRCNN__tensorrt.VNone (SRCNN__tensorrt.VInt 8)).1.

(** The indices of the [k] largest elements of a row, the first of equal
    elements first. *)
Definition insert_desc (p : nat * Z) : list (nat * Z) -> list (nat * Z) :=
  fix go l :=
    match l with
    | [] => [p]
    | q :: l' => if (q.2 <=? p.2)%Z then p :: l else q :: go l'
    end.

Definition topk_largest (k : nat) (row : list Z) : list nat :=
  take k (map fst (foldr insert_desc [] (imap pair row))).

(** Kernels over the integers that leave the scores as they are. *)
Definition head_kernels : @anchor_head.Kernels Z :=
  anchor_head.mkKernels id (fun _ x => x) (foldr Z.max 0%Z) topk_largest 0%Z.

(** Deploy configurations: whether the shapes are dynamic, and the
    backend. *)
Definition static_onnx : bool * anchor_head.Backend :=
  (false, anchor_head.OtherBackend "onnxruntime").

Definition dynamic_ncnn : bool * anchor_head.Backend :=
  (true, anchor_head.NCNN).

(** Helpers whose padding does nothing and whose NMS keeps everything. *)
Definition head_helpers
  : @anchor_head.Helpers Z (bool * anchor_head.Backend)
                         (@Tensor Z * @Tensor Z) :=
  anchor_head.mkHelpers fst snd
    (fun _ => anchor_head.mkPostParams 200%Z 5%Z 1%Z 5000%Z 100%Z)
    (fun t _ _ _ => anchor_head.Done t)
    (fun bboxes scores _ _ _ _ _ => anchor_head.Done (bboxes, scores)).

Definition head_cfg : @anchor_head.Cfg Z :=
  anchor_head.mkCfg (Some 1%Z) None (Some 10%Z)
                    (Some (anchor_head.mkNmsCfg (Some 6%Z))).

(** A head with two classes and one anchor at every position, a decoder
    that adds the deltas to the anchors, and [nms_pre = 1]. *)
Definition two_class_head : @anchor_head.AnchorHead Z :=
  anchor_head.mkAnchorHead
    (fun sizes dev =>
       anchor_head.Done
         (map (fun size =>
                 mkTensor [numel size; 4]
                          (concat (replicate (numel size) [0; 0; 8; 8]%Z)) dev)
              sizes))
    2 true 2 (Some head_cfg)
    (fun anchors deltas _ =>
       anchor_head.Done
         (mkTensor (shape anchors)
                   (zip_with Z.add (data anchors) (data deltas))
                   (device anchors))).

(** Two levels for one image: a feature map of 1 by 2 and one of 1 by 1. *)
Definition level0_cls : @Tensor Z := mkTensor [1; 2; 1; 2] [1; 7; 3; 2]%Z cpu.
Definition level0_bbox : @Tensor Z :=
  mkTensor [1; 4; 1; 2] [1; 2; 1; 2; 1; 2; 1; 2]%Z cpu.
Definition level1_cls : @Tensor Z := mkTensor [1; 2; 1; 1] [4; 5]%Z cpu.
Definition level1_bbox : @Tensor Z := mkTensor [1; 4; 1; 1] [3; 3; 3; 3]%Z cpu.

Definition head_metas : dict (list nat) := [("img_shape", [8; 8; 3])].

(** What the head returns for them without the NMS. *)
Definition head_bboxes : @Tensor Z :=
  mkTensor [1; 2; 4] [2; 2; 10; 10; 3; 3; 11; 11]%Z cpu.
Definition head_scores : @Tensor Z := mkTensor [1; 2; 2] [7; 2; 4; 5]%Z cpu.

Definition head_cls_scores : list (@Tensor Z) := [level0_cls; level1_cls].
Definition head_bbox_preds : list (@Tensor Z) := [level0_bbox; level1_bbox].

(** A configuration that asks for more candidates than the second level
    has. *)
Definition greedy_cfg : @anchor_head.Cfg Z :=
  anchor_head.mkCfg (Some 2%Z) None None None.


(** * Properties *)

Section Properties.

Context {scalar : Type}.

Implicit Types (w : @NCNNWrapper scalar) (inputs : dict (@View scalar)).
Implicit Types (s : list (@event scalar)).

(** ** Computations *)

Ltac unfold_m :=
  unfold bind, lift, ret, raise, py_assert, emit in *; simpl in *.

Lemma bind_ok {A B} (m : @M scalar A) (k : A -> M B) s s' a :
  m s = (s', Ok a) -> bind m k s = k a s'.
Proof. intros H. unfold bind. by rewrite H. Qed.

Lemma bind_raise {A B} (m : @M scalar A) (k : A -> M B) s s' e :
  m s = (s', Raise e) -> bind m k s = (s', Raise e).
Proof. intros H. unfold bind. by rewrite H. Qed.

Lemma bind_inv_ok {A B} (m : @M scalar A) (k : A -> M B) s s2 b :
  bind m k s = (s2, Ok b) ->
  exists s1 a, m s = (s1, Ok a) /\ k a s1 = (s2, Ok b).
Proof.
  unfold bind. destruct (m s) as [s1 [a|e]]; [eauto | discriminate].
Qed.

(** The rule of the [for] loop: an invariant [I] over the items already
    visited, the loop state and the log, and a condition [E] on what the
    body may raise. *)
Lemma for_each_rule {A S} (I : list A -> S -> list event -> Prop)
    (E : list event -> exn -> Prop) (l : list A) (body : A -> S -> M S)
    (st : S) (s : list event) :
  I [] st s ->
  (forall pre x post st s,
     l = pre ++ x :: post -> I pre st s ->
     match body x st s with
     | (s', Ok st') => I (pre ++ [x]) st' s'
     | (s', Raise e) => E s' e
     end) ->
  match for_each l body st s with
  | (s', Ok st') => I l st' s'
  | (s', Raise e) => E s' e
  end.
Proof.
  intros Hinit Hstep.
  cut (forall post pre st s, l = pre ++ post -> I pre st s ->
         match for_each post body st s with
         | (s', Ok st') => I l st' s'
         | (s', Raise e) => E s' e
         end).
  { intros Hgen. by apply (Hgen l []). }
  clear st s Hinit. intros post.
  induction post as [|x post IH]; intros pre st s Hl Hpre; simpl.
  - rewrite app_nil_r in Hl. unfold ret. by subst.
  - specialize (Hstep pre x post st s Hl Hpre).
    unfold bind. destruct (body x st s) as [s1 [st1|e]]; [|done].
    apply (IH (pre ++ [x])); [|done].
    by rewrite <- app_assoc.
Qed.

(** ** Dictionaries *)

Lemma dict_get_set {V} (d : dict V) k v k' :
  dict_get (dict_set k v d) k' =
  if decide (k = k') then Some v else dict_get d k'.
Proof.
  induction d as [|[k0 v0] d IH]; simpl.
  - repeat case_decide; congruence.
  - repeat (case_decide; simpl); try congruence.
Qed.

Lemma elem_of_keys_set {V} (d : dict V) k v k' :
  k' ∈ keys (dict_set k v d) <-> k' = k \/ k' ∈ keys d.
Proof.
  unfold keys. induction d as [|[k0 v0] d IH]; simpl.
  - rewrite list_elem_of_singleton, elem_of_nil. tauto.
  - case_decide; simpl; rewrite !elem_of_cons.
    + subst. tauto.
    + rewrite IH. tauto.
Qed.

Lemma keys_set_present {V} (d : dict V) k v :
  k ∈ keys d -> keys (dict_set k v d) = keys d.
Proof.
  unfold keys. induction d as [|[k0 v0] d IH]; simpl; intros Hk.
  - by apply elem_of_nil in Hk.
  - case_decide; simpl; [done|]. f_equal. apply IH.
    apply elem_of_cons in Hk as [Hk|Hk]; [congruence | done].
Qed.

Lemma NoDup_keys_set {V} (d : dict V) k v :
  NoDup (keys d) -> NoDup (keys (dict_set k v d)).
Proof.
  unfold keys. induction d as [|[k0 v0] d IH]; simpl; intros Hnd.
  - apply NoDup_singleton.
  - apply NoDup_cons in Hnd as [Hk0 Hnd].
    case_decide; simpl; apply NoDup_cons; split; auto.
    intros Hin. apply (elem_of_keys_set d k v k0) in Hin as [Hin|Hin];
      [congruence | done].
Qed.


Lemma dict_get_elem {V} (d : dict V) k v :
  NoDup (keys d) -> (k, v) ∈ d -> dict_get d k = Some v.
Proof.
  unfold keys. induction d as [|[k0 v0] d IH]; simpl; intros Hnd Hin.
  - by apply elem_of_nil in Hin.
  - apply NoDup_cons in Hnd as [Hk0 Hnd].
    apply elem_of_cons in Hin as [Heq|Hin].
    + simplify_eq. by rewrite decide_True.
    + rewrite decide_False; [by apply IH|].
      intros ->. apply Hk0. apply list_elem_of_fmap. by exists (k, v).
Qed.

Lemma dict_get_is_Some {V} (d : dict V) k :
  is_Some (dict_get d k) <-> k ∈ keys d.
Proof.
  unfold keys. induction d as [|[k0 v0] d IH]; simpl.
  - rewrite elem_of_nil. split; [by intros [? ?] | done].
  - rewrite elem_of_cons. case_decide.
    + subst. split; [by left | eauto].
    + rewrite IH. split; [by right | by intros [?|?]; [congruence|]].
Qed.

(** [dict((name, f(name)) for name in names)]: one entry for each name. *)
Lemma dict_of_pairs_spec {V} (f : string -> V) (names : list string) :
  let d := dict_of_pairs (map (fun name => (name, f name)) names) in
  NoDup (keys d) /\
  (forall k, k ∈ keys d <-> k ∈ names) /\
  (forall k, k ∈ names -> dict_get d k = Some (f k)).
Proof.
  unfold dict_of_pairs.
  cut (forall d0 : dict V,
         NoDup (keys d0) ->
         (forall k v, dict_get d0 k = Some v -> v = f k) ->
         let d := foldl (fun d kv => dict_set kv.1 kv.2 d) d0
                        (map (fun name => (name, f name)) names) in
         NoDup (keys d) /\
         (forall k, k ∈ keys d <-> k ∈ keys d0 \/ k ∈ names) /\
         (forall k v, dict_get d k = Some v -> v = f k)).
  { intros Hgen. destruct (Hgen []) as (Hnd & Hkeys & Hget); simpl.
    - apply NoDup_nil_2.
    - done.
    - split_and!; [done| |].
      + intros k. rewrite Hkeys. unfold keys. simpl.
        rewrite elem_of_nil. tauto.
      + intros k Hk.
        assert (is_Some (dict_get
          (foldl (fun d kv => dict_set kv.1 kv.2 d) []
                 (map (fun name => (name, f name)) names)) k)) as [v Hv].
        { apply dict_get_is_Some, Hkeys. by right. }
        rewrite Hv. f_equal. by apply Hget. }
  induction names as [|n names IH]; intros d0 Hnd Hd0; simpl.
  - split_and!; [done| |done]. intros k. rewrite elem_of_nil. tauto.
  - destruct (IH (dict_set n (f n) d0)) as (Hnd' & Hkeys' & Hget').
    + by apply NoDup_keys_set.
    + intros k v. rewrite dict_get_set.
      case_decide; [intros; simplify_eq; done | apply Hd0].
    + split_and!; [done| |done].
      intros k. rewrite Hkeys', elem_of_keys_set, elem_of_cons. tauto.
Qed.

Lemma keys_set_congr {V V'} (d : dict V) (d' : dict V') k v v' :
  keys d = keys d' -> keys (dict_set k v d) = keys (dict_set k v' d').
Proof.
  unfold keys. revert d'.
  induction d as [|[k0 v0] d IH]; intros [|[k0' v0'] d']; simpl;
    intros Heq; simplify_eq; try done.
  case_decide; simpl; f_equal; [assumption | by apply IH].
Qed.

Lemma dict_of_pairs_snoc {V} (l : list (string * V)) k v :
  dict_of_pairs (l ++ [(k, v)]) = dict_set k v (dict_of_pairs l).
Proof. unfold dict_of_pairs. by rewrite foldl_app. Qed.

Lemma keys_dict_of_pairs {V} (f : string -> V) (names : list string) :
  keys (dict_of_pairs (map (fun name => (name, f name)) names)) =
  resolved_keys names.
Proof.
  unfold resolved_keys.
  induction names as [|n names IH] using rev_ind; [done|].
  rewrite !map_app. simpl. rewrite !dict_of_pairs_snoc.
  by apply keys_set_congr.
Qed.

Lemma resolved_keys_spec (names : list string) :
  NoDup (resolved_keys names) /\
  forall k, k ∈ resolved_keys names <-> k ∈ names.
Proof.
  destruct (dict_of_pairs_spec (fun _ => tt) names) as (Hnd & Hkeys & _).
  done.
Qed.

Lemma dict_map_eq {V V'} (F : V -> V') (d : dict V) (m : dict V') :
  keys m = keys d ->
  (forall n t o, (n, t) ∈ m -> (n, o) ∈ d -> t = F o) ->
  m = map (fun item => (item.1, F item.2)) d.
Proof.
  unfold keys. revert m.
  induction d as [|[n o] d IH]; intros [|[n' t] m]; simpl; intros Hk Hall;
    simplify_eq; [done|].
  f_equal.
  - f_equal. apply (Hall n); apply list_elem_of_here.
  - apply IH; [done|]. intros n1 t1 o1 Hm Hd.
    apply (Hall n1); by apply list_elem_of_further.
Qed.

Lemma dict_get_map {V V'} (F : V -> V') (d : dict V) k :
  dict_get (map (fun item => (item.1, F item.2)) d) k = F <$> dict_get d k.
Proof.
  induction d as [|[n o] d IH]; simpl; [done|]. by case_decide.
Qed.

Lemma keys_map {V V'} (F : V -> V') (d : dict V) :
  keys (map (fun item => (item.1, F item.2)) d) = keys d.
Proof.
  unfold keys. induction d as [|[n o] d IH]; simpl; [done|]. f_equal. exact IH.
Qed.

(** ** Validation (lines 78-84) *)

Lemma check_inputs_spec (b : nat) (rest : list (@View scalar)) s :
  match check_inputs b rest s with
  | (s', Ok _) =>
      s' = s /\ Forall (fun t : View => size0 t = Ok b /\ device t = cpu) rest
  | (s', Raise e) => s' = s /\ exists t : View, t ∈ rest /\ rejected b t e
  end.
Proof.
  unfold check_inputs.
  apply (for_each_rule
           (fun pre _ s' =>
              s' = s /\ Forall (fun t : View => size0 t = Ok b /\ device t = cpu) pre)
           (fun s' e => s' = s /\ exists t : View, t ∈ rest /\ rejected b t e)).
  - by split.
  - intros pre t post [] s1 Hl [-> Hpre].
    assert (t ∈ rest) as Ht.
    { rewrite Hl. apply elem_of_app. right. apply list_elem_of_here. }
    unfold_m. unfold rejected.
    destruct (size0 t) as [n|e] eqn:Hsize; [|by eauto 10].
    case_bool_decide as Hn; simpl; [|by eauto 10].
    case_bool_decide as Hdev; simpl; [|subst; by eauto 10].
    split; [done|]. apply Forall_app. split; [done|].
    apply Forall_singleton. by subst.
Qed.

Lemma forward_validate_spec inputs s :
  match forward_validate inputs s with
  | (s', Ok b) =>
      s' = s /\
      exists first rest,
        values inputs = first :: rest /\ size0 first = Ok b /\
        Forall (fun t : View => size0 t = Ok b /\ device t = cpu) rest
  | (s', Raise e) =>
      s' = s /\
      match values inputs with
      | [] => e = IndexError
      | first :: rest =>
          size0 first = Raise e \/
          exists b (t : View), size0 first = Ok b /\ t ∈ rest /\ rejected b t e
      end
  end.
Proof.
  unfold forward_validate.
  destruct (values inputs) as [|first rest] eqn:Hvals; [done|]. simpl.
  unfold bind at 1. unfold lift at 1.
  unfold bind at 1. unfold lift at 1.
  destruct (size0 first) as [b|e] eqn:Hfirst; [|by eauto].
  unfold bind. rewrite drop_0.
  pose proof (check_inputs_spec b rest s) as Hcheck.
  destruct (check_inputs b rest s) as [s' [[]|e]].
  - destruct Hcheck as [-> Hrest]. unfold ret. eauto 10.
  - destruct Hcheck as (-> & t & Ht & Hrej). eauto 10.
Qed.

Lemma check_inputs_ok (b : nat) (rest : list (@View scalar)) s :
  Forall (fun t : View => size0 t = Ok b /\ device t = cpu) rest ->
  check_inputs b rest s = (s, Ok tt).
Proof.
  unfold check_inputs.
  induction 1 as [|t rest [Hsize Hdev] _ IH]; simpl; [done|].
  erewrite bind_ok; [apply IH|].
  unfold bind, lift. rewrite Hsize.
  by rewrite !bool_decide_true.
Qed.

Lemma forward_validate_accepts inputs first rest (b : nat) s :
  values inputs = first :: rest ->
  size0 first = Ok b ->
  Forall (fun t : View => size0 t = Ok b /\ device t = cpu) rest ->
  forward_validate inputs s = (s, Ok b).
Proof.
  intros Hvals Hfirst Hrest. unfold forward_validate.
  rewrite Hvals. simpl. rewrite drop_0.
  erewrite bind_ok; [|reflexivity].
  erewrite bind_ok; [|unfold lift; by rewrite Hfirst].
  erewrite bind_ok; [reflexivity|].
  by apply check_inputs_ok.
Qed.

Lemma forward_validate_valid inputs b s :
  valid_batch inputs b -> forward_validate inputs s = (s, Ok b).
Proof.
  intros [Hne Hall].
  destruct (values inputs) as [|first rest] eqn:Hvals.
  { destruct inputs; [done | discriminate]. }
  apply Forall_cons in Hall as [[Hfirst _] Hrest].
  by eapply forward_validate_accepts.
Qed.

Lemma valid_batch_sizes inputs (b : nat) :
  valid_batch inputs b -> Forall (fun t : View => size0 t = Ok b) (values inputs).
Proof. intros [_ Hall]. eapply Forall_impl; [exact Hall|]. by intros t [? ?]. Qed.

Lemma forward_validate_raise w inputs s s' e :
  forward_validate inputs s = (s', Raise e) ->
  forward w inputs s = (s', Raise e).
Proof. intros H. unfold forward. by apply bind_raise. Qed.

(** What [forward] does once the checks have passed. *)
Lemma forward_after_validate w inputs (b : nat) s :
  forward_validate inputs s = (s, Ok b) ->
  forward w inputs s =
  bind (run_batch w inputs b
          (dict_of_pairs (map (fun name => (name, replicate b None))
                              (_output_names w))))
       stack_outputs s.
Proof. intros Hval. unfold forward. by erewrite bind_ok. Qed.

(** ** One sample (lines 95-108) *)

Lemma ncnn_execute_spec (ex : @Extractor scalar) (names : list string) s :
  match ncnn_execute ex names s with
  | (s', Ok result) =>
      (forall n, n ∈ names ->
         (net_extract (ex_net ex) (ex_bound ex) n).1 = 0%Z) /\
      keys result = resolved_keys names /\
      (forall n, n ∈ names ->
         dict_get result n = Some (net_extract (ex_net ex) (ex_bound ex) n).2)
  | (s', Raise e) =>
      exists n,
        n ∈ names /\
        (net_extract (ex_net ex) (ex_bound ex) n).1 <> 0%Z /\
        e = AssertionError
              (FailedExtract (net_extract (ex_net ex) (ex_bound ex) n).2)
  end.
Proof.
  unfold ncnn_execute.
  apply (for_each_rule
    (fun pre result _ =>
       (forall n, n ∈ pre ->
          (net_extract (ex_net ex) (ex_bound ex) n).1 = 0%Z) /\
       keys result = resolved_keys pre /\
       (forall n, n ∈ pre ->
          dict_get result n = Some (net_extract (ex_net ex) (ex_bound ex) n).2))
    (fun _ e =>
       exists n,
         n ∈ names /\
         (net_extract (ex_net ex) (ex_bound ex) n).1 <> 0%Z /\
         e = AssertionError
               (FailedExtract (net_extract (ex_net ex) (ex_bound ex) n).2))).
  - split_and!; [|done|]; intros n Hn; by apply elem_of_nil in Hn.
  - intros pre x post result s1 Hl (Hst & Hkeys & Hget).
    unfold extractor_extract. unfold_m.
    case_bool_decide as Hx; simpl.
    + split_and!.
      * intros n [Hn| ->%list_elem_of_singleton]%elem_of_app; auto.
      * unfold resolved_keys in *. rewrite map_app. simpl.
        rewrite dict_of_pairs_snoc. by apply keys_set_congr.
      * intros n Hn. rewrite dict_get_set. case_decide; [by subst|].
        apply Hget.
        apply elem_of_app in Hn as [Hn|Hn%list_elem_of_singleton];
          [done | congruence].
    + exists x. split_and!; [|done|done].
      rewrite Hl. apply elem_of_app. right. apply list_elem_of_here.
Qed.

(** A sample of a bindable input in host memory is bound as the memory at
    its data pointer. *)
Lemma sample_mat_bindable (t : @View scalar) (j b : nat) :
  size0 t = Ok b ->
  device t = cpu ->
  bindable t ->
  j < b ->
  sample_mat t j = Ok (sample_slice t j).
Proof.
  unfold size0, sample_mat, select, sample_slice, bindable. simpl.
  destruct (dims t) as [|[d stride] ds] eqn:Hdims; [done|]. simpl.
  intros [= ->] Hdev (Hdims4 & Hsize & Hmem) Hj.
  rewrite decide_True by done.
  unfold detach, to_cpu. simpl. rewrite decide_True by done.
  unfold numpy. simpl. rewrite decide_True.
  2: { split; [done|]. intros Hbf. rewrite Hbf in Hsize. discriminate. }
  unfold Mat_of_array. simpl.
  rewrite decide_False by (rewrite length_fmap; lia).
  rewrite decide_False by (rewrite length_fmap; lia).
  rewrite decide_True; [done|].
  split; [done|]. rewrite length_drop. specialize (Hmem j Hj). lia.
Qed.

Lemma sample_mat_accepted inputs (j b : nat) :
  valid_batch inputs b ->
  Forall bindable (values inputs) ->
  j < b ->
  forall item, item ∈ inputs -> sample_mat item.2 j = Ok (sample_slice item.2 j).
Proof.
  intros [_ Hall] Hbind Hj item Hin.
  assert (item.2 ∈ values inputs) as Ht.
  { unfold values. apply list_elem_of_fmap. by exists item. }
  rewrite Forall_forall in Hall, Hbind.
  destruct (Hall _ Ht) as [Hsize Hdev].
  apply (sample_mat_bindable item.2 j b);
    [exact Hsize | exact Hdev | exact (Hbind _ Ht) | exact Hj].
Qed.

(** Binding the inputs of a sample: all of them are bound, or [ncnn.Mat]
    and what feeds it refuse one. *)
Lemma set_inputs_spec inputs (j : nat) (ex : Extractor) s :
  match set_inputs inputs j ex s with
  | (s', Ok ex') =>
      ex' = mkExtractor (ex_net ex) (foldl (bind_slice j) (ex_bound ex) inputs)
  | (s', Raise e) =>
      exists item, item ∈ inputs /\ sample_mat item.2 j = Raise e
  end.
Proof.
  unfold set_inputs. revert ex s.
  induction inputs as [|[name t] inputs IH]; intros ex s; simpl.
  - by destruct ex.
  - unfold bind at 1. unfold bind at 1. unfold lift at 1.
    destruct (sample_mat t j) as [m|e] eqn:Hm.
    2: { exists (name, t). split; [apply list_elem_of_here | done]. }
    unfold extractor_input, bind, emit, ret. simpl.
    specialize (IH (mkExtractor (ex_net ex) (dict_set name m (ex_bound ex)))
                   (s ++ [EvInput name m])).
    unfold bind, lift in IH.
    destruct (for_each inputs _ _ _) as [s' [ex'|e]].
    + rewrite IH. simpl.
      replace (bind_slice j (ex_bound ex) (name, t))
        with (dict_set name m (ex_bound ex)); [done|].
      unfold bind_slice. simpl. by rewrite Hm.
    + destruct IH as (item & Hin & Hraise).
      exists item. split; [by apply list_elem_of_further | done].
Qed.

(** What one sample yields: the matrix of every output, all of them
    extracted with status 0; or the exception of a sample that could not be
    bound; or the assertion failure of the first output whose status is not
    0. *)
Lemma run_sample_spec w inputs (j : nat) s :
  match run_sample w inputs j s with
  | (s', Ok result) =>
      (forall n, n ∈ _output_names w -> (extraction w inputs j n).1 = 0%Z) /\
      keys result = resolved_keys (_output_names w) /\
      (forall n, n ∈ _output_names w ->
         dict_get result n = Some (extraction w inputs j n).2)
  | (s', Raise e) =>
      (exists item, item ∈ inputs /\ sample_mat item.2 j = Raise e) \/
      exists n,
        n ∈ _output_names w /\
        (extraction w inputs j n).1 <> 0%Z /\
        e = AssertionError (FailedExtract (extraction w inputs j n).2)
  end.
Proof.
  unfold run_sample.
  erewrite bind_ok; [|reflexivity].
  pose proof (set_inputs_spec inputs j (mkExtractor (_net w) [])
                (s ++ [EvCreateExtractor])) as Hset.
  unfold bind at 1.
  destruct (set_inputs inputs j _ _) as [s1 [ex'|e]]; [|by left].
  subst ex'.
  pose proof (ncnn_execute_spec
                (mkExtractor (_net w) (foldl (bind_slice j) [] inputs))
                (_output_names w) s1) as Hexec.
  simpl in Hexec.
  destruct (ncnn_execute _ _ s1) as [s2 [result|e]]; [done | by right].
Qed.

Lemma store_sample_spec (names : list string) (result : dict (@Mat scalar))
    (out : string -> Mat) (i b : nat) outputs s :
  (forall n, n ∈ names -> dict_get result n = Some (out n)) ->
  (forall n, n ∈ names -> n ∈ keys outputs) ->
  (forall n slots, dict_get outputs n = Some slots -> length slots = b) ->
  i < b ->
  exists outputs',
    store_sample names result i outputs s = (s, Ok outputs') /\
    keys outputs' = keys outputs /\
    forall n,
      dict_get outputs' n =
      if decide (n ∈ names)
      then (fun slots => <[i := Some (from_numpy (np_array (out n)))]> slots)
             <$> dict_get outputs n
      else dict_get outputs n.
Proof.
  intros Hres Hkeys Hlen Hi.
  set (I := fun (pre : list string) (cur : dict (list (option Tensor)))
                (s' : list (@event scalar)) =>
       s' = s /\ keys cur = keys outputs /\
       forall n,
         dict_get cur n =
         if decide (n ∈ pre)
         then (fun slots => <[i := Some (from_numpy (np_array (out n)))]> slots)
                <$> dict_get outputs n
         else dict_get outputs n).
  assert (I [] outputs s) as Hinit.
  { split_and!; [done..|]. intros n.
    by rewrite decide_False by apply not_elem_of_nil. }
  unfold store_sample.
  match goal with
  | |- context [for_each names ?body outputs s] =>
      pose proof (for_each_rule I (fun _ _ => False) names body outputs s Hinit)
        as Hrule
  end.
  simpl in Hrule.
  match type of Hrule with
  | ?step -> _ => assert step as Hstep
  end.
  { clear Hrule Hinit. intros pre x post cur s1 Hl (-> & Hk & Hget).
    assert (x ∈ names) as Hx.
    { rewrite Hl. apply elem_of_app. right. apply list_elem_of_here. }
    assert (x ∈ pre ++ [x]) as Hx'.
    { apply elem_of_app. right. apply list_elem_of_here. }
    unfold bind, lift, dict_getitem, list_setitem, ret.
    rewrite (Hres x Hx).
    destruct (dict_get cur x) as [slots|] eqn:Hcur.
    2: { exfalso. apply Hkeys in Hx. rewrite <- Hk in Hx.
         apply dict_get_is_Some in Hx as [? ?]. congruence. }
    assert (length slots = b) as Hslots.
    { specialize (Hget x). rewrite Hcur in Hget.
      destruct (dict_get outputs x) as [slots0|] eqn:H0;
        case_decide; simplify_eq/=.
      - rewrite length_insert. by eapply Hlen.
      - by eapply Hlen. }
    rewrite decide_True by lia.
    split_and!; [done| |].
    - rewrite keys_set_present; [done|]. rewrite Hk. by apply Hkeys.
    - intros n. rewrite dict_get_set. case_decide as Hn.
      + subst n. rewrite decide_True by done.
        specialize (Hget x). rewrite Hcur in Hget.
        destruct (dict_get outputs x) as [slots0|] eqn:H0;
          case_decide; simplify_eq/=; [|done].
        by rewrite list_insert_insert_eq.
      + rewrite Hget.
        destruct (decide (n ∈ pre)) as [Hpre|Hpre].
        * rewrite decide_True; [done|]. apply elem_of_app. by left.
        * rewrite decide_False; [done|].
          intros [?|?%list_elem_of_singleton]%elem_of_app; congruence. }
  specialize (Hrule Hstep).
  destruct (for_each names _ outputs s) as [s' [outputs'|e]]; [|done].
  destruct Hrule as (-> & Hk & Hget). eauto.
Qed.

(** ** The loop over the samples (lines 90-108) *)

Lemma range_split (b : nat) (pre : list nat) (x : nat) (post : list nat) :
  range b = pre ++ x :: post -> x = length pre /\ x < b.
Proof.
  unfold range. intros Hl.
  assert (length (seq 0 b) = length pre + S (length post)) as Hlen.
  { rewrite Hl, length_app. done. }
  rewrite length_seq in Hlen.
  assert (seq 0 b !! length pre = Some x) as Hx.
  { rewrite Hl. by apply list_lookup_middle. }
  rewrite lookup_seq_lt in Hx by lia. simplify_eq/=. lia.
Qed.

Lemma filled_init w inputs (b : nat) :
  filled w inputs b 0
    (dict_of_pairs (map (fun name => (name, replicate b None))
                        (_output_names w))).
Proof.
  destruct (dict_of_pairs_spec
              (fun _ : string => replicate b (@None (@Tensor scalar)))
              (_output_names w)) as (Hnd & Hkeys & Hget).
  split; [apply keys_dict_of_pairs|].
  intros n slots Hn. split; [|lia].
  assert (n ∈ _output_names w) as Hin.
  { apply Hkeys, dict_get_is_Some. eauto. }
  rewrite (Hget n Hin) in Hn. simplify_eq. apply length_replicate.
Qed.

(** What the loop yields: the filled accumulator, every extraction having
    had status 0; or the exception of a sample that could not be bound; or
    the assertion failure of an extraction whose status is not 0. *)
Lemma run_batch_spec w inputs (b : nat) s :
  match run_batch w inputs b
          (dict_of_pairs (map (fun name => (name, replicate b None))
                              (_output_names w))) s with
  | (s', Ok outputs) =>
      (forall j n, j < b -> n ∈ _output_names w ->
         (extraction w inputs j n).1 = 0%Z) /\
      filled w inputs b b outputs
  | (s', Raise e) =>
      exists j,
        j < b /\
        ((exists item, item ∈ inputs /\ sample_mat item.2 j = Raise e) \/
         exists n,
           n ∈ _output_names w /\
           (extraction w inputs j n).1 <> 0%Z /\
           e = AssertionError (FailedExtract (extraction w inputs j n).2))
  end.
Proof.
  unfold run_batch.
  pose proof (resolved_keys_spec (_output_names w)) as [Hnd Hnames].
  match goal with
  | |- context [for_each (range b) ?body ?st s] =>
      pose proof (for_each_rule
        (fun pre outputs _ =>
           (forall j n, j < length pre -> n ∈ _output_names w ->
              (extraction w inputs j n).1 = 0%Z) /\
           length pre <= b /\
           filled w inputs b (length pre) outputs)
        (fun _ e =>
           exists j,
             j < b /\
             ((exists item, item ∈ inputs /\ sample_mat item.2 j = Raise e) \/
              exists n,
                n ∈ _output_names w /\
                (extraction w inputs j n).1 <> 0%Z /\
                e = AssertionError
                      (FailedExtract (extraction w inputs j n).2)))
        (range b) body st s) as Hrule
  end.
  match type of Hrule with
  | ?init -> ?step -> _ => assert init as Hinit; [|assert step as Hstep]
  end.
  3: { specialize (Hrule Hinit Hstep).
       destruct (for_each (range b) _ _ s) as [s' [outputs|e]]; [|done].
       unfold range in Hrule. rewrite length_seq in Hrule.
       by destruct Hrule as (? & _ & ?). }
  - split_and!; [simpl; lia | simpl; lia | apply filled_init].
  - clear Hrule Hinit. intros pre x post outputs s1 Hl (Hst & _ & Hkeys & Hfill).
    apply range_split in Hl as [-> Hx].
    pose proof (run_sample_spec w inputs (length pre) s1) as Hrun.
    unfold bind at 1.
    destruct (run_sample w inputs (length pre) s1) as [s2 [result|e]].
    2: { by exists (length pre). }
    destruct Hrun as (Hst' & Hk' & Hget').
    destruct (store_sample_spec (_output_names w) result
                (fun n => (extraction w inputs (length pre) n).2)
                (length pre) b outputs s2) as (outputs' & -> & Hk2 & Hget2).
    + done.
    + intros n Hn. rewrite Hkeys. by apply Hnames.
    + intros n slots Hn. by apply (Hfill n slots).
    + done.
    + rewrite length_app. simpl. split_and!.
      * intros j n Hj Hn.
        destruct (decide (j = length pre)) as [->|]; [by apply Hst'|].
        apply Hst; [lia | done].
      * lia.
      * split; [by rewrite Hk2|].
        intros n slots' Hn.
        assert (n ∈ _output_names w) as Hin.
        { apply Hnames. rewrite <- Hkeys, <- Hk2.
          apply dict_get_is_Some. eauto. }
        rewrite Hget2, decide_True in Hn by done.
        destruct (dict_get outputs n) as [slots|] eqn:Hold; [|done].
        simplify_eq/=. destruct (Hfill n slots Hold) as [Hlen Hlook].
        split; [by rewrite length_insert|].
        intros j Hj. destruct (decide (j = length pre)) as [->|Hne].
        -- rewrite list_lookup_insert_eq by lia. done.
        -- rewrite list_lookup_insert_ne by done. apply Hlook. lia.
Qed.

Lemma run_batch_one w inputs outputs s :
  run_batch w inputs 1 outputs s =
  bind (run_sample w inputs 0)
       (fun result => store_sample (_output_names w) result 0 outputs) s.
Proof.
  unfold run_batch. simpl. unfold bind at 1.
  destruct (bind _ _ s) as [s1 [outputs1|e]]; done.
Qed.

(** ** Stacking (lines 110-112) *)

Lemma all_tensors_Some (l : list (option (@Tensor scalar))) ts :
  all_tensors l = Some ts <-> l = Some <$> ts.
Proof.
  revert ts. induction l as [|[t|] l IH]; intros ts; simpl.
  - split; [by intros [= <-] | by destruct ts].
  - destruct (all_tensors l) as [ts'|] eqn:Hl.
    + split.
      * intros [= <-]. simpl. f_equal. by apply IH.
      * destruct ts as [|t' ts]; intros [= -> Hts]. apply IH in Hts.
        by simplify_eq.
    + split; [done|].
      destruct ts as [|t' ts]; intros [= -> Hts]. apply IH in Hts. done.
  - split; [done | by destruct ts].
Qed.

Lemma torch_stack_size0 (slots : list (option (@Tensor scalar))) t :
  torch_stack slots = Ok t -> size0 t = Ok (length slots).
Proof.
  unfold torch_stack.
  destruct (all_tensors slots) as [[|t0 ts]|] eqn:Hall; [done| |done].
  apply all_tensors_Some in Hall as ->.
  destruct (forallb _ ts); [|done]. intros [= <-].
  unfold size0. simpl. by rewrite length_fmap.
Qed.

Lemma torch_stack_singleton (t : @Tensor scalar) :
  torch_stack [Some t] = Ok (unsqueeze0 t).
Proof. unfold torch_stack, unsqueeze0. simpl. by rewrite app_nil_r. Qed.

Lemma torch_stack_filled (slots : list (option (@Tensor scalar))) (b : nat)
    (f : nat -> Tensor) :
  length slots = b ->
  0 < b ->
  (forall j, j < b -> slots !! j = Some (Some (f j))) ->
  (forall j, j < b -> shape (f j) = shape (f 0) /\ device (f j) = device (f 0)) ->
  exists t, torch_stack slots = Ok t.
Proof.
  intros Hlen Hb Hlook Hsame.
  assert (slots = Some <$> (f <$> seq 0 b)) as ->.
  { apply list_eq. intros j. rewrite !list_lookup_fmap.
    destruct (decide (j < b)) as [Hj|Hj].
    - rewrite Hlook, lookup_seq_lt by done. done.
    - rewrite lookup_ge_None_2 by lia.
      rewrite lookup_ge_None_2; [done|]. rewrite length_seq. lia. }
  unfold torch_stack.
  destruct (all_tensors_Some (Some <$> (f <$> seq 0 b)) (f <$> seq 0 b))
    as [_ ->]; [|done].
  destruct b as [|b]; [lia|]. simpl.
  destruct (forallb _ _) eqn:Hfa; [eauto|].
  exfalso. cut (true = false); [done|]. rewrite <- Hfa. symmetry.
  apply forallb_forall. intros t Ht.
  apply list_elem_of_In, list_elem_of_fmap in Ht as (j & -> & Hj).
  apply elem_of_seq in Hj. unfold same_layout.
  apply bool_decide_eq_true. apply Hsame. lia.
Qed.

Lemma stack_outputs_spec (outputs : dict (list (option (@Tensor scalar)))) s :
  match stack_outputs outputs s with
  | (s', Ok m) =>
      s' = s /\
      Forall2 (fun o r => r.1 = o.1 /\ torch_stack o.2 = Ok r.2) outputs m
  | (s', Raise e) =>
      s' = s /\ exists n slots, (n, slots) ∈ outputs /\ torch_stack slots = Raise e
  end.
Proof.
  induction outputs as [|[n slots] outputs IH]; simpl.
  - unfold ret. split; [done | constructor].
  - unfold bind, lift, ret.
    destruct (torch_stack slots) as [t|e] eqn:Hstack.
    + destruct (stack_outputs outputs s) as [s' [m|e]].
      * destruct IH as [-> IH]. split; [done|]. by constructor.
      * destruct IH as (-> & n' & slots' & Hin & Hraise).
        split; [done|]. exists n', slots'.
        split; [by apply list_elem_of_further | done].
    + split; [done|]. exists n, slots. split; [apply list_elem_of_here | done].
Qed.

Lemma stacked_keys (outputs : dict (list (option (@Tensor scalar)))) m :
  Forall2 (fun o r => r.1 = o.1 /\ torch_stack o.2 = Ok r.2) outputs m ->
  keys m = keys outputs.
Proof.
  unfold keys. induction 1 as [|[n slots] [n' t] outputs m [Hn _] _ IH]; simpl;
    [done|]. simpl in Hn. f_equal; [done | exact IH].
Qed.

Lemma stacked_elem (outputs : dict (list (option (@Tensor scalar)))) m n t :
  Forall2 (fun o r => r.1 = o.1 /\ torch_stack o.2 = Ok r.2) outputs m ->
  (n, t) ∈ m ->
  exists slots, (n, slots) ∈ outputs /\ torch_stack slots = Ok t.
Proof.
  induction 1 as [|[n0 slots] [n' t'] outputs m [Hn Hst] _ IH]; simpl in *.
  - by intros ?%elem_of_nil.
  - intros [Heq|Hin]%elem_of_cons.
    + simplify_eq. exists slots. split; [apply list_elem_of_here | done].
    + destruct (IH Hin) as (slots' & Hin' & Hst').
      exists slots'. split; [by apply list_elem_of_further | done].
Qed.

(** ** Construction (lines 37-55) *)

(** C7: without [output_names], the wrapper keeps the names that the net
    declares, in the order of the net; when the net has no attribute
    [output_names], the assertion of line 52 fails. *)
Theorem init_resolves_output_names (load : string -> string -> @Net scalar)
    (param_file bin_file : string) :
  (forall names,
     net_output_names (load param_file bin_file) = Some names ->
     exists w,
       init load param_file bin_file None = Ok w /\
       _net w = load param_file bin_file /\
       _output_names w = names) /\
  (net_output_names (load param_file bin_file) = None ->
   init load param_file bin_file None = Raise (AssertionError NoMessage)).
Proof.
  unfold init. split.
  - intros names ->. by eexists.
  - by intros ->.
Qed.

(** ** What a call rejects *)

(** C9: [forward] on an empty input mapping fails while indexing the first
    input, [input_list[0]] on line 79: an [IndexError], with nothing asked
    of the engine (the log is unchanged). *)
Theorem forward_empty_inputs w s :
  forward w [] s = (s, Raise IndexError).
Proof. reflexivity. Qed.

(** C3: when two inputs have different leading dimensions, [forward] raises
    and the log is unchanged: no extractor was created. *)
Theorem forward_rejects_mixed_batch w inputs s (i j : nat) (ti tj : View)
    (a b : nat) :
  values inputs !! i = Some ti ->
  values inputs !! j = Some tj ->
  size0 ti = Ok a ->
  size0 tj = Ok b ->
  a <> b ->
  exists e, forward w inputs s = (s, Raise e).
Proof.
  intros Hi Hj Ha Hb Hab.
  pose proof (forward_validate_spec inputs s) as Hspec.
  destruct (forward_validate inputs s) as [s' [b0|e]] eqn:Hval.
  - exfalso. destruct Hspec as (_ & first & rest & Hvals & Hfirst & Hrest).
    assert (forall t : View, t ∈ values inputs -> size0 t = Ok b0) as Hall.
    { intros t. rewrite Hvals. intros [->|Ht]%elem_of_cons; [done|].
      rewrite Forall_forall in Hrest. by apply Hrest. }
    apply list_elem_of_lookup_2, Hall in Hi, Hj. congruence.
  - destruct Hspec as [-> _]. exists e. by apply forward_validate_raise.
Qed.

(** X9: every input after the first that is not in host memory makes
    [forward] raise before anything is asked of the engine; when the
    leading dimensions agree, what is raised is the assertion on the
    device. *)
Lemma forward_rejects_device_later w inputs first rest (t : View) s :
  values inputs = first :: rest ->
  t ∈ rest ->
  device t <> cpu ->
  (exists e, forward w inputs s = (s, Raise e)) /\
  forall b,
    Forall (fun t : View => size0 t = Ok b) (values inputs) ->
    forward w inputs s = (s, Raise (AssertionError CpuOnly)).
Proof.
  intros Hvals Ht Hdev.
  pose proof (forward_validate_spec inputs s) as Hspec.
  destruct (forward_validate inputs s) as [s' [b0|e]] eqn:Hval.
  { exfalso. destruct Hspec as (_ & first' & rest' & Hvals' & _ & Hrest).
    rewrite Hvals in Hvals'. simplify_eq.
    rewrite Forall_forall in Hrest. destruct (Hrest t Ht). done. }
  destruct Hspec as [-> Hspec]. rewrite Hvals in Hspec.
  split; [exists e; by apply forward_validate_raise|].
  intros b Hall. rewrite Hvals in Hall.
  apply Forall_cons in Hall as [Hfirst Hall]. rewrite Forall_forall in Hall.
  apply forward_validate_raise.
  destruct Hspec as [Hraise|(b' & t' & Hb' & Ht' & Hrej)]; [congruence|].
  assert (b' = b) as -> by congruence.
  specialize (Hall t' Ht').
  destruct Hrej as [?|[(n & ? & ? & ?)|(_ & _ & ->)]]; [congruence.. | done].
Qed.

(** X8: on a valid batch whose samples [ncnn.Mat] takes, an extraction
    with a status other than 0 makes [forward] raise the assertion of
    [__ncnn_execute]; no mapping is returned.  The exception carries the
    matrix that the failed extraction returned. *)
Lemma forward_extraction_failure w inputs (b j : nat) n s :
  valid_batch inputs b ->
  Forall bindable (values inputs) ->
  j < b ->
  n ∈ _output_names w ->
  (extraction w inputs j n).1 <> 0%Z ->
  exists s' j' n',
    j' < b /\ n' ∈ _output_names w /\
    (extraction w inputs j' n').1 <> 0%Z /\
    forward w inputs s =
    (s', Raise (AssertionError (FailedExtract (extraction w inputs j' n').2))).
Proof.
  intros Hvalid Hbind Hj Hn Hne.
  rewrite (forward_after_validate w inputs b s)
    by by apply forward_validate_valid.
  pose proof (run_batch_spec w inputs b s) as Hspec.
  unfold bind.
  destruct (run_batch w inputs b _ s) as [s1 [outputs|e]].
  - destruct Hspec as [Hall _]. by specialize (Hall j n Hj Hn).
  - destruct Hspec as (j' & Hj' & [(item & Hin & Hraise)|(n' & Hn' & Hne' & ->)]).
    + rewrite (sample_mat_accepted inputs j' b Hvalid Hbind Hj' item Hin)
        in Hraise. discriminate.
    + eauto 10.
Qed.

(** ** What a call returns *)

(** X7: a mapping is returned only when the inputs share one leading
    dimension and every extraction of every sample had status 0; its keys
    are then the resolved output names, each once. *)
Lemma forward_returns_spec w inputs s s' m :
  forward w inputs s = (s', Ok m) ->
  exists b,
    Forall (fun t : View => size0 t = Ok b) (values inputs) /\
    (forall j n, j < b -> n ∈ _output_names w ->
       (extraction w inputs j n).1 = 0%Z) /\
    keys m = resolved_keys (_output_names w).
Proof.
  intros Hfwd.
  pose proof (forward_validate_spec inputs s) as Hspec.
  destruct (forward_validate inputs s) as [s0 [b|e]] eqn:Hval.
  2: { rewrite (forward_validate_raise w _ _ _ _ Hval) in Hfwd. done. }
  destruct Hspec as (-> & first & rest & Hvals & Hfirst & Hrest).
  assert (Forall (fun t : View => size0 t = Ok b) (values inputs)) as Hsizes.
  { rewrite Hvals. apply Forall_cons. split; [done|].
    eapply Forall_impl; [exact Hrest|]. by intros t [? ?]. }
  exists b. split; [done|].
  rewrite (forward_after_validate w inputs b s Hval) in Hfwd.
  apply bind_inv_ok in Hfwd as (s1 & outputs & Hrun & Hstack).
  pose proof (run_batch_spec w inputs b s) as Hbatch.
  rewrite Hrun in Hbatch. destruct Hbatch as (Hok & Hkeys & _).
  split; [done|].
  pose proof (stack_outputs_spec outputs s1) as Hst.
  rewrite Hstack in Hst. destruct Hst as [_ Hall].
  by rewrite (stacked_keys _ _ Hall).
Qed.

(** C4: on a valid batch of one sample, [forward] is the extraction for
    sample 0 followed by a new leading dimension of length one on every
    output: it returns exactly when that extraction does, with the same
    log, and the entry of each resolved output name is the unsqueezed
    result of sample 0. *)
Theorem forward_batch_one w inputs s :
  valid_batch inputs 1 ->
  forward w inputs s =
    bind (run_sample w inputs 0)
         (fun result =>
            ret (map (fun item =>
                        (item.1, unsqueeze0 (from_numpy (np_array item.2))))
                     result)) s /\
  forall s' m,
    forward w inputs s = (s', Ok m) ->
    keys m = resolved_keys (_output_names w) /\
    forall n,
      n ∈ _output_names w ->
      dict_get m n = Some (unsqueeze0 (sample_output w inputs 0 n)).
Proof.
  intros Hvalid.
  pose proof (valid_batch_sizes _ _ Hvalid) as Hsizes.
  pose proof (resolved_keys_spec (_output_names w)) as [Hnd Hnames].
  pose proof (run_sample_spec w inputs 0 s) as Hsample.
  assert (forward w inputs s =
          bind (run_sample w inputs 0)
            (fun result =>
               ret (map (fun item =>
                           (item.1, unsqueeze0 (from_numpy (np_array item.2))))
                        result)) s) as Hlaw.
  { rewrite (forward_after_validate w inputs 1 s)
      by by apply forward_validate_valid.
    pose proof (run_batch_spec w inputs 1 s) as Hbatch.
    unfold bind at 1. rewrite run_batch_one in Hbatch |- *.
    unfold bind in Hbatch |- *.
    destruct (run_sample w inputs 0 s) as [s1 [result|e]]; [|done].
    destruct Hsample as (_ & Hk & Hget).
    destruct (store_sample_spec (_output_names w) result
                (fun n => (extraction w inputs 0 n).2) 0 1
                (dict_of_pairs (map (fun name => (name, replicate 1 None))
                                    (_output_names w))) s1)
      as (outputs & Hstore & _); [done| | |lia|].
    { intros n Hn. rewrite keys_dict_of_pairs. by apply Hnames. }
    { intros n slots Hslots.
      destruct (filled_init w inputs 1) as [_ Hinit].
      by apply (Hinit n slots). }
    rewrite Hstore in Hbatch |- *. destruct Hbatch as (_ & Hkeys & Hfill).
    assert (forall n slots,
              (n, slots) ∈ outputs ->
              n ∈ _output_names w /\
              torch_stack slots = Ok (unsqueeze0 (sample_output w inputs 0 n)))
      as Hentries.
    { intros n slots Hin.
      assert (dict_get outputs n = Some slots) as Hslots.
      { apply dict_get_elem; [by rewrite Hkeys | done]. }
      split.
      { apply Hnames. rewrite <- Hkeys. apply dict_get_is_Some. eauto. }
      destruct (Hfill n slots Hslots) as [Hlen Hlook].
      specialize (Hlook 0 Nat.lt_0_1).
      destruct slots as [|slot [|? ?]]; simplify_eq/=.
      apply torch_stack_singleton. }
    pose proof (stack_outputs_spec outputs s1) as Hst.
    destruct (stack_outputs outputs s1) as [s2 [m|e]].
    - destruct Hst as [-> Hall]. unfold ret. do 2 f_equal.
      apply (dict_map_eq (fun o => unsqueeze0 (from_numpy (np_array o)))).
      + by rewrite (stacked_keys _ _ Hall), Hkeys, Hk.
      + intros n t o Hm Hres.
        destruct (stacked_elem _ _ _ _ Hall Hm) as (slots & Hin & Hstack).
        destruct (Hentries n slots Hin) as [Hn Hstack'].
        rewrite Hstack in Hstack'. simplify_eq.
        apply (dict_get_elem result) in Hres; [|by rewrite Hk].
        rewrite (Hget n Hn) in Hres. by simplify_eq.
    - exfalso. destruct Hst as (_ & n & slots & Hin & Hraise).
      destruct (Hentries n slots Hin) as [_ Hstack]. congruence. }
  split; [exact Hlaw|].
  intros s' m Hfwd. rewrite Hlaw in Hfwd.
  apply bind_inv_ok in Hfwd as (s1 & result & Hrun & Hret).
  rewrite Hrun in Hsample. destruct Hsample as (_ & Hk & Hget).
  unfold ret in Hret. simplify_eq.
  split.
  - rewrite <- Hk.
    apply (keys_map (fun o => unsqueeze0 (from_numpy (np_array o)))).
  - intros n Hn.
    rewrite (dict_get_map (fun o => unsqueeze0 (from_numpy (np_array o)))).
    by rewrite (Hget n Hn).
Qed.

(** C5, as amended: on a valid batch of at least one sample, when
    [ncnn.Mat] takes the samples of every input (a sample has one to four
    dimensions, the elements are four bytes wide, and its memory lies
    within the storage), every extraction has status 0 and the matrices
    extracted for one name have the same shape for all samples, [forward]
    returns a mapping whose keys are the resolved output names, each
    once. *)
Theorem forward_key_set w inputs (b : nat) s :
  valid_batch inputs b ->
  Forall bindable (values inputs) ->
  0 < b ->
  (forall j n, j < b -> n ∈ _output_names w ->
     (extraction w inputs j n).1 = 0%Z) ->
  (forall j n, j < b -> n ∈ _output_names w ->
     mat_shape (extraction w inputs j n).2 =
     mat_shape (extraction w inputs 0 n).2) ->
  exists s' m,
    forward w inputs s = (s', Ok m) /\
    NoDup (keys m) /\
    list_to_set (keys m) =@{gset string} list_to_set (_output_names w).
Proof.
  intros Hvalid Hbind Hb Hok Hshape.
  rewrite (forward_after_validate w inputs b s)
    by by apply forward_validate_valid.
  pose proof (run_batch_spec w inputs b s) as Hspec.
  pose proof (resolved_keys_spec (_output_names w)) as [Hnd Hnames].
  unfold bind.
  destruct (run_batch w inputs b _ s) as [s1 [outputs|e]].
  2: { destruct Hspec
         as (j & Hj & [(item & Hin & Hraise)|(n & Hn & Hne & _)]).
       - rewrite (sample_mat_accepted inputs j b Hvalid Hbind Hj item Hin)
           in Hraise. discriminate.
       - by specialize (Hok j n Hj Hn). }
  destruct Hspec as (_ & Hkeys & Hfill).
  pose proof (stack_outputs_spec outputs s1) as Hst.
  destruct (stack_outputs outputs s1) as [s2 [m|e]].
  - destruct Hst as [-> Hall]. exists s1, m. split; [done|].
    rewrite (stacked_keys _ _ Hall), Hkeys. split; [done|].
    apply set_eq. intros k. by rewrite !elem_of_list_to_set.
  - exfalso. destruct Hst as (_ & n & slots & Hin & Hraise).
    assert (dict_get outputs n = Some slots) as Hget.
    { apply dict_get_elem; [by rewrite Hkeys | done]. }
    assert (n ∈ _output_names w) as Hn.
    { apply Hnames. rewrite <- Hkeys. apply dict_get_is_Some. eauto. }
    destruct (Hfill n slots Hget) as [Hlen Hlook].
    destruct (torch_stack_filled slots b
                (fun j => sample_output w inputs j n)) as [t Ht]; try done.
    + intros j Hj. split; [|done]. simpl. by apply Hshape.
    + congruence.
Qed.

(** C6: on a valid batch of size [b], every tensor of a mapping that
    [forward] returns has leading dimension [b]. *)
Theorem forward_leading_dimension w inputs (b : nat) s s' m :
  valid_batch inputs b ->
  forward w inputs s = (s', Ok m) ->
  forall name t, (name, t) ∈ m -> size0 t = Ok b.
Proof.
  intros Hvalid Hfwd name t Hin.
  rewrite (forward_after_validate w inputs b s) in Hfwd
    by by apply forward_validate_valid.
  apply bind_inv_ok in Hfwd as (s1 & outputs & Hrun & Hstack).
  pose proof (run_batch_spec w inputs b s) as Hspec.
  rewrite Hrun in Hspec. destruct Hspec as (_ & Hkeys & Hfill).
  pose proof (stack_outputs_spec outputs s1) as Hst.
  rewrite Hstack in Hst. destruct Hst as [_ Hall].
  destruct (stacked_elem _ _ _ _ Hall Hin) as (slots & Hslots & Hok).
  apply torch_stack_size0 in Hok. rewrite Hok. f_equal.
  apply (Hfill name slots). apply dict_get_elem; [|done].
  rewrite Hkeys. apply resolved_keys_spec.
Qed.

(** C10, as amended: when all inputs have leading dimension 0, the inputs
    after the first are in host memory and there is at least one resolved
    output name, the loop over the samples does nothing, the log is
    unchanged, and [forward] fails in [torch.stack] on an empty list. *)
Theorem forward_batch_zero w inputs first rest s :
  values inputs = first :: rest ->
  Forall (fun t : View => size0 t = Ok 0) (first :: rest) ->
  Forall (fun t : View => device t = cpu) rest ->
  _output_names w <> [] ->
  (forall outputs, run_batch w inputs 0 outputs s = (s, Ok outputs)) /\
  forward w inputs s = (s, Raise (RuntimeError StackEmpty)).
Proof.
  intros Hvals Hsizes Hdev Hnames. split; [done|].
  apply Forall_cons in Hsizes as [Hfirst Hsizes].
  rewrite (forward_after_validate w inputs 0 s).
  2: { eapply forward_validate_accepts; [done..|].
       apply Forall_forall. intros t Ht. rewrite Forall_forall in Hsizes, Hdev.
       split; auto. }
  destruct (dict_of_pairs_spec
              (fun _ : string => replicate 0 (@None (@Tensor scalar)))
              (_output_names w)) as (_ & Hkeys & Hget).
  unfold bind, run_batch. simpl.
  destruct (dict_of_pairs _) as [|[n slots] outputs] eqn:Houtputs.
  - destruct (_output_names w) as [|n names]; [done|].
    exfalso. apply (not_elem_of_nil n), Hkeys, list_elem_of_here.
  - assert (slots = []) as ->.
    { assert (n ∈ _output_names w) as Hn by apply Hkeys, list_elem_of_here.
      specialize (Hget n Hn). simpl in Hget.
      rewrite decide_True in Hget by done. by simplify_eq. }
    done.
Qed.

End Properties.

(** * Calls on an engine with a state of its own *)

Section StatefulProperties.

Context {scalar : Type} {engine_state extractor : Type}.
Context (E : @Engine scalar engine_state extractor).

Implicit Types (st : engine_state) (s : list (@event scalar)).

Lemma agree_bind {A B A' B'} (R : engine_state -> A -> A' -> Prop)
    (Q : engine_state -> B -> B' -> Prop)
    (m : @ST scalar engine_state A) (k : A -> ST B)
    (m' : @M scalar A') (k' : A' -> M B') st s :
  agree R (m st) (m' s) ->
  (forall st1 s1 a a', R st1 a a' -> agree Q (k a st1) (k' a' s1)) ->
  agree Q (st_bind m k st) (bind m' k' s).
Proof.
  unfold agree, st_bind, bind. intros Hm Hk.
  destruct (m st) as [st1 [a|e]], (m' s) as [s1 [a'|e']]; simpl in *; try done.
  by apply Hk.
Qed.

Lemma agree_for_each {A S S'} (R : engine_state -> S -> S' -> Prop)
    (l : list A) (body : A -> S -> @ST scalar engine_state S)
    (body' : A -> S' -> @M scalar S') :
  (forall x acc acc' st s,
     x ∈ l -> R st acc acc' -> agree R (body x acc st) (body' x acc' s)) ->
  forall acc acc' st s,
    R st acc acc' ->
    agree R (st_for_each l body acc st) (for_each l body' acc' s).
Proof.
  induction l as [|x l IH]; intros Hbody acc acc' st s HR; simpl.
  - done.
  - apply (agree_bind R R).
    + apply Hbody; [apply list_elem_of_here | done].
    + intros st1 s1 a a' Ha. apply IH; [|done].
      intros y b b' st2 s2 Hy. apply Hbody. by apply list_elem_of_further.
Qed.

Lemma agree_lift {A} (r : @result scalar A) st s :
  agree (fun _ a b => a = b) (st_lift r st) (lift r s).
Proof. unfold agree, st_lift, lift. simpl. by destruct r. Qed.

Lemma agree_assert cond msg st s :
  agree (fun _ a b => a = b) (st_assert cond msg st) (py_assert cond msg s).
Proof. by destruct cond. Qed.

Lemma agree_bind_lift {A B B'} (Q : engine_state -> B -> B' -> Prop)
    (r : @result scalar A) (k : A -> @ST scalar engine_state B)
    (k' : A -> M B') st s :
  (forall a, r = Ok a -> agree Q (k a st) (k' a s)) ->
  agree Q (st_bind (st_lift r) k st) (bind (lift r) k' s).
Proof.
  unfold st_bind, st_lift, bind, lift. intros Hk.
  destruct r as [a|e]; [by apply Hk | done].
Qed.

Lemma agree_bind_assert {B B'} (Q : engine_state -> B -> B' -> Prop)
    cond msg (k : unit -> @ST scalar engine_state B)
    (k' : unit -> @M scalar B') st s :
  (cond = true -> agree Q (k tt st) (k' tt s)) ->
  agree Q (st_bind (st_assert cond msg) k st) (bind (py_assert cond msg) k' s).
Proof.
  intros Hk. destruct cond; [by apply Hk | done].
Qed.

Lemma agree_impl {A B} (R Q : engine_state -> A -> B -> Prop)
    (a : engine_state * @result scalar A) (b : list event * result B) :
  (forall st x y, R st x y -> Q st x y) -> agree R a b -> agree Q a b.
Proof.
  unfold agree. intros HRQ. destruct a.2, b.2; try done. apply HRQ.
Qed.

Lemma check_inputs_agree b rest st s :
  agree (fun _ a a' => a = a') (check_inputs_on b rest st) (check_inputs b rest s).
Proof.
  apply agree_for_each; [|done].
  intros t [] [] st1 s1 _ _.
  apply agree_bind_lift. intros n _.
  apply agree_bind_assert. intros _.
  eapply agree_impl; [|apply agree_assert]. by intros ? [] [].
Qed.

Lemma forward_validate_agree (inputs : dict (@View scalar)) st s :
  agree (fun _ a a' => a = a') (forward_validate_on inputs st) (forward_validate inputs s).
Proof.
  unfold forward_validate_on, forward_validate.
  eapply agree_bind; [apply agree_lift|]. intros st1 s1 first ? <-.
  eapply agree_bind; [apply agree_lift|]. intros st2 s2 b ? <-.
  eapply agree_bind; [apply check_inputs_agree|]. intros st3 s3 ? ? _.
  done.
Qed.

Lemma store_sample_agree names result j outputs st s :
  agree (fun _ a a' => a = a')
        (store_sample_on names result j outputs st)
        (store_sample names result j outputs s).
Proof.
  apply agree_for_each; [|done].
  intros name acc ? st1 s1 _ <-.
  eapply agree_bind; [apply agree_lift|]. intros st2 s2 out ? <-.
  eapply agree_bind; [apply agree_lift|]. intros st3 s3 slots ? <-.
  eapply agree_bind; [apply agree_lift|]. intros st4 s4 slots' ? <-.
  done.
Qed.

Lemma stack_outputs_agree (outputs : dict (list (option (@Tensor scalar)))) st s :
  agree (fun _ a a' => a = a') (stack_outputs_on outputs st) (stack_outputs outputs s).
Proof.
  revert st s. induction outputs as [|[name slots] outputs IH]; intros st s; simpl.
  - done.
  - eapply agree_bind; [apply agree_lift|]. intros st1 s1 t ? <-.
    eapply agree_bind; [apply IH|]. intros st2 s2 rest ? <-.
    done.
Qed.

Section Deterministic.

Context (net : @Net scalar)
        (bound : engine_state -> extractor -> dict (@Mat scalar)).

Lemma set_inputs_agree inputs j ex ex' st s :
  deterministic_engine E net bound ->
  same_extractor net bound st ex ex' ->
  agree (same_extractor net bound) (set_inputs_on E inputs j ex st) (set_inputs inputs j ex' s).
Proof.
  intros Hdet Hex. apply agree_for_each; [|done].
  intros item x x' st1 s1 _ [Hnet Hb].
  apply agree_bind_lift. intros m _.
  unfold agree, extractor_input_on, extractor_input, bind, emit, ret. simpl.
  split; [done|]. simpl. by rewrite (input_binds _ _ _ Hdet), Hb.
Qed.

Lemma ncnn_execute_agree ex ex' names st s :
  deterministic_engine E net bound ->
  same_extractor net bound st ex ex' ->
  agree (fun _ a a' => a = a') (ncnn_execute_on E ex names st) (ncnn_execute ex' names s).
Proof.
  intros Hdet Hex. unfold ncnn_execute_on, ncnn_execute.
  apply (agree_impl (fun st1 a a' => same_extractor net bound st1 ex ex' /\ a = a')).
  { by intros ? ? ? [_ ?]. }
  apply agree_for_each; [|done].
  intros name acc ? st1 s1 _ [[Hnet Hb] <-].
  unfold extractor_extract_on, extractor_extract, st_bind, bind, emit, ret.
  simpl.
  rewrite (extract_answers _ _ _ Hdet), <- Hb, Hnet.
  destruct (net_extract net (ex_bound ex') name) as [out_ret out]. simpl.
  unfold agree. destruct (bool_decide (out_ret = 0%Z)); simpl; [|done].
  split; [|done]. split; [done|].
  by rewrite (extract_keeps _ _ _ Hdet).
Qed.

Lemma run_sample_agree names inputs j st s :
  deterministic_engine E net bound ->
  agree (fun _ a a' => a = a')
        (run_sample_on E names inputs j st)
        (run_sample (mkWrapper net names) inputs j s).
Proof.
  intros Hdet. unfold run_sample_on, run_sample.
  apply (agree_bind (same_extractor net bound)).
  { unfold agree, create_extractor_on, create_extractor, bind, emit, ret.
    simpl. split; [done|]. simpl. by rewrite (created_empty _ _ _ Hdet). }
  intros st1 s1 ex ex' Hex.
  apply (agree_bind (same_extractor net bound)); [by apply set_inputs_agree|].
  intros st2 s2 ex2 ex2' Hex2. by apply ncnn_execute_agree.
Qed.

Lemma run_batch_agree names inputs b outputs st s :
  deterministic_engine E net bound ->
  agree (fun _ a a' => a = a')
        (run_batch_on E names inputs b outputs st)
        (run_batch (mkWrapper net names) inputs b outputs s).
Proof.
  intros Hdet. apply agree_for_each; [|done].
  intros j acc ? st1 s1 _ <-.
  eapply agree_bind; [by apply run_sample_agree|].
  intros st2 s2 result ? <-. apply store_sample_agree.
Qed.

Lemma forward_agree names inputs st s :
  deterministic_engine E net bound ->
  agree (fun _ a a' => a = a')
        (forward_on E names inputs st)
        (forward (mkWrapper net names) inputs s).
Proof.
  intros Hdet. unfold forward_on, forward.
  eapply agree_bind; [apply forward_validate_agree|].
  intros st1 s1 b ? <-.
  eapply agree_bind; [by apply run_batch_agree|].
  intros st2 s2 outputs ? <-. apply stack_outputs_agree.
Qed.

(** The log reading gives the result of every call on such an engine. *)
Lemma forward_on_result names inputs st s :
  deterministic_engine E net bound ->
  (forward_on E names inputs st).2 = (forward (mkWrapper net names) inputs s).2.
Proof.
  intros Hdet.
  pose proof (forward_agree names inputs st s Hdet) as H. unfold agree in H.
  destruct (forward_on E names inputs st).2, (forward _ inputs s).2; by subst.
Qed.

(** C8: two calls of [forward] with the same inputs, on an engine that is
    a deterministic function of what its extractors have bound, return the
    same mapping or raise the same exception, whatever the states [st] and
    [st'] of the engine that the two calls start from; the second of two
    consecutive calls is the case where [st'] is the state that the first
    call leaves.  Nothing is said of a call in which native code misreads
    memory. *)
Theorem forward_repeatable names inputs st st' :
  deterministic_engine E net bound ->
  (forward_on E names inputs st).2 <> Raise Undefined ->
  (forward_on E names inputs st').2 = (forward_on E names inputs st).2.
Proof.
  intros Hdet _. by rewrite !(forward_on_result _ _ _ [] Hdet).
Qed.

End Deterministic.

(** On the engine that logs, the code against an engine is [forward]. *)
Lemma forward_on_logged (net : @Net scalar) names inputs :
  forward_on (logged_engine net) names inputs = forward (mkWrapper net names) inputs.
Proof. reflexivity. Qed.

End StatefulProperties.

(** * The claims on the examples *)

(** The detector on one sample and on two. *)
Example forward_one_sample :
  forward detector_wrapper one_sample [] =
  ([EvCreateExtractor; EvInput "input" (mkMat [2] [3; 4]%Z);
    EvExtract "boxes"; EvExtract "scores"],
   Ok [("boxes", mkTensor [1; 2] [3; 4]%Z cpu);
       ("scores", mkTensor [1; 1] [7]%Z cpu)]).
Proof. reflexivity. Qed.

Example forward_two_samples :
  forward detector_wrapper two_samples [] =
  ([EvCreateExtractor; EvInput "input" (mkMat [2] [1; 2]%Z);
    EvExtract "boxes"; EvExtract "scores";
    EvCreateExtractor; EvInput "input" (mkMat [2] [3; 4]%Z);
    EvExtract "boxes"; EvExtract "scores"],
   Ok [("boxes", mkTensor [2; 2] [1; 2; 3; 4]%Z cpu);
       ("scores", mkTensor [2; 1] [3; 7]%Z cpu)]).
Proof. reflexivity. Qed.

(** C1, on the code: the output [boxes] fails for one net and the output
    [scores] for the other, and [forward] raises the same exception for
    both.  The f-string of line 132 formats [out], the matrix that the
    failed extraction returned, and not [name]: the exception does not say
    which output failed. *)
Theorem extraction_failure_hides_name :
  forward (mkWrapper (failing_on "boxes") ["boxes"; "scores"]) one_sample [] =
  ([EvCreateExtractor; EvInput "input" (mkMat [2] [3; 4]%Z);
    EvExtract "boxes"],
   Raise (AssertionError (FailedExtract empty_mat))) /\
  forward (mkWrapper (failing_on "scores") ["boxes"; "scores"]) one_sample [] =
  ([EvCreateExtractor; EvInput "input" (mkMat [2] [3; 4]%Z);
    EvExtract "boxes"; EvExtract "scores"],
   Raise (AssertionError (FailedExtract empty_mat))).
Proof. split; reflexivity. Qed.

(** C2, on the code: the only input is on the GPU, and [forward] creates an
    extractor and returns the outputs.  The loop of line 80 starts at the
    second input, so the device of the first one is never checked. *)
Theorem first_input_device_unchecked :
  Forall (fun t : View => device t <> cpu) (values one_sample_on_gpu) /\
  forward detector_wrapper one_sample_on_gpu [] =
  ([EvCreateExtractor; EvInput "input" (mkMat [2] [3; 4]%Z);
    EvExtract "boxes"; EvExtract "scores"],
   Ok [("boxes", mkTensor [1; 2] [3; 4]%Z cpu);
       ("scores", mkTensor [1; 1] [7]%Z cpu)]) /\
  extractors_created (forward detector_wrapper one_sample_on_gpu []).1 = 1.
Proof. split_and!; [by repeat constructor | reflexivity | reflexivity]. Qed.

(** An input on the GPU after the first one is rejected. *)
Example later_input_device_checked :
  forward detector_wrapper
    [("input", fresh float32 (mkTensor [1; 2] [3; 4]%Z cpu));
     ("mask", fresh float32 (mkTensor [1; 1] [1]%Z cuda))] [] =
  ([], Raise (AssertionError CpuOnly)).
Proof. reflexivity. Qed.

Lemma forward_rejects_mixed_batch_witness :
  exists e, forward detector_wrapper mixed_batch [] = ([], Raise e).
Proof.
  apply (forward_rejects_mixed_batch detector_wrapper mixed_batch [] 0 1
           (fresh float32 (mkTensor [2; 2] [1; 2; 3; 4]%Z cpu))
           (fresh float32 (mkTensor [3; 1] [1; 0; 1]%Z cpu)) 2 3);
    [reflexivity | reflexivity | reflexivity | reflexivity | lia].
Defined.

Lemma forward_batch_one_witness :
  valid_batch one_sample 1 /\
  forall s' m,
    forward detector_wrapper one_sample [] = (s', Ok m) ->
    keys m = resolved_keys ["boxes"; "scores"] /\
    forall n,
      n ∈ ["boxes"; "scores"] ->
      dict_get m n = Some (unsqueeze0 (sample_output detector_wrapper one_sample 0 n)).
Proof.
  assert (valid_batch one_sample 1) as Hvalid.
  { split; [done | repeat constructor]. }
  split; [exact Hvalid|].
  exact (proj2 (forward_batch_one detector_wrapper one_sample [] Hvalid)).
Defined.

(** C5, as stated, fails on the code.  The three batches are valid and no
    extraction has a status other than 0, yet [forward] returns no mapping:
    the first batch has no sample and [torch.stack] refuses an empty list;
    in the second the two samples yield matrices of different shapes; the
    samples of the third have no dimension, and [ncnn.Mat] raises on the
    first of them, after the extractor was created and before anything is
    extracted. *)
Lemma valid_batch_without_mapping :
  (valid_batch no_samples 0 /\
   (forall j n, j < 0 -> n ∈ _output_names detector_wrapper ->
      (extraction detector_wrapper no_samples j n).1 = 0%Z) /\
   forward detector_wrapper no_samples [] =
   ([], Raise (RuntimeError StackEmpty))) /\
  (valid_batch two_samples 2 /\
   (forall j n, j < 2 -> n ∈ ["boxes"] ->
      (extraction (mkWrapper ragged ["boxes"]) two_samples j n).1 = 0%Z) /\
   (forward (mkWrapper ragged ["boxes"]) two_samples []).2 =
   Raise (RuntimeError StackMismatch)) /\
  (valid_batch flat_batch 2 /\
   (forall j n,
      (extraction (mkWrapper constant_net ["boxes"]) flat_batch j n).1 = 0%Z) /\
   forward (mkWrapper constant_net ["boxes"]) flat_batch [] =
   ([EvCreateExtractor], Raise TypeError)).
Proof.
  split; [|split]; split_and!.
  - split; [done | repeat constructor].
  - intros j n Hj. lia.
  - reflexivity.
  - split; [done | repeat constructor].
  - intros j n Hj Hn. apply list_elem_of_singleton in Hn as ->.
    assert (j = 0 \/ j = 1) as [-> | ->] by lia; reflexivity.
  - reflexivity.
  - split; [done | repeat constructor].
  - reflexivity.
  - reflexivity.
Qed.

(** The inputs of the examples are bindable. *)
Lemma bindable_fresh (sh : list nat) (d : nat) (l : list Z) (dev : device_type) :
  1 <= length sh <= 4 ->
  d * numel sh <= length l ->
  bindable (fresh float32 (mkTensor (d :: sh) l dev)).
Proof.
  intros Hdims Hlen.
  assert ((row_major sh).*1 = sh) as Hsh.
  { clear. induction sh as [|n sh IH]; simpl; [done | by f_equal]. }
  assert (length (row_major sh) = length sh) as Hlength.
  { clear. induction sh as [|n sh IH]; simpl; [done | by rewrite IH]. }
  unfold bindable, fresh. cbn [dims shape data device row_major view_dtype
                              storage_offset storage].
  rewrite Hsh, Hlength.
  split_and!; [lia | lia | done |]. intros j Hj. nia.
Qed.

Ltac bindable_examples :=
  repeat (apply Forall_cons; split; [apply bindable_fresh; simpl; lia|]);
  constructor.

Lemma forward_key_set_witness :
  exists s' m,
    forward detector_wrapper two_samples [] = (s', Ok m) /\
    NoDup (keys m) /\
    list_to_set (keys m) =@{gset string} list_to_set ["boxes"; "scores"].
Proof.
  apply (forward_key_set detector_wrapper two_samples 2 []).
  - split; [done | repeat constructor].
  - bindable_examples.
  - lia.
  - intros j n Hj Hn.
    assert (j = 0 \/ j = 1) as [-> | ->] by lia;
      apply elem_of_cons in Hn as [-> | Hn];
      try apply list_elem_of_singleton in Hn as ->; reflexivity.
  - intros j n Hj Hn.
    assert (j = 0 \/ j = 1) as [-> | ->] by lia;
      apply elem_of_cons in Hn as [-> | Hn];
      try apply list_elem_of_singleton in Hn as ->; reflexivity.
Defined.

Lemma forward_leading_dimension_witness :
  valid_batch two_samples 2 /\
  Forall (fun item => size0 item.2 = Ok 2)
         [("boxes", mkTensor [2; 2] [1; 2; 3; 4]%Z cpu);
          ("scores", mkTensor [2; 1] [3; 7]%Z cpu)].
Proof.
  assert (valid_batch two_samples 2) as Hvalid.
  { split; [done | repeat constructor]. }
  split; [exact Hvalid|].
  apply Forall_forall. intros [name t] Hin.
  apply (forward_leading_dimension detector_wrapper two_samples 2 []
           (forward detector_wrapper two_samples []).1 _ Hvalid eq_refl
           name t Hin).
Defined.

Lemma init_resolves_output_names_witness :
  (exists w,
     init (fun _ _ => detector) "model.param" "model.bin" None = Ok w /\
     _net w = detector /\
     _output_names w = ["boxes"; "scores"]) /\
  init (fun _ _ => silent_net) "model.param" "model.bin" None =
  Raise (AssertionError NoMessage).
Proof.
  split.
  - apply (proj1 (init_resolves_output_names
                    (fun _ _ => detector) "model.param" "model.bin")).
    reflexivity.
  - apply (proj2 (init_resolves_output_names
                    (fun _ _ => silent_net) "model.param" "model.bin")).
    reflexivity.
Defined.

(** C10, as stated, fails on the code.  With no resolved output name, the
    final loop has nothing to stack and [forward] returns the empty
    mapping; with a later input on the GPU, the call fails in the checks of
    lines 80-84 and not in [torch.stack]. *)
Lemma batch_zero_without_stack_failure :
  (Forall (fun t : View => size0 t = Ok 0) (values no_samples) /\
   forward (mkWrapper detector []) no_samples [] = ([], Ok [])) /\
  (Forall (fun t : View => size0 t = Ok 0) (values no_samples_gpu_mask) /\
   forward detector_wrapper no_samples_gpu_mask [] =
   ([], Raise (AssertionError CpuOnly))).
Proof. split; (split; [repeat constructor | reflexivity]). Qed.

Lemma forward_batch_zero_witness :
  (forall outputs,
     run_batch detector_wrapper no_samples 0 outputs [] = ([], Ok outputs)) /\
  forward detector_wrapper no_samples [] = ([], Raise (RuntimeError StackEmpty)).
Proof.
  apply (forward_batch_zero detector_wrapper no_samples
           (fresh float32 (mkTensor [0; 2] [] cpu)) [] []).
  - reflexivity.
  - repeat constructor.
  - constructor.
  - discriminate.
Defined.

(** [ncnn.Mat] reads the memory behind a sample, not its elements: of the
    transposed batch [[1, 3, 5], [2, 4, 6]] the engine is given [1, 2, 3]
    and [2, 3, 4]. *)
Example forward_of_transposed_batch :
  map (fun item : string * View => (item.1, elements item.2))
      transposed_batch =
    [("input", mkTensor [2; 3] [1; 3; 5; 2; 4; 6]%Z cpu)] /\
  forward (mkWrapper echo_net ["input"]) transposed_batch [] =
    ([EvCreateExtractor; EvInput "input" (mkMat [3] [1; 2; 3]%Z);
      EvExtract "input";
      EvCreateExtractor; EvInput "input" (mkMat [3] [2; 3; 4]%Z);
      EvExtract "input"],
     Ok [("input", mkTensor [2; 3] [1; 2; 3; 2; 3; 4]%Z cpu)]).
Proof. by vm_compute. Qed.

(** [ncnn.Mat] refuses a sample of no dimension with a [TypeError] and a
    sample of five with a [RuntimeError]; what it does with elements that
    are not of four bytes is not defined.  All three happen after the
    first extractor was created. *)
Example forward_of_refused_samples :
  forward detector_wrapper flat_batch [] =
    ([EvCreateExtractor], Raise TypeError) /\
  forward detector_wrapper deep_batch [] =
    ([EvCreateExtractor], Raise (RuntimeError (MatDims 5))) /\
  forward detector_wrapper double_batch [] =
    ([EvCreateExtractor], Raise Undefined).
Proof. by vm_compute. Qed.

(** The counting engine answers as the net does. *)
Lemma counting_engine_deterministic (net : @Net Z) :
  deterministic_engine (counting_engine net) net table.
Proof.
  split; intros; simpl.
  - by rewrite decide_True.
  - by rewrite decide_True.
  - done.
  - done.
Qed.

(** Two calls on the counting engine: the first leaves eight calls counted
    and two extractors handed out, and the second returns what the first
    returned. *)
Example forward_on_counting :
  let first :=
    forward_on (counting_engine detector) ["boxes"; "scores"] two_samples
               idle in
  calls first.1 = 8 /\ next_extractor first.1 = 2 /\
  first.2 = Ok [("boxes", mkTensor [2; 2] [1; 2; 3; 4]%Z cpu);
                ("scores", mkTensor [2; 1] [3; 7]%Z cpu)].
Proof. by vm_compute. Qed.

Lemma forward_repeatable_witness :
  deterministic_engine (counting_engine detector) detector table /\
  (forward_on (counting_engine detector) ["boxes"; "scores"] two_samples
              idle).2 <> Raise Undefined /\
  (forward_on (counting_engine detector) ["boxes"; "scores"] two_samples
     (forward_on (counting_engine detector) ["boxes"; "scores"] two_samples
                 idle).1).2 =
  (forward_on (counting_engine detector) ["boxes"; "scores"] two_samples
              idle).2.
Proof.
  split; [apply counting_engine_deterministic|].
  split; [by vm_compute|].
  apply (forward_repeatable (counting_engine detector) detector table
           ["boxes"; "scores"] two_samples idle).
  - apply counting_engine_deterministic.
  - by vm_compute.
Defined.

(** * More properties of the wrapper *)

Section TraceProperties.

Context {scalar : Type}.

Implicit Types (w : @NCNNWrapper scalar) (inputs : dict (@View scalar)).
Implicit Types (s : list (@event scalar)).

(** ** The calls of one sample *)

Lemma for_each_app {A S} (l1 l2 : list A) (body : A -> S -> @M scalar S) st s :
  for_each (l1 ++ l2) body st s =
  bind (for_each l1 body st) (for_each l2 body) s.
Proof.
  revert st s. induction l1 as [|x l1 IH]; intros st s; simpl; [done|].
  unfold bind in *. destruct (body x st s) as [s1 [st1|e]]; [apply IH | done].
Qed.

Lemma set_inputs_trace inputs (j : nat) (ex : Extractor) s :
  (forall item, item ∈ inputs ->
     sample_mat item.2 j = Ok (sample_slice item.2 j)) ->
  set_inputs inputs j ex s =
  (s ++ input_events inputs j,
   Ok (mkExtractor (ex_net ex) (foldl (bind_slice j) (ex_bound ex) inputs))).
Proof.
  intros Hall. unfold set_inputs, input_events. revert ex s.
  induction inputs as [|[name t] inputs IH]; intros ex s; simpl.
  - unfold ret. rewrite app_nil_r. by destruct ex.
  - pose proof (Hall (name, t) (list_elem_of_here _ _)) as Ht. simpl in Ht.
    erewrite bind_ok.
    2: { unfold bind, lift. simpl. rewrite Ht. reflexivity. }
    rewrite IH.
    2: { intros item Hin. apply Hall. by apply list_elem_of_further. }
    simpl.
    replace (bind_slice j (ex_bound ex) (name, t))
      with (dict_set name (sample_slice t j) (ex_bound ex)).
    2: { unfold bind_slice. simpl. by rewrite Ht. }
    by rewrite <- app_assoc.
Qed.

(** The extractions of one sample stop at the first status that is not 0. *)
Lemma ncnn_execute_trace (ex : @Extractor scalar) (names : list string) s :
  ncnn_execute ex names s =
  match list_find (fun n => (net_extract (ex_net ex) (ex_bound ex) n).1 <> 0%Z)
                  names with
  | None =>
      (s ++ map EvExtract names,
       Ok (foldl (fun d n =>
                    dict_set n (net_extract (ex_net ex) (ex_bound ex) n).2 d)
                 [] names))
  | Some (i, n) =>
      (s ++ map EvExtract (take (S i) names),
       Raise (AssertionError
                (FailedExtract (net_extract (ex_net ex) (ex_bound ex) n).2)))
  end.
Proof.
  unfold ncnn_execute. generalize (@nil (string * @Mat scalar)) as acc.
  revert s. induction names as [|n names IH]; intros s acc; simpl.
  - unfold ret. by rewrite app_nil_r.
  - unfold extractor_extract. unfold bind at 1 2 3. unfold emit at 1.
    unfold ret at 1. simpl. case_decide as Hn.
    + rewrite bool_decide_false by done. done.
    + rewrite bool_decide_true by done. simpl.
      unfold ret at 1. rewrite IH.
      destruct (list_find _ names) as [[i n']|]; simpl;
        by rewrite <- app_assoc.
Qed.

Lemma first_failure_None w inputs (j : nat) :
  first_failure w inputs j = None <->
  forall n, n ∈ _output_names w -> (extraction w inputs j n).1 = 0%Z.
Proof.
  unfold first_failure. rewrite list_find_None, Forall_forall.
  split; intros H n Hn; specialize (H n Hn).
  - by apply dec_stable.
  - by intros ?.
Qed.

Lemma first_failure_Some w inputs (j : nat) pre n post :
  _output_names w = pre ++ n :: post ->
  (forall n', n' ∈ pre -> (extraction w inputs j n').1 = 0%Z) ->
  (extraction w inputs j n).1 <> 0%Z ->
  first_failure w inputs j = Some (length pre, n).
Proof.
  intros Hnames Hpre Hn. unfold first_failure. rewrite Hnames.
  apply list_find_Some. split_and!.
  - by apply list_lookup_middle.
  - done.
  - intros i n' Hi Hlt. rewrite lookup_app_l in Hi by done.
    apply list_elem_of_lookup_2, Hpre in Hi. by intros ?.
Qed.

Lemma run_sample_trace w inputs (j : nat) s :
  (forall item, item ∈ inputs ->
     sample_mat item.2 j = Ok (sample_slice item.2 j)) ->
  run_sample w inputs j s =
  match first_failure w inputs j with
  | None =>
      (s ++ sample_events w inputs j,
       Ok (foldl (fun d n => dict_set n (extraction w inputs j n).2 d)
                 [] (_output_names w)))
  | Some (i, n) =>
      (s ++ EvCreateExtractor :: input_events inputs j ++
            map EvExtract (take (S i) (_output_names w)),
       Raise (AssertionError (FailedExtract (extraction w inputs j n).2)))
  end.
Proof.
  intros Hall. unfold run_sample.
  erewrite bind_ok; [|reflexivity].
  erewrite bind_ok; [|by eapply set_inputs_trace].
  rewrite ncnn_execute_trace. simpl.
  unfold first_failure, extraction, sample_inputs, sample_events.
  destruct (list_find _ _) as [[i n]|]; by rewrite <- !app_assoc.
Qed.

Lemma filled_step w inputs (b i : nat) (result : dict Mat) outputs s :
  filled w inputs b i outputs ->
  i < b ->
  (forall n, n ∈ _output_names w ->
     dict_get result n = Some (extraction w inputs i n).2) ->
  exists outputs',
    store_sample (_output_names w) result i outputs s = (s, Ok outputs') /\
    filled w inputs b (S i) outputs'.
Proof.
  intros [Hkeys Hfill] Hi Hget.
  pose proof (resolved_keys_spec (_output_names w)) as [Hnd Hnames].
  destruct (store_sample_spec (_output_names w) result
              (fun n => (extraction w inputs i n).2) i b outputs s)
    as (outputs' & Hstore & Hk2 & Hget2); [done| | |done|].
  { intros n Hn. rewrite Hkeys. by apply Hnames. }
  { intros n slots Hn. by apply (Hfill n slots). }
  exists outputs'. split; [done|]. split; [by rewrite Hk2|].
  intros n slots' Hn.
  assert (n ∈ _output_names w) as Hin.
  { apply Hnames. rewrite <- Hkeys, <- Hk2. apply dict_get_is_Some. eauto. }
  rewrite Hget2, decide_True in Hn by done.
  destruct (dict_get outputs n) as [slots|] eqn:Hold; [|done].
  simplify_eq/=. destruct (Hfill n slots Hold) as [Hlen Hlook].
  split; [by rewrite length_insert|].
  intros j Hj. destruct (decide (j = i)) as [->|Hne].
  - by rewrite list_lookup_insert_eq by lia.
  - rewrite list_lookup_insert_ne by done. apply Hlook. lia.
Qed.

(** The loop over the first [i] samples of a batch of [b], when none of
    them fails. *)
Lemma run_prefix_trace w inputs (b i : nat) s :
  valid_batch inputs b ->
  Forall bindable (values inputs) ->
  i <= b ->
  (forall j, j < i -> first_failure w inputs j = None) ->
  exists outputs,
    run_batch w inputs i
      (dict_of_pairs (map (fun name => (name, replicate b None))
                          (_output_names w))) s =
    (s ++ concat (map (sample_events w inputs) (seq 0 i)), Ok outputs) /\
    filled w inputs b i outputs.
Proof.
  intros Hvalid Hbind. induction i as [|i IH]; intros Hi Hok.
  - eexists. split; [|apply filled_init].
    unfold run_batch. simpl. unfold ret. by rewrite app_nil_r.
  - destruct IH as (outputs & Hrun & Hfill); [lia | intros; apply Hok; lia|].
    unfold run_batch, range in *. rewrite seq_S, for_each_app.
    erewrite bind_ok; [|exact Hrun]. simpl.
    pose proof (run_sample_spec w inputs i
                  (s ++ concat (map (sample_events w inputs) (seq 0 i))))
      as Hspec.
    unfold bind at 1. unfold bind at 1.
    rewrite (run_sample_trace w inputs i) in Hspec |- *
      by (apply (sample_mat_accepted inputs i b); (done || lia)).
    rewrite (Hok i) in Hspec |- * by lia.
    destruct Hspec as (_ & _ & Hget).
    destruct (filled_step w inputs b i _ outputs
                ((s ++ concat (map (sample_events w inputs) (seq 0 i))) ++
                 sample_events w inputs i) Hfill Hi Hget)
      as (outputs' & Hstore & Hfill').
    exists outputs'. split; [|done].
    rewrite Hstore. unfold ret.
    rewrite map_app, concat_app. simpl. by rewrite app_nil_r, app_assoc.
Qed.





(** ** What the engine is asked during a call *)


(** X2: on a valid batch whose samples [ncnn.Mat] takes, a call stops at
    the first extraction, in the order of the samples and then of the
    resolved names, whose status is not 0.  The samples before it were run
    in full, the outputs before it in its sample were extracted, nothing is
    asked of the engine afterwards, and the exception is the assertion of
    that extraction. *)
Theorem forward_stops_at_first_failure w inputs (b j : nat) pre n post s :
  valid_batch inputs b ->
  Forall bindable (values inputs) ->
  j < b ->
  (forall j' n', j' < j -> n' ∈ _output_names w ->
     (extraction w inputs j' n').1 = 0%Z) ->
  _output_names w = pre ++ n :: post ->
  (forall n', n' ∈ pre -> (extraction w inputs j n').1 = 0%Z) ->
  (extraction w inputs j n).1 <> 0%Z ->
  forward w inputs s =
  (s ++ concat (map (sample_events w inputs) (seq 0 j)) ++
        EvCreateExtractor :: input_events inputs j ++
        map EvExtract (pre ++ [n]),
   Raise (AssertionError (FailedExtract (extraction w inputs j n).2))).
Proof.
  intros Hvalid Hbind Hj Hbefore Hnames Hpre Hn.
  rewrite (forward_after_validate w inputs b s)
    by by apply forward_validate_valid.
  destruct (run_prefix_trace w inputs b j s) as (outputs & Hrun & _).
  { done. }
  { done. }
  { lia. }
  { intros j' Hj'. apply first_failure_None. intros n' Hn'.
    by apply Hbefore. }
  unfold bind at 1. unfold run_batch, range in *.
  replace (seq 0 b) with (seq 0 j ++ j :: seq (S j) (b - S j)).
  2: { replace b with (j + S (b - S j)) at 2 by lia. by rewrite seq_app. }
  rewrite for_each_app. erewrite bind_ok; [|exact Hrun]. simpl.
  unfold bind at 1. unfold bind at 1.
  rewrite (run_sample_trace w inputs j)
    by by apply (sample_mat_accepted inputs j b).
  rewrite (first_failure_Some w inputs j pre n post Hnames Hpre Hn).
  rewrite Hnames.
  replace (S (length pre)) with (length pre + 1) by lia.
  rewrite take_app_add. simpl. by rewrite <- app_assoc.
Qed.

(** ** What a returned mapping holds *)

Lemma stacked_get (outputs : dict (list (option (@Tensor scalar)))) m n slots :
  Forall2 (fun o r => r.1 = o.1 /\ torch_stack o.2 = Ok r.2) outputs m ->
  dict_get outputs n = Some slots ->
  exists t, dict_get m n = Some t /\ torch_stack slots = Ok t.
Proof.
  induction 1 as [|[n0 slots0] [n' t'] outputs m [Hn Hst] _ IH]; simpl in *;
    [done|]. subst n'.
  case_decide; [intros [= <-]; eauto | done].
Qed.

Lemma filled_slots w inputs (b : nat) outputs n slots :
  filled w inputs b b outputs ->
  dict_get outputs n = Some slots ->
  slots = (fun j => Some (sample_output w inputs j n)) <$> seq 0 b.
Proof.
  intros [_ Hfill] Hget. destruct (Hfill n slots Hget) as [Hlen Hlook].
  apply list_eq. intros j. rewrite list_lookup_fmap.
  destruct (decide (j < b)) as [Hj|Hj].
  - rewrite Hlook, lookup_seq_lt by done. done.
  - rewrite lookup_ge_None_2 by lia.
    rewrite lookup_ge_None_2; [done|]. rewrite length_seq. lia.
Qed.

(** Every entry of a returned mapping is the stack of the outputs of the
    samples, in the order of the samples. *)
Lemma forward_entries w inputs (b : nat) s s' m :
  Forall (fun t : View => size0 t = Ok b) (values inputs) ->
  forward w inputs s = (s', Ok m) ->
  keys m = resolved_keys (_output_names w) /\
  forall n,
    n ∈ _output_names w ->
    exists t,
      dict_get m n = Some t /\
      torch_stack ((fun j => Some (sample_output w inputs j n)) <$> seq 0 b)
      = Ok t.
Proof.
  intros Hsizes Hfwd.
  pose proof (forward_validate_spec inputs s) as Hspec.
  destruct (forward_validate inputs s) as [s0 [b'|e]] eqn:Hval.
  2: { rewrite (forward_validate_raise w _ _ _ _ Hval) in Hfwd. done. }
  destruct Hspec as (-> & first & rest & Hvals & Hfirst & _).
  assert (b' = b) as ->.
  { rewrite Hvals in Hsizes. apply Forall_cons in Hsizes as [Hb _]. congruence. }
  rewrite (forward_after_validate w inputs b s Hval) in Hfwd.
  apply bind_inv_ok in Hfwd as (s1 & outputs & Hrun & Hstack).
  pose proof (run_batch_spec w inputs b s) as Hbatch.
  rewrite Hrun in Hbatch. destruct Hbatch as (_ & Hfilled).
  pose proof (stack_outputs_spec outputs s1) as Hst.
  rewrite Hstack in Hst. destruct Hst as [_ Hall].
  destruct Hfilled as [Hkeys Hfill].
  split; [by rewrite (stacked_keys _ _ Hall)|].
  intros n Hn.
  assert (is_Some (dict_get outputs n)) as [slots Hslots].
  { apply dict_get_is_Some. rewrite Hkeys. by apply resolved_keys_spec. }
  destruct (stacked_get _ _ _ _ Hall Hslots) as (t & Hm & Ht).
  exists t. split; [done|].
  by rewrite <- (filled_slots w inputs b outputs n slots).
Qed.


Lemma torch_stack_value (ts : list (@Tensor scalar)) t :
  torch_stack (Some <$> ts) = Ok t ->
  exists t0 ts',
    ts = t0 :: ts' /\
    Forall (fun t' => shape t' = shape t0 /\ device t' = device t0) ts' /\
    t = mkTensor (length ts :: shape t0) (concat (map data ts)) (device t0).
Proof.
  unfold torch_stack.
  destruct (all_tensors_Some (Some <$> ts) ts) as [_ ->]; [|done].
  destruct ts as [|t0 ts']; [done|].
  destruct (forallb (same_layout t0) ts') eqn:Hall; [|done].
  intros [= <-]. exists t0, ts'. split_and!; [done| |done].
  apply Forall_forall. intros t' Ht'.
  rewrite forallb_forall in Hall. unfold same_layout in Hall.
  eapply bool_decide_eq_true_1, Hall. by apply list_elem_of_In.
Qed.

(** X3: on a valid batch of [b] samples, every entry of the mapping that
    [forward] returns has shape [b] followed by the shape of the output of
    sample 0, holds the elements of the outputs of samples 0, 1, ... in
    that order, and is in host memory. *)
Theorem forward_output_value w inputs (b : nat) s s' m :
  valid_batch inputs b ->
  forward w inputs s = (s', Ok m) ->
  forall n,
    n ∈ _output_names w ->
    dict_get m n =
    Some (mkTensor (b :: mat_shape (extraction w inputs 0 n).2)
                   (concat (map (fun j => mat_data (extraction w inputs j n).2)
                                (range b)))
                   cpu).
Proof.
  intros Hvalid Hfwd n Hn.
  destruct (forward_entries w inputs b s s' m (valid_batch_sizes _ _ Hvalid)
              Hfwd) as [_ Hentries].
  destruct (Hentries n Hn) as (t & -> & Hstack). f_equal.
  rewrite (list_fmap_compose (fun j => sample_output w inputs j n) Some)
    in Hstack.
  apply torch_stack_value in Hstack as (t0 & ts' & Hts & _ & ->).
  assert (length ((fun j => sample_output w inputs j n) <$> seq 0 b) = b)
    as Hlen by by rewrite length_fmap, length_seq.
  rewrite Hlen.
  destruct b as [|b]; [done|]. simpl in Hts. injection Hts as <- _.
  simpl. f_equal.
  rewrite <- !list_fmap_compose. done.
Qed.

(** ** Splitting a batch and joining it again *)

Lemma concat_chunk {A} (ls : list (list A)) (n j : nat) (l : list A) :
  Forall (fun l => length l = n) ls ->
  ls !! j = Some l ->
  take n (drop (j * n) (concat ls)) = l.
Proof.
  revert j. induction ls as [|l0 ls IH]; intros j Hall Hj; [done|].
  apply Forall_cons in Hall as [Hl0 Hall]. destruct j as [|j]; simpl in *.
  - simplify_eq. rewrite drop_0. apply take_app_length.
  - rewrite drop_app_add' by done. by apply IH.
Qed.


(** Indexing a stack of well-formed tensors gives the tensor back. *)
Lemma stack_index (ts : list (@Tensor scalar)) t (j : nat) tj :
  torch_stack (Some <$> ts) = Ok t ->
  Forall well_formed ts ->
  ts !! j = Some tj ->
  tensor_index t j = Ok tj.
Proof.
  intros Hstack Hwf Hj.
  apply torch_stack_value in Hstack as (t0 & ts' & -> & Hsame & ->).
  assert (forall t', t' ∈ t0 :: ts' ->
            shape t' = shape t0 /\ device t' = device t0) as Hall.
  { intros t' [->|Ht']%elem_of_cons; [done|].
    rewrite Forall_forall in Hsame. by apply Hsame. }
  destruct (Hall tj (list_elem_of_lookup_2 _ _ _ Hj)) as [Hshape Hdev].
  unfold tensor_index. cbn [shape data device].
  rewrite decide_True by (by apply lookup_lt_Some in Hj).
  f_equal. destruct tj as [sh dt dv]. simpl in Hshape, Hdev. subst sh dv.
  f_equal.
  apply (concat_chunk (map data (t0 :: ts'))).
  - apply Forall_forall. intros l (t' & -> & Ht')%list_elem_of_fmap.
    rewrite Forall_forall in Hwf. rewrite (Hwf t' Ht').
    by destruct (Hall t' Ht') as [-> _].
  - change (map data (t0 :: ts')) with (data <$> t0 :: ts').
    by rewrite list_lookup_fmap, Hj.
Qed.

(** X4: the result of sample [j] is row [j] of every returned tensor.  On
    a valid batch, when the engine returns matrices whose buffers match
    their shapes, indexing a returned tensor at [j] gives the output
    extracted for sample [j]. *)
Theorem forward_output_row w inputs (b : nat) s s' m :
  valid_batch inputs b ->
  forward w inputs s = (s', Ok m) ->
  (forall j n, j < b -> n ∈ _output_names w ->
     length (mat_data (extraction w inputs j n).2) =
     numel (mat_shape (extraction w inputs j n).2)) ->
  forall n j,
    n ∈ _output_names w ->
    j < b ->
    exists t,
      dict_get m n = Some t /\
      tensor_index t j = Ok (sample_output w inputs j n).
Proof.
  intros Hvalid Hfwd Hwf n j Hn Hj.
  destruct (forward_entries w inputs b s s' m (valid_batch_sizes _ _ Hvalid)
              Hfwd) as [_ Hentries].
  destruct (Hentries n Hn) as (t & Hget & Hstack).
  exists t. split; [done|].
  rewrite (list_fmap_compose (fun j => sample_output w inputs j n) Some)
    in Hstack.
  eapply stack_index; [exact Hstack | |].
  - apply Forall_forall. intros t' (j' & -> & Hj')%list_elem_of_fmap.
    apply elem_of_seq in Hj'. apply Hwf; [lia | done].
  - by rewrite list_lookup_fmap, lookup_seq_lt.
Qed.




Lemma dict_ext {V} (m d : dict V) :
  keys m = keys d ->
  (forall n t o, (n, t) ∈ m -> (n, o) ∈ d -> t = o) ->
  m = d.
Proof.
  unfold keys. revert m.
  induction d as [|[n o] d IH]; intros [|[n' t] m]; simpl; intros Hk Hall;
    simplify_eq; [done|].
  f_equal.
  - f_equal. apply (Hall n); apply list_elem_of_here.
  - apply IH; [done|]. intros n1 t1 o1 Hm Hd.
    apply (Hall n1); by apply list_elem_of_further.
Qed.

Lemma fst_row_major (sh : list nat) : (row_major sh).*1 = sh.
Proof. induction sh as [|d sh IH]; simpl; [done | by f_equal]. Qed.



(** ** The order of the checks *)

(** X6: the inputs after the first are checked in their order, the batch
    size of each before its device, and the first one that is refused
    decides the exception: the failure of [size(0)] on a tensor without
    dimensions, the assertion on the batch size, or the assertion on the
    device.  Nothing is asked of the engine. *)
Theorem forward_reports_first_rejected w inputs first pre t post (b : nat) e s :
  values inputs = first :: pre ++ t :: post ->
  size0 first = Ok b ->
  Forall (fun t : View => size0 t = Ok b /\ device t = cpu) pre ->
  rejected b t e ->
  forward w inputs s = (s, Raise e).
Proof.
  intros Hvals Hfirst Hpre Hrej.
  apply forward_validate_raise. unfold forward_validate.
  rewrite Hvals. simpl. rewrite drop_0.
  erewrite bind_ok; [|reflexivity].
  erewrite bind_ok; [|unfold lift; by rewrite Hfirst].
  apply bind_raise.
  pose proof (check_inputs_ok b pre s Hpre) as Hok.
  unfold check_inputs in *. rewrite for_each_app.
  erewrite bind_ok; [|exact Hok]. simpl.
  apply bind_raise. unfold bind, lift, py_assert, ret, raise.
  destruct Hrej as [Hsize|[(n & Hsize & Hne & ->)|(Hsize & Hdev & ->)]];
    rewrite Hsize; [done| |].
  - by rewrite bool_decide_false.
  - rewrite bool_decide_true by done. by rewrite bool_decide_false.
Qed.

End TraceProperties.

(** ** The properties above on the examples *)


Lemma forward_stops_at_first_failure_witness :
  forward (mkWrapper rejects_three ["boxes"; "scores"]) two_samples [] =
  ([] ++ concat (map (sample_events (mkWrapper rejects_three ["boxes"; "scores"])
                                    two_samples) (seq 0 1)) ++
         EvCreateExtractor :: input_events two_samples 1 ++
         map EvExtract (["boxes"] ++ ["scores"]),
   Raise (AssertionError
            (FailedExtract
               (extraction (mkWrapper rejects_three ["boxes"; "scores"])
                           two_samples 1 "scores").2))).
Proof.
  apply (forward_stops_at_first_failure
           (mkWrapper rejects_three ["boxes"; "scores"]) two_samples 2 1
           ["boxes"] "scores" [] []).
  - split; [done | repeat constructor].
  - bindable_examples.
  - lia.
  - intros j n Hj Hn. assert (j = 0) as -> by lia.
    apply elem_of_cons in Hn as [-> | Hn];
      try apply list_elem_of_singleton in Hn as ->; reflexivity.
  - reflexivity.
  - intros n Hn. apply list_elem_of_singleton in Hn as ->. reflexivity.
  - discriminate.
Defined.

Lemma forward_output_value_witness :
  valid_batch two_samples 2 /\
  dict_get [("boxes", mkTensor [2; 2] [1; 2; 3; 4]%Z cpu);
            ("scores", mkTensor [2; 1] [3; 7]%Z cpu)] "scores" =
  Some (mkTensor
          (2 :: mat_shape (extraction detector_wrapper two_samples 0 "scores").2)
          (concat (map (fun j => mat_data (extraction detector_wrapper
                                             two_samples j "scores").2)
                       (range 2)))
          cpu).
Proof.
  assert (valid_batch two_samples 2) as Hvalid.
  { split; [done | repeat constructor]. }
  split; [exact Hvalid|].
  apply (forward_output_value detector_wrapper two_samples 2 []
           (forward detector_wrapper two_samples []).1 _ Hvalid eq_refl).
  apply list_elem_of_further, list_elem_of_here.
Defined.

Lemma forward_output_row_witness :
  exists t,
    dict_get [("boxes", mkTensor [2; 2] [1; 2; 3; 4]%Z cpu);
              ("scores", mkTensor [2; 1] [3; 7]%Z cpu)] "boxes" = Some t /\
    tensor_index t 1 = Ok (sample_output detector_wrapper two_samples 1 "boxes").
Proof.
  apply (forward_output_row detector_wrapper two_samples 2 []
           (forward detector_wrapper two_samples []).1).
  - split; [done | repeat constructor].
  - reflexivity.
  - intros j n Hj Hn.
    assert (j = 0 \/ j = 1) as [-> | ->] by lia;
      apply elem_of_cons in Hn as [-> | Hn];
      try apply list_elem_of_singleton in Hn as ->; reflexivity.
  - apply list_elem_of_here.
  - lia.
Defined.


Lemma forward_reports_first_rejected_witness :
  forward detector_wrapper doubly_wrong [] =
  ([], Raise (AssertionError SameBatchSize)).
Proof.
  apply (forward_reports_first_rejected detector_wrapper doubly_wrong
           (fresh float32 (mkTensor [2; 2] [1; 2; 3; 4]%Z cpu)) []
           (fresh float32 (mkTensor [3; 1] [1; 0; 1]%Z cuda)) [] 2).
  - reflexivity.
  - reflexivity.
  - constructor.
  - right. left. exists 3. split_and!; [reflexivity | lia | reflexivity].
Defined.

Lemma forward_returns_spec_witness :
  exists b,
    Forall (fun t : View => size0 t = Ok b) (values two_samples) /\
    (forall j n, j < b -> n ∈ _output_names detector_wrapper ->
       (extraction detector_wrapper two_samples j n).1 = 0%Z) /\
    keys [("boxes", mkTensor [2; 2] [1; 2; 3; 4]%Z cpu);
          ("scores", mkTensor [2; 1] [3; 7]%Z cpu)] =
    resolved_keys (_output_names detector_wrapper).
Proof.
  apply (forward_returns_spec detector_wrapper two_samples []
           (forward detector_wrapper two_samples []).1).
  reflexivity.
Defined.

Lemma forward_extraction_failure_witness :
  exists s' j' n',
    j' < 2 /\ n' ∈ ["boxes"; "scores"] /\
    (extraction (mkWrapper rejects_three ["boxes"; "scores"])
                two_samples j' n').1 <> 0%Z /\
    forward (mkWrapper rejects_three ["boxes"; "scores"]) two_samples [] =
    (s', Raise (AssertionError
                  (FailedExtract
                     (extraction (mkWrapper rejects_three ["boxes"; "scores"])
                                 two_samples j' n').2))).
Proof.
  apply (forward_extraction_failure
           (mkWrapper rejects_three ["boxes"; "scores"]) two_samples 2 1
           "scores" []).
  - split; [done | repeat constructor].
  - bindable_examples.
  - lia.
  - apply list_elem_of_further, list_elem_of_here.
  - discriminate.
Defined.

Lemma forward_rejects_device_later_witness :
  (exists e, forward detector_wrapper no_samples_gpu_mask [] = ([], Raise e)) /\
  forall b,
    Forall (fun t : View => size0 t = Ok b) (values no_samples_gpu_mask) ->
    forward detector_wrapper no_samples_gpu_mask [] =
    ([], Raise (AssertionError CpuOnly)).
Proof.
  apply (forward_rejects_device_later detector_wrapper no_samples_gpu_mask
           (fresh float32 (mkTensor [0; 2] [] cpu))
           [fresh float32 (mkTensor [0; 1] [] cuda)]
           (fresh float32 (mkTensor [0; 1] [] cuda)) []).
  - reflexivity.
  - apply list_elem_of_here.
  - discriminate.
Defined.

(** * Properties of the TensorRT rewrite of SRCNN *)

Section SRCNNProperties.

Import SRCNN__tensorrt.

Context (float_of_str : string -> option pyfloat).

Local Abbreviation float := (SRCNN__tensorrt.float float_of_str).
Local Abbreviation Upsample := (SRCNN__tensorrt.Upsample float_of_str).
Local Abbreviation init := (SRCNN__tensorrt.init float_of_str).

Lemma getattr_insert_other (h : heap) (l l' : nat) (o : object) name :
  l <> l' ->
  getattr (<[l := o]> h) (VRef l') name = getattr h (VRef l') name.
Proof. intros Hne. unfold getattr. by rewrite list_lookup_insert_ne. Qed.

Lemma getattr_app (h : heap) (o : object) (l : nat) name :
  l < length h ->
  getattr (h ++ [o]) (VRef l) name = getattr h (VRef l) name.
Proof. intros Hl. unfold getattr. by rewrite lookup_app_l. Qed.

Lemma init_heap (h : heap) (m : nat) (o : object) (factor : value)
    (u : object) channels kernel_sizes upscale_factor :
  h !! m = Some o ->
  dict_get (attrs o) "upscale_factor" = Some factor ->
  Upsample factor "bilinear" false = Done u ->
  init h (VRef m) channels kernel_sizes upscale_factor =
  (<[m := mkObject (cls o)
             (dict_set "img_upsampler" (VRef (S (length h))) (attrs o))]>
     (h ++ [mkObject "SRCNN__tensorrt" [("_module", VRef m)]; u]),
   Done (length h)).
Proof.
  intros Hm Hfactor Hu.
  assert (m < length h) as Hlt by by apply lookup_lt_Some in Hm.
  unfold init, alloc, setattr, getattr.
  rewrite list_lookup_middle by done. simpl.
  rewrite insert_app_r_alt by done. rewrite Nat.sub_diag. simpl.
  rewrite lookup_app_l by done. rewrite Hm, Hfactor, Hu.
  rewrite <- app_assoc. simpl.
  rewrite lookup_app_l by done. rewrite Hm.
  rewrite length_app. simpl.
  by replace (length h + 1) with (S (length h)) by lia.
Qed.

Lemma init_heap_failed (h : heap) (m : nat) (o : object) (factor : value)
    (e : error) channels kernel_sizes upscale_factor :
  h !! m = Some o ->
  dict_get (attrs o) "upscale_factor" = Some factor ->
  Upsample factor "bilinear" false = Failed e ->
  init h (VRef m) channels kernel_sizes upscale_factor =
  (h ++ [mkObject "SRCNN__tensorrt" [("_module", VRef m)]], Failed e).
Proof.
  intros Hm Hfactor Hu.
  assert (m < length h) as Hlt by by apply lookup_lt_Some in Hm.
  unfold init, alloc, setattr, getattr.
  rewrite list_lookup_middle by done. simpl.
  rewrite insert_app_r_alt by done. rewrite Nat.sub_diag. simpl.
  rewrite lookup_app_l by done. by rewrite Hm, Hfactor, Hu.
Qed.

(** What [nn.Upsample] keeps of a factor. *)
Lemma Upsample_attrs (factor : value) mode align (u : object) :
  Upsample factor mode align = Done u ->
  cls u = "Upsample" /\
  dict_get (attrs u) "mode" = Some (VStr mode) /\
  dict_get (attrs u) "align_corners" = Some (VBool align) /\
  exists scale_factor,
    dict_get (attrs u) "scale_factor" = Some scale_factor /\
    match factor with
    | VTuple zs => exists xs, floats_of_ints zs = Done xs /\
                              scale_factor = VFloats xs
    | VFloats xs => scale_factor = VFloats xs
    | _ => if truthy factor
           then exists x, float factor = Done x /\ scale_factor = VFloat x
           else scale_factor = VNone
    end.
Proof.
  unfold SRCNN__tensorrt.Upsample. intros Hu.
  destruct factor as [|b|z|x|str|zs|xs|l].
  all: try (destruct (truthy _);
            [destruct (SRCNN__tensorrt.float _ _) as [x'|e] eqn:Hx;
             [|done] |]).
  all: try (destruct (floats_of_ints zs) as [xs'|e] eqn:Hxs; [|done]).
  all: injection Hu as <-; simpl; split_and!; try done; eauto.
Qed.

(** X10: constructing the rewrite changes the caller's module in place.
    For a module that has an attribute [upscale_factor] of which
    [nn.Upsample] makes an upsampler, the construction succeeds, the new
    object keeps a reference to the module itself, and the module's
    [img_upsampler] becomes that new upsampler: bilinear, without aligned
    corners, its scale factor the [float] of the module's own
    [upscale_factor], or [None] for a factor that counts as false.  The
    arguments [channels], [kernel_sizes] and [upscale_factor] of the
    constructor play no part; the other attributes of the module and the
    other objects are as before. *)
Theorem init_replaces_upsampler (h : heap) (m : nat) (o : object)
    (factor : value) (u : object) :
  h !! m = Some o ->
  dict_get (attrs o) "upscale_factor" = Some factor ->
  Upsample factor "bilinear" false = Done u ->
  exists h',
    (forall channels kernel_sizes upscale_factor,
       init h (VRef m) channels kernel_sizes upscale_factor =
       (h', Done (length h))) /\
    getattr h' (VRef (length h)) "_module" = Done (VRef m) /\
    getattr h' (VRef m) "img_upsampler" = Done (VRef (S (length h))) /\
    h' !! S (length h) = Some u /\
    cls u = "Upsample" /\
    dict_get (attrs u) "mode" = Some (VStr "bilinear") /\
    dict_get (attrs u) "align_corners" = Some (VBool false) /\
    (exists scale_factor,
       dict_get (attrs u) "scale_factor" = Some scale_factor /\
       match factor with
       | VTuple zs => exists xs, floats_of_ints zs = Done xs /\
                                 scale_factor = VFloats xs
       | VFloats xs => scale_factor = VFloats xs
       | _ => if truthy factor
              then exists x, float factor = Done x /\ scale_factor = VFloat x
              else scale_factor = VNone
       end) /\
    (forall name, name <> "img_upsampler" ->
       getattr h' (VRef m) name = getattr h (VRef m) name) /\
    (forall l, l < length h -> l <> m -> h' !! l = h !! l).
Proof.
  intros Hm Hfactor Hu.
  assert (m < length h) as Hlt by by apply lookup_lt_Some in Hm.
  destruct (Upsample_attrs _ _ _ _ Hu) as (Hcls & Hmode & Halign & Hscale).
  eexists. split_and!.
  - intros channels kernel_sizes upscale_factor. by apply (init_heap h m o factor u).
  - unfold getattr. rewrite list_lookup_insert_ne by lia.
    by rewrite list_lookup_middle.
  - unfold getattr. rewrite list_lookup_insert_eq.
    2: { rewrite length_app. lia. }
    simpl. rewrite dict_get_set. by rewrite decide_True.
  - rewrite list_lookup_insert_ne by lia.
    rewrite lookup_app_r by lia.
    by replace (S (length h) - length h) with 1 by lia.
  - exact Hcls.
  - exact Hmode.
  - exact Halign.
  - exact Hscale.
  - intros name Hname. unfold getattr. rewrite list_lookup_insert_eq.
    2: { rewrite length_app. lia. }
    rewrite Hm. simpl. rewrite dict_get_set. by rewrite decide_False.
  - intros l Hl Hne. rewrite list_lookup_insert_ne by done.
    by rewrite lookup_app_l.
Qed.

(** X11: for a module without an attribute [upscale_factor], the
    construction fails with an [AttributeError] on that name, and every
    object that existed before, the module among them, is unchanged: the
    upsampler is not replaced. *)
Theorem init_without_upscale_factor (h : heap) (m : nat) (o : object)
    channels kernel_sizes upscale_factor :
  h !! m = Some o ->
  dict_get (attrs o) "upscale_factor" = None ->
  exists h',
    init h (VRef m) channels kernel_sizes upscale_factor =
    (h', Failed (AttributeError "upscale_factor")) /\
    take (length h) h' = h.
Proof.
  intros Hm Hfactor.
  assert (m < length h) as Hlt by by apply lookup_lt_Some in Hm.
  eexists. split.
  - unfold init, alloc, setattr, getattr.
    rewrite list_lookup_middle by done. simpl.
    rewrite insert_app_r_alt by done. rewrite Nat.sub_diag. simpl.
    rewrite lookup_app_l by done. by rewrite Hm, Hfactor.
  - by rewrite take_app_length.
Qed.

(** X22: for a module whose [upscale_factor] [nn.Upsample] refuses (a
    string that is no number, an object, an integer beyond the floats),
    the construction raises what [nn.Upsample] raises, and every object
    that existed before, the module among them, is unchanged: the upsampler
    is not replaced. *)
Theorem init_with_refused_factor (h : heap) (m : nat) (o : object)
    (factor : value) (e : error) channels kernel_sizes upscale_factor :
  h !! m = Some o ->
  dict_get (attrs o) "upscale_factor" = Some factor ->
  Upsample factor "bilinear" false = Failed e ->
  exists h',
    init h (VRef m) channels kernel_sizes upscale_factor = (h', Failed e) /\
    take (length h) h' = h.
Proof.
  intros Hm Hfactor Hu. eexists. split.
  - by apply (init_heap_failed h m o factor).
  - by rewrite take_app_length.
Qed.

(** X12: two rewrites of one module share it.  Both are distinct objects,
    [forward] of either one is the call of the one module as it is now, and
    the module's upsampler has the same settings as after the first
    rewrite. *)
Theorem rewrites_share_module {arguments : Type}
    (invoke : heap -> value -> string -> arguments -> heap * outcome value)
    (h : heap) (m : nat) (o : object) (factor : value)
    c1 k1 u1 c2 k2 u2 h1 w1 h2 w2 :
  h !! m = Some o ->
  dict_get (attrs o) "upscale_factor" = Some factor ->
  init h (VRef m) c1 k1 u1 = (h1, Done w1) ->
  init h1 (VRef m) c2 k2 u2 = (h2, Done w2) ->
  w1 <> w2 /\
  (forall args,
     forward invoke h2 (VRef w1) args = invoke h2 (VRef m) "__call__" args /\
     forward invoke h2 (VRef w2) args = invoke h2 (VRef m) "__call__" args) /\
  exists up u,
    getattr h2 (VRef m) "img_upsampler" = Done (VRef up) /\
    Upsample factor "bilinear" false = Done u /\
    h2 !! up = Some u.
Proof.
  intros Hm Hfactor Hinit1 Hinit2.
  assert (m < length h) as Hlt by by apply lookup_lt_Some in Hm.
  destruct (Upsample factor "bilinear" false) as [u|e] eqn:Hu.
  2: { rewrite (init_heap_failed h m o factor e) in Hinit1 by done.
       by injection Hinit1. }
  rewrite (init_heap h m o factor u) in Hinit1 by done.
  injection Hinit1 as <- <-.
  set (o1 := mkObject (cls o)
               (dict_set "img_upsampler" (VRef (S (length h))) (attrs o))).
  set (h1 := <[m := o1]>
               (h ++ [mkObject "SRCNN__tensorrt" [("_module", VRef m)];
                      u])) in *.
  assert (length h1 = S (S (length h))) as Hlen1.
  { unfold h1. rewrite length_insert, length_app. simpl. lia. }
  assert (h1 !! m = Some o1) as Hm1.
  { unfold h1. apply list_lookup_insert_eq. rewrite length_app. lia. }
  assert (dict_get (attrs o1) "upscale_factor" = Some factor) as Hfactor1.
  { simpl. rewrite dict_get_set. by rewrite decide_False. }
  rewrite (init_heap h1 m o1 factor u) in Hinit2 by done.
  injection Hinit2 as <- <-.
  assert (forall l, l < length h1 -> l <> m ->
            (<[m := mkObject (cls o1)
                      (dict_set "img_upsampler" (VRef (S (length h1)))
                                (attrs o1))]>
               (h1 ++ [mkObject "SRCNN__tensorrt" [("_module", VRef m)];
                       u])) !! l = h1 !! l)
    as Hold.
  { intros l Hl Hne. rewrite list_lookup_insert_ne by done.
    by rewrite lookup_app_l. }
  split_and!.
  - lia.
  - intros args. unfold forward, getattr. split.
    + rewrite Hold by lia. unfold h1.
      rewrite list_lookup_insert_ne by lia.
      by rewrite list_lookup_middle.
    + rewrite list_lookup_insert_ne by lia.
      by rewrite list_lookup_middle.
  - exists (S (length h1)), u. split_and!; [|done|].
    + unfold getattr. rewrite list_lookup_insert_eq.
      2: { rewrite length_app. lia. }
      simpl. rewrite dict_get_set. by rewrite decide_True.
    + rewrite list_lookup_insert_ne by lia.
      rewrite lookup_app_r by lia.
      by replace (S (length h1) - length h1) with 1 by lia.
Qed.

End SRCNNProperties.

(** What [nn.Upsample] makes of some factors: [4] becomes [4.0]; [0] and
    [None] count as false and leave [None]; [True] becomes [1.0]; a tuple
    is converted element by element; the string [x2] is no number, an
    object is no number either, and [2 ** 1024] is beyond the floats. *)
Example Upsample_of_factors :
  let Upsample factor :=
    SRCNN__tensorrt.Upsample float_of_digits factor "bilinear" false in
  let made scale_factor :=
    SRCNN__tensorrt.Done
      (SRCNN__tensorrt.mkObject "Upsample"
         [("scale_factor", scale_factor);
          ("mode", SRCNN__tensorrt.VStr "bilinear");
          ("align_corners", SRCNN__tensorrt.VBool false)]) in
  Upsample (SRCNN__tensorrt.VInt 4) = SRCNN__tensorrt.Done bilinear_by_4 /\
  Upsample (SRCNN__tensorrt.VInt 0) = made SRCNN__tensorrt.VNone /\
  Upsample SRCNN__tensorrt.VNone = made SRCNN__tensorrt.VNone /\
  Upsample (SRCNN__tensorrt.VBool true) =
    made (SRCNN__tensorrt.VFloat (float_z 1)) /\
  Upsample (SRCNN__tensorrt.VStr "4") =
    made (SRCNN__tensorrt.VFloat (float_z 4)) /\
  Upsample (SRCNN__tensorrt.VTuple [2; 3]%Z) =
    made (SRCNN__tensorrt.VFloats [float_z 2; float_z 3]) /\
  Upsample (SRCNN__tensorrt.VStr "x2") =
    SRCNN__tensorrt.Failed SRCNN__tensorrt.ValueError /\
  Upsample (SRCNN__tensorrt.VRef 0) =
    SRCNN__tensorrt.Failed SRCNN__tensorrt.TypeError /\
  Upsample (SRCNN__tensorrt.VInt (2 ^ 1024)) =
    SRCNN__tensorrt.Failed SRCNN__tensorrt.OverflowError.
Proof. by vm_compute. Qed.

Lemma init_replaces_upsampler_witness :
  exists h',
    (forall channels kernel_sizes upscale_factor,
       SRCNN__tensorrt.init float_of_digits srcnn_heap
         (SRCNN__tensorrt.VRef 0) channels kernel_sizes upscale_factor =
       (h', SRCNN__tensorrt.Done (length srcnn_heap))) /\
    SRCNN__tensorrt.getattr h' (SRCNN__tensorrt.VRef (length srcnn_heap))
      "_module" = SRCNN__tensorrt.Done (SRCNN__tensorrt.VRef 0) /\
    SRCNN__tensorrt.getattr h' (SRCNN__tensorrt.VRef 0) "img_upsampler" =
      SRCNN__tensorrt.Done (SRCNN__tensorrt.VRef (S (length srcnn_heap))) /\
    h' !! S (length srcnn_heap) = Some bilinear_by_4 /\
    SRCNN__tensorrt.cls bilinear_by_4 = "Upsample" /\
    dict_get (SRCNN__tensorrt.attrs bilinear_by_4) "mode" =
      Some (SRCNN__tensorrt.VStr "bilinear") /\
    dict_get (SRCNN__tensorrt.attrs bilinear_by_4) "align_corners" =
      Some (SRCNN__tensorrt.VBool false) /\
    (exists scale_factor,
       dict_get (SRCNN__tensorrt.attrs bilinear_by_4) "scale_factor" =
         Some scale_factor /\
       exists x,
         SRCNN__tensorrt.float float_of_digits (SRCNN__tensorrt.VInt 4) =
           SRCNN__tensorrt.Done x /\
         scale_factor = SRCNN__tensorrt.VFloat x) /\
    (forall name, name <> "img_upsampler" ->
       SRCNN__tensorrt.getattr h' (SRCNN__tensorrt.VRef 0) name =
       SRCNN__tensorrt.getattr srcnn_heap (SRCNN__tensorrt.VRef 0) name) /\
    (forall l, l < length srcnn_heap -> l <> 0 -> h' !! l = srcnn_heap !! l).
Proof.
  apply (init_replaces_upsampler float_of_digits srcnn_heap 0
           (SRCNN__tensorrt.mkObject "SRCNN"
              [("upscale_factor", SRCNN__tensorrt.VInt 4);
               ("img_upsampler", SRCNN__tensorrt.VRef 1)])
           (SRCNN__tensorrt.VInt 4) bilinear_by_4); reflexivity.
Defined.

Lemma init_without_upscale_factor_witness :
  exists h',
    SRCNN__tensorrt.init float_of_digits srcnn_heap (SRCNN__tensorrt.VRef 2)
      (SRCNN__tensorrt.VTuple [3; 64; 32; 3]%Z)
      (SRCNN__tensorrt.VTuple [9; 1; 5]%Z) (SRCNN__tensorrt.VInt 4) =
    (h', SRCNN__tensorrt.Failed (SRCNN__tensorrt.AttributeError "upscale_factor")) /\
    take (length srcnn_heap) h' = srcnn_heap.
Proof.
  apply (init_without_upscale_factor float_of_digits srcnn_heap 2
           (SRCNN__tensorrt.mkObject "Identity" [])); reflexivity.
Defined.

Lemma init_with_refused_factor_witness :
  exists h',
    SRCNN__tensorrt.init float_of_digits srcnn_heap_x2
      (SRCNN__tensorrt.VRef 0)
      (SRCNN__tensorrt.VTuple [3; 64; 32; 3]%Z)
      (SRCNN__tensorrt.VTuple [9; 1; 5]%Z) (SRCNN__tensorrt.VInt 2) =
    (h', SRCNN__tensorrt.Failed SRCNN__tensorrt.ValueError) /\
    take (length srcnn_heap_x2) h' = srcnn_heap_x2.
Proof.
  apply (init_with_refused_factor float_of_digits srcnn_heap_x2 0
           (SRCNN__tensorrt.mkObject "SRCNN"
              [("upscale_factor", SRCNN__tensorrt.VStr "x2");
               ("img_upsampler", SRCNN__tensorrt.VRef 1)])
           (SRCNN__tensorrt.VStr "x2")); reflexivity.
Defined.

Lemma rewrites_share_module_witness :
  3 <> 5 /\
  (forall args,
     SRCNN__tensorrt.forward name_of_class srcnn_heap_twice
       (SRCNN__tensorrt.VRef 3) args =
     name_of_class srcnn_heap_twice (SRCNN__tensorrt.VRef 0) "__call__" args /\
     SRCNN__tensorrt.forward name_of_class srcnn_heap_twice
       (SRCNN__tensorrt.VRef 5) args =
     name_of_class srcnn_heap_twice (SRCNN__tensorrt.VRef 0) "__call__" args) /\
  exists up u,
    SRCNN__tensorrt.getattr srcnn_heap_twice (SRCNN__tensorrt.VRef 0)
      "img_upsampler" = SRCNN__tensorrt.Done (SRCNN__tensorrt.VRef up) /\
    SRCNN__tensorrt.Upsample float_of_digits (SRCNN__tensorrt.VInt 4)
      "bilinear" false = SRCNN__tensorrt.Done u /\
    srcnn_heap_twice !! up = Some u.
Proof.
  apply (rewrites_share_module float_of_digits name_of_class srcnn_heap 0
           (SRCNN__tensorrt.mkObject "SRCNN"
              [("upscale_factor", SRCNN__tensorrt.VInt 4);
               ("img_upsampler", SRCNN__tensorrt.VRef 1)])
           (SRCNN__tensorrt.VInt 4)
           SRCNN__tensorrt.VNone SRCNN__tensorrt.VNone (SRCNN__tensorrt.VInt 2)
           SRCNN__tensorrt.VNone SRCNN__tensorrt.VNone (SRCNN__tensorrt.VInt 8)
           srcnn_heap_once 3 srcnn_heap_twice 5);
    reflexivity.
Defined.


(** * The rewrites of [AnchorHead.get_bboxes] *)

Section AnchorHeadProperties.

Import anchor_head.

Context {scalar deploy_cfg nms_result : Type}.
Context (H : @Helpers scalar deploy_cfg nms_result) (K : @Kernels scalar).

Lemma bind_Done_inv {A B} (m : outcome A) (f : A -> outcome B) (b : B) :
  m ≫= f = Done b -> exists a, m = Done a /\ f a = Done b.
Proof. destruct m as [a|e]; [eauto | discriminate]. Qed.

Lemma mapM_Done_inv {A B} (f : A -> outcome B) (l : list A) (k : list B) :
  mapM f l = Done k -> Forall2 (fun x y => f x = Done y) l k.
Proof.
  revert k. induction l as [|x l IH]; intros k Hk; simpl in Hk.
  - inversion Hk. constructor.
  - apply bind_Done_inv in Hk as (y & Hy & Hk).
    apply bind_Done_inv in Hk as (k' & Hk' & Hk).
    inversion Hk. subst. constructor; auto.
Qed.

Lemma mapM_ext {A B} (f g : A -> outcome B) (l : list A) :
  Forall (fun x => f x = g x) l -> mapM f l = mapM g l.
Proof.
  induction 1 as [|x l Hx _ IH]; simpl; [reflexivity|].
  rewrite Hx, IH. reflexivity.
Qed.

(** X13: the ncnn rewrite refuses a deploy configuration with dynamic
    shapes.  Whatever the head, the tensors, the image metas, [with_nms] and
    [cfg] are, it raises [AssertionError]: nothing is computed, and
    [grid_anchors] is not called. *)
Theorem ncnn_rejects_dynamic_shape ctx self cls_scores bbox_preds img_metas
    with_nms cfg :
  is_dynamic_shape H ctx = true ->
  anchor_head__get_bboxes__ncnn H K ctx self cls_scores bbox_preds img_metas
    with_nms cfg = Failed AssertionError.
Proof.
  intros Hdyn. unfold anchor_head__get_bboxes__ncnn. rewrite Hdyn.
  destruct (bool_decide _); reflexivity.
Qed.

Lemma permute_0231_Done (t t' : @Tensor scalar) :
  permute_0231 t = Done t' ->
  numel (shape t') = numel (shape t) /\ device t' = device t.
Proof.
  unfold permute_0231.
  destruct (shape t) as [|n [|c [|h [|w [|? ?]]]]] eqn:Hs; try discriminate.
  intros [= <-]. simpl. split; [lia | reflexivity].
Qed.

Lemma permute_0231_dims (t t' : @Tensor scalar) :
  permute_0231 t = Done t' -> length (shape t) = 4.
Proof.
  unfold permute_0231.
  destruct (shape t) as [|n [|c [|h [|w [|? ?]]]]] eqn:Hs; try discriminate.
  reflexivity.
Qed.

Lemma reshape3_Done (t t' : @Tensor scalar) (b k : nat) :
  reshape3 t b k = Done t' ->
  shape t' = [b; numel (shape t) `div` (b * k); k] /\ data t' = data t /\
  device t' = device t.
Proof.
  unfold reshape3. repeat case_decide; try discriminate.
  intros [= <-]. auto.
Qed.

Lemma expand_as_Done (a b t' : @Tensor scalar) :
  expand_as a b = Done t' -> shape t' = shape b /\ device t' = device a.
Proof.
  unfold expand_as. destruct (expand_data _ _ _); [|discriminate].
  intros [= <-]. auto.
Qed.

Lemma max_last_Done (t t' : @Tensor scalar) :
  max_last K t = Done t' ->
  shape t' = removelast (shape t) /\
  length (data t') = row_count (shape t).
Proof.
  unfold max_last. destruct (shape t) as [|d sh] eqn:Hs; [discriminate|].
  case_decide; [discriminate|]. intros [= <-]. simpl. split; [reflexivity|].
  unfold chunks. rewrite !length_map, length_seq. reflexivity.
Qed.

Lemma drop_last_column_Done (t t' : @Tensor scalar) :
  drop_last_column t = Done t' ->
  shape t' = removelast (shape t) ++ [row_length (shape t) - 1].
Proof.
  unfold drop_last_column. destruct (shape t) as [|d sh] eqn:Hs; [discriminate|].
  intros [= <-]. reflexivity.
Qed.

Lemma topk_last_Done (t : @Tensor scalar) (k : nat) (i : ITensor) :
  topk_last K t k = Done i ->
  ishape i = removelast (shape t) ++ [k] /\ k <= row_length (shape t) /\
  idata i = concat (map (topk K k)
                        (chunks (row_length (shape t)) (row_count (shape t))
                                (data t))).
Proof.
  unfold topk_last. destruct (shape t) as [|d sh] eqn:Hs; [discriminate|].
  case_decide; [|discriminate]. intros [= <-]. auto.
Qed.

Lemma index_pairs_Done (t t' : @Tensor scalar) (bi ri : ITensor) :
  index_pairs t bi ri = Done t' ->
  shape t' = ishape ri ++ [row_length (shape t)].
Proof.
  unfold index_pairs. case_decide; [|discriminate].
  destruct (mapM _ _); [|discriminate]. intros [= <-]. reflexivity.
Qed.

Lemma shape_activated self t : shape (activated K self t) = shape t.
Proof. unfold activated. destruct (use_sigmoid_cls self); reflexivity. Qed.

(** The scores of a level: one row for every candidate. *)
Lemma level_default_scores ctx self dyn b p item lv :
  get_backend H ctx <> TENSORRT ->
  level_default H K ctx self dyn b p item = Done lv ->
  shape (level_scores lv) =
    [b; candidates self b p item.1.1; cls_out_channels self].
Proof.
  intros Hbackend. unfold level_default.
  intros Hlv.
  apply bind_Done_inv in Hlv as (_ & _ & Hlv).
  apply bind_Done_inv in Hlv as (c1 & Hc1 & Hlv).
  apply bind_Done_inv in Hlv as (c2 & Hc2 & Hlv).
  apply bind_Done_inv in Hlv as (b1 & Hb1 & Hlv).
  apply bind_Done_inv in Hlv as (b2 & Hb2 & Hlv).
  apply bind_Done_inv in Hlv as (a1 & Ha1 & Hlv).
  rewrite decide_False in Hlv by exact Hbackend.
  simpl in Hlv.
  fold (activated K self c2) in Hlv.
  apply permute_0231_Done in Hc1 as [Hn1 _].
  apply reshape3_Done in Hc2 as (Hs2 & _ & _).
  assert (Hscores : shape (activated K self c2) =
            [b; positions self b item.1.1; cls_out_channels self]).
  { rewrite shape_activated, Hs2, Hn1. reflexivity. }
  unfold candidates. destruct (decide (0 < p)%Z) as [Hp|Hp].
  - apply bind_Done_inv in Hlv as (m & Hm & Hlv).
    apply bind_Done_inv in Hlv as (ti & Hti & Hlv).
    apply bind_Done_inv in Hlv as (bi & Hbi & Hlv).
    apply bind_Done_inv in Hlv as (a2 & Ha2 & Hlv).
    apply bind_Done_inv in Hlv as (b3 & Hb3 & Hlv).
    apply bind_Done_inv in Hlv as (s3 & Hs3 & Hlv).
    injection Hlv as <-. simpl.
    apply index_pairs_Done in Hs3. rewrite Hs3, Hscores.
    apply topk_last_Done in Hti as (Hti & _ & _). rewrite Hti.
    assert (Hms : shape m = [b; positions self b item.1.1]).
    { destruct (use_sigmoid_cls self).
      - apply max_last_Done in Hm as [-> _]. rewrite Hscores. reflexivity.
      - apply bind_Done_inv in Hm as (fg & Hfg & Hm).
        apply max_last_Done in Hm as [-> _].
        apply drop_last_column_Done in Hfg. rewrite Hfg, Hscores.
        reflexivity. }
    rewrite Hms. reflexivity.
  - injection Hlv as <-. simpl. exact Hscores.
Qed.

Lemma cat_dim1_Done (ts : list (@Tensor scalar)) (t : @Tensor scalar) :
  cat_dim1 ts = Done t ->
  exists t0, head ts = Some t0 /\
    shape t = [nth 0 (shape t0) 0;
               sum_list (map (fun t => nth 1 (shape t) 0) ts);
               nth 2 (shape t0) 0].
Proof.
  unfold cat_dim1. destruct ts as [|t0 ts']; [discriminate|].
  destruct (shape t0) as [|n [|r [|k [|? ?]]]] eqn:Hs; try discriminate.
  destruct (forallb _ _); [|discriminate].
  intros [= <-]. exists t0. split; [reflexivity|]. simpl. rewrite Hs. simpl.
  do 2 f_equal. f_equal. clear. induction ts' as [|t ts IH]; simpl; congruence.
Qed.

Lemma first_columns_Done (t t' : @Tensor scalar) (n : nat) :
  first_columns t n = Done t' ->
  shape t' = removelast (shape t) ++ [row_length (shape t) `min` n].
Proof.
  unfold first_columns. destruct (shape t) as [|d sh] eqn:Hs; [discriminate|].
  intros [= <-]. reflexivity.
Qed.

Lemma fst_zip3 {A B C} (l1 : list A) (l2 : list B) (l3 : list C) :
  length l1 = length l2 -> length l2 = length l3 ->
  map (fun item => item.1.1) (zip (zip l1 l2) l3) = l1.
Proof.
  revert l2 l3. induction l1 as [|x l1 IH]; intros [|y l2] [|z l3];
    simpl; try discriminate; try reflexivity.
  intros [= H1] [= H2]. f_equal. apply IH; assumption.
Qed.

(** The scores that [finish] returns without the NMS. *)
Lemma finish_scores ctx self img_metas c levels bboxes scores b r :
  finish H ctx self img_metas false c levels = Done (Raw bboxes scores) ->
  Forall2 (fun (n : nat) lv =>
             shape (level_scores lv) = [b; n; cls_out_channels self])
          r levels ->
  shape scores = [b; sum_list r; score_columns self].
Proof.
  unfold finish. intros Hf Hall.
  apply bind_Done_inv in Hf as (vb & Hvb & Hf).
  apply bind_Done_inv in Hf as (vs & Hvs & Hf).
  apply bind_Done_inv in Hf as (va & Hva & Hf).
  apply bind_Done_inv in Hf as (ms & Hms & Hf).
  apply bind_Done_inv in Hf as (bb & Hbb & Hf).
  apply bind_Done_inv in Hf as (ss & Hss & Hf).
  simpl in Hf. injection Hf as <- <-.
  apply cat_dim1_Done in Hvs as (t0 & Ht0 & Hshape).
  assert (Hsum : sum_list (map (fun t => nth 1 (shape t) 0)
                               (map level_scores levels)) = sum_list r).
  { clear -Hall. induction Hall as [|n lv r levels Hlv _ IH]; simpl;
      [reflexivity|]. rewrite Hlv, IH. reflexivity. }
  assert (Hfirst : shape t0 <> [] /\ nth 0 (shape t0) 0 = b /\
                   nth 2 (shape t0) 0 = cls_out_channels self).
  { destruct Hall as [|n lv r levels Hlv _]; [discriminate|].
    simpl in Ht0. injection Ht0 as <-. rewrite Hlv. auto. }
  destruct Hfirst as (_ & Hb & Hk).
  rewrite Hsum, Hb, Hk in Hshape.
  unfold score_columns. destruct (use_sigmoid_cls self); simpl in Hss.
  - injection Hss as <-. exact Hshape.
  - apply first_columns_Done in Hss. rewrite Hss, Hshape. reflexivity.
Qed.

Lemma map_detach (ts : list (@Tensor scalar)) : map detach ts = ts.
Proof. apply map_id. Qed.

Lemma py_assert_Done (cond : bool) : py_assert cond = Done () -> cond = true.
Proof. destruct cond; [reflexivity | discriminate]. Qed.

Lemma require_Done {A} (e : error) (o : option A) (a : A) :
  require e o = Done a -> o = Some a.
Proof. destruct o; [intros [= ->]; reflexivity | discriminate]. Qed.

(** What a run of [anchor_head__get_bboxes] that returns went through. *)
Lemma get_bboxes_Done_inv ctx self cls_scores bbox_preds img_metas with_nms
    cfg r :
  anchor_head__get_bboxes H K ctx self cls_scores bbox_preds img_metas
    with_nms cfg = Done r ->
  exists first c anchors levels,
    cls_scores !! 0 = Some first /\
    shape first !! 0 = Some (batch_size_of cls_scores) /\
    used_cfg self cfg = Some c /\
    nms_pre_of self cfg = default (-1)%Z (nms_pre c) /\
    length cls_scores = length bbox_preds /\
    length bbox_preds = length anchors /\
    mapM (level_default H K ctx self (is_dynamic_shape H ctx)
            (batch_size_of cls_scores) (nms_pre_of self cfg))
         (zip (zip cls_scores bbox_preds) anchors) = Done levels /\
    finish H ctx self img_metas with_nms c levels = Done r.
Proof.
  unfold anchor_head__get_bboxes. rewrite !map_detach. intros Hr.
  apply bind_Done_inv in Hr as ([] & Hlen & Hr).
  apply bind_Done_inv in Hr as (first & Hfirst & Hr).
  apply bind_Done_inv in Hr as (anchors & Hanchors & Hr).
  apply bind_Done_inv in Hr as ([] & Hlens & Hr).
  apply bind_Done_inv in Hr as (first' & Hfirst' & Hr).
  apply bind_Done_inv in Hr as (b & Hb & Hr).
  apply bind_Done_inv in Hr as (c & Hc & Hr).
  apply bind_Done_inv in Hr as (levels & Hlevels & Hr).
  apply py_assert_Done, bool_decide_eq_true_1 in Hlen.
  apply py_assert_Done, bool_decide_eq_true_1 in Hlens as [_ Hlens].
  apply require_Done in Hfirst, Hfirst', Hb, Hc.
  assert (Hbatch : batch_size_of cls_scores = b).
  { unfold batch_size_of. rewrite Hfirst'. simpl. rewrite Hb. reflexivity. }
  assert (Hpre : nms_pre_of self cfg = default (-1)%Z (nms_pre c)).
  { unfold nms_pre_of, used_cfg. rewrite Hc. reflexivity. }
  exists first', c, anchors, levels. rewrite Hbatch, Hpre. auto 10.
Qed.

(** X14: the shape of the scores that [anchor_head__get_bboxes] returns
    without the NMS, for a backend other than TensorRT.  They have three
    dimensions: the batch size [cls_scores[0].shape[0]]; the candidates of
    all levels together, a level giving [nms_pre] of them when [nms_pre] is
    positive and otherwise one for every anchor at every position, which is
    the number of its elements divided by the batch size and by
    [cls_out_channels]; and [cls_out_channels] columns with sigmoid scores,
    at most [num_classes] of them with softmax scores. *)
Theorem get_bboxes_scores_shape ctx self cls_scores bbox_preds img_metas cfg
    bboxes scores :
  get_backend H ctx <> TENSORRT ->
  anchor_head__get_bboxes H K ctx self cls_scores bbox_preds img_metas false
    cfg = Done (Raw bboxes scores) ->
  shape scores =
    [batch_size_of cls_scores;
     sum_list (map (candidates self (batch_size_of cls_scores)
                               (nms_pre_of self cfg)) cls_scores);
     score_columns self].
Proof.
  intros Hbackend Hr.
  apply get_bboxes_Done_inv in Hr
    as (first & c & anchors & levels & _ & _ & _ & _ & Hlen & Hlens &
        Hlevels & Hr).
  eapply finish_scores; [exact Hr|].
  apply mapM_Done_inv in Hlevels.
  rewrite <- (fst_zip3 cls_scores bbox_preds anchors Hlen Hlens) at 2.
  rewrite map_map. apply Forall2_fmap_l.
  eapply Forall2_impl; [exact Hlevels|].
  intros item lv Hlv. simpl in Hlv |- *.
  exact (level_default_scores _ _ _ _ _ _ _ Hbackend Hlv).
Qed.

Lemma finish_with_nms ctx self img_metas c levels :
  finish H ctx self img_metas true c levels =
  d ← finish H ctx self img_metas false c levels;
  match d with
  | Raw bboxes scores => nms_call H ctx c bboxes scores
  | Kept r => mret (Kept r)
  end.
Proof.
  unfold finish.
  destruct (cat_dim1 (map level_bboxes levels)); [simpl|reflexivity].
  destruct (cat_dim1 (map level_scores levels)); [simpl|reflexivity].
  destruct (cat_dim1 (map level_anchors levels)); [simpl|reflexivity].
  destruct (require (KeyError _) _); [simpl|reflexivity].
  destruct (decode _ _ _ _); [simpl|reflexivity].
  destruct (if negb (use_sigmoid_cls self) then _ else _); [simpl|reflexivity].
  reflexivity.
Qed.

(** X15: [anchor_head__get_bboxes] with the NMS is the NMS applied to what
    it returns without: it fails where the call without the NMS fails, with
    the same exception, and otherwise calls [multiclass_nms] on the boxes and
    scores of that call.  The IoU threshold, the score threshold and
    [keep_top_k] are [cfg.nms.iou_threshold], [cfg.score_thr] and
    [cfg.max_per_img] where the configuration has them and the values of the
    deploy configuration otherwise; [max_output_boxes_per_class] and
    [pre_top_k] are always those of the deploy configuration; a
    configuration without [nms] raises [AttributeError]. *)
Theorem get_bboxes_with_nms ctx self cls_scores bbox_preds img_metas cfg :
  anchor_head__get_bboxes H K ctx self cls_scores bbox_preds img_metas true cfg
  = d ← anchor_head__get_bboxes H K ctx self cls_scores bbox_preds img_metas
          false cfg;
    then_nms H ctx self cfg d.
Proof.
  unfold anchor_head__get_bboxes.
  destruct (py_assert (bool_decide (length cls_scores = _))); [simpl|reflexivity].
  destruct (require IndexError (cls_scores !! 0)); [simpl|reflexivity].
  destruct (grid_anchors _ _ _); [simpl|reflexivity].
  destruct (py_assert _); [simpl|reflexivity].
  destruct (require IndexError (map detach cls_scores !! 0)); [simpl|reflexivity].
  destruct (require IndexError (shape _ !! 0)); [simpl|reflexivity].
  fold (used_cfg self cfg).
  destruct (used_cfg self cfg) as [c|] eqn:Hc; [simpl|reflexivity].
  destruct (mapM _ _); [simpl|reflexivity].
  rewrite finish_with_nms.
  destruct (finish _ _ _ _ false _ _) as [[]|]; simpl; rewrite ?Hc;
    reflexivity.
Qed.

(** X16: the same for [anchor_head__get_bboxes__ncnn]: with the NMS it is
    the NMS, with the same choice of thresholds, applied to what it returns
    without. *)
Theorem get_bboxes_ncnn_with_nms ctx self cls_scores bbox_preds img_metas cfg :
  anchor_head__get_bboxes__ncnn H K ctx self cls_scores bbox_preds img_metas
    true cfg
  = d ← anchor_head__get_bboxes__ncnn H K ctx self cls_scores bbox_preds
          img_metas false cfg;
    then_nms H ctx self cfg d.
Proof.
  unfold anchor_head__get_bboxes__ncnn.
  destruct (py_assert (bool_decide (length cls_scores = _))); [simpl|reflexivity].
  destruct (py_assert (negb _)); [simpl|reflexivity].
  destruct (require IndexError (cls_scores !! 0)); [simpl|reflexivity].
  destruct (grid_anchors _ _ _); [simpl|reflexivity].
  destruct (py_assert _); [simpl|reflexivity].
  fold (used_cfg self cfg).
  destruct (used_cfg self cfg) as [c|] eqn:Hc; [simpl|reflexivity].
  destruct (mapM _ _); [simpl|reflexivity].
  rewrite finish_with_nms.
  destruct (finish _ _ _ _ false _ _) as [[]|]; simpl; rewrite ?Hc;
    reflexivity.
Qed.

(** With a top-k, a level that returns had enough rows. *)
Lemma level_default_enough ctx self dyn b p item lv :
  get_backend H ctx <> TENSORRT ->
  (0 < p)%Z ->
  level_default H K ctx self dyn b p item = Done lv ->
  Z.to_nat p <= positions self b item.1.1.
Proof.
  intros Hbackend Hp. unfold level_default.
  intros Hlv.
  apply bind_Done_inv in Hlv as (_ & _ & Hlv).
  apply bind_Done_inv in Hlv as (c1 & Hc1 & Hlv).
  apply bind_Done_inv in Hlv as (c2 & Hc2 & Hlv).
  apply bind_Done_inv in Hlv as (b1 & Hb1 & Hlv).
  apply bind_Done_inv in Hlv as (b2 & Hb2 & Hlv).
  apply bind_Done_inv in Hlv as (a1 & Ha1 & Hlv).
  rewrite decide_False in Hlv by exact Hbackend.
  simpl in Hlv.
  fold (activated K self c2) in Hlv.
  apply permute_0231_Done in Hc1 as [Hn1 _].
  apply reshape3_Done in Hc2 as (Hs2 & _ & _).
  assert (Hscores : shape (activated K self c2) =
            [b; positions self b item.1.1; cls_out_channels self]).
  { rewrite shape_activated, Hs2, Hn1. reflexivity. }
  rewrite decide_True in Hlv by exact Hp.
  apply bind_Done_inv in Hlv as (m & Hm & Hlv).
  apply bind_Done_inv in Hlv as (ti & Hti & _).
  apply topk_last_Done in Hti as (_ & Hti & _).
  assert (Hms : shape m = [b; positions self b item.1.1]).
  { destruct (use_sigmoid_cls self).
    - apply max_last_Done in Hm as [-> _]. rewrite Hscores. reflexivity.
    - apply bind_Done_inv in Hm as (fg & Hfg & Hm).
      apply max_last_Done in Hm as [-> _].
      apply drop_last_column_Done in Hfg. rewrite Hfg, Hscores.
      reflexivity. }
  rewrite Hms in Hti. exact Hti.
Qed.

(** X17: [nms_pre] must not be larger than the number of rows of any level.
    For a backend other than TensorRT, if some level has fewer anchors over
    all its positions than [nms_pre], [anchor_head__get_bboxes] raises:
    there is no padding, and the top-k cannot be taken. *)
Theorem get_bboxes_nms_pre_too_large ctx self cls_scores bbox_preds img_metas
    with_nms cfg t :
  get_backend H ctx <> TENSORRT ->
  t ∈ cls_scores ->
  positions self (batch_size_of cls_scores) t < Z.to_nat (nms_pre_of self cfg) ->
  exists e,
    anchor_head__get_bboxes H K ctx self cls_scores bbox_preds img_metas
      with_nms cfg = Failed e.
Proof.
  intros Hbackend Hin Hfew.
  destruct (anchor_head__get_bboxes _ _ _ _ _ _ _ _ _) as [r|e] eqn:Hr;
    [exfalso | eauto].
  apply get_bboxes_Done_inv in Hr
    as (first & c & anchors & levels & _ & _ & _ & _ & Hlen & Hlens &
        Hlevels & _).
  apply mapM_Done_inv in Hlevels.
  rewrite <- (fst_zip3 cls_scores bbox_preds anchors Hlen Hlens) in Hin.
  apply list_elem_of_fmap in Hin as (item & -> & Hitem).
  apply list_elem_of_lookup_1 in Hitem as [i Hi].
  destruct (Forall2_lookup_l _ _ _ _ _ Hlevels Hi) as (lv & _ & Hlv).
  apply level_default_enough in Hlv; [lia | exact Hbackend | lia].
Qed.

Lemma concat_replicate_singleton {A} (k : nat) (x : A) :
  concat (replicate k [x]) = replicate k x.
Proof. induction k as [|k IH]; simpl; congruence. Qed.

(** [torch.arange(1).view(-1, 1).expand_as(i)] is all 0. *)
Lemma arange_column_as_one (ri : ITensor) (k : nat) :
  ishape ri = [1; k] ->
  arange_column_as 1 ri = Done (mkITensor [1; k] (replicate k 0)).
Proof.
  intros Hs. unfold arange_column_as. rewrite Hs. simpl.
  destruct (decide (1 = k)) as [<-|Hk]; simpl; [reflexivity|].
  rewrite concat_replicate_singleton, app_nil_r. reflexivity.
Qed.

Lemma mapM_row_pairs (t : @Tensor scalar) (l : list nat) :
  mapM (fun p : nat * nat => row_at t p.1 p.2) (zip (replicate (length l) 0) l)
  = mapM (row_at t 0) l.
Proof.
  induction l as [|i l IH]; simpl; [reflexivity|].
  rewrite IH. reflexivity.
Qed.

(** For one image, indexing with the pairs [(0, i)] is indexing the rows. *)
Lemma index_pairs_one (t : @Tensor scalar) (ri : ITensor) (rows kk k : nat) :
  shape t = [1; rows; kk] ->
  ishape ri = [1; k] ->
  length (idata ri) = k ->
  index_pairs t (mkITensor [1; k] (replicate k 0)) ri =
  index_rows t (view_flat ri).
Proof.
  intros Hs Hi Hk. unfold index_pairs, index_rows. simpl.
  rewrite Hs, Hi. rewrite decide_True by reflexivity.
  rewrite <- Hk at 1. rewrite mapM_row_pairs. simpl.
  destruct (mapM (row_at t 0) (idata ri)) as [rows'|]; simpl; [|reflexivity].
  rewrite !app_nil_r, Hk. reflexivity.
Qed.

Lemma chunks_one {A} (n : nat) (l : list A) :
  length l = n -> chunks n 1 l = [l].
Proof.
  intros <-. unfold chunks. simpl. rewrite drop_0, firstn_all. reflexivity.
Qed.

(** The indices of a top-k over the rows of one image. *)
Lemma topk_last_one (m : @Tensor scalar) (r k : nat) (ti : ITensor) :
  (forall k row, k <= length row -> length (topk K k row) = k) ->
  shape m = [1; r] ->
  length (data m) = r ->
  topk_last K m k = Done ti ->
  ishape ti = [1; k] /\ length (idata ti) = k.
Proof.
  intros Htopk Hs Hlen Hti.
  apply topk_last_Done in Hti as (Hshape & Hle & Hdata).
  rewrite Hs in Hshape, Hle, Hdata. split; [exact Hshape|].
  rewrite Hdata.
  change (row_length [1; r]) with r. change (row_count [1; r]) with 1.
  rewrite chunks_one by lia. simpl. rewrite app_nil_r.
  apply Htopk. unfold row_length in Hle. simpl in Hle. lia.
Qed.

(** For one image, with static shapes and without the padding, a turn of
    the loop of the ncnn rewrite is a turn of the loop of the default one. *)
Lemma level_ncnn_default ctx self p item :
  get_backend H ctx <> TENSORRT ->
  (forall k row, k <= length row -> length (topk K k row) = k) ->
  level_ncnn K self 1 p item = level_default H K ctx self false 1 p item.
Proof.
  intros Hbackend Htopk. unfold level_ncnn, level_default.
  destruct (py_assert _); [simpl|reflexivity].
  destruct (permute_0231 item.1.1) as [c1|]; [simpl|reflexivity].
  destruct (reshape3 c1 _ _) as [c2|] eqn:Hc2; [simpl|reflexivity].
  destruct (permute_0231 item.1.2) as [b1|]; [simpl|reflexivity].
  destruct (reshape3 b1 _ _) as [b2|] eqn:Hb2; [simpl|reflexivity].
  unfold detach.
  destruct (expand_as item.2 b2) as [a1|] eqn:Ha1; [simpl|reflexivity].
  destruct (decide (get_backend H ctx = TENSORRT)); [contradiction|]. simpl.
  destruct (decide (0 < p)%Z) as [Hp|Hp]; [|reflexivity].
  fold (activated K self c2).
  apply reshape3_Done in Hc2 as (Hc2 & _ & _).
  apply reshape3_Done in Hb2 as (Hb2 & _ & _).
  apply expand_as_Done in Ha1 as (Ha1 & _). rewrite Hb2 in Ha1.
  pose proof (shape_activated self c2) as Hscores. rewrite Hc2 in Hscores.
  set (r := numel (shape c1) `div` (1 * cls_out_channels self)) in *.
  destruct (if use_sigmoid_cls self then _ else _) as [m|] eqn:Hm;
    [simpl|reflexivity].
  assert (Hms : shape m = [1; r] /\ length (data m) = r).
  { destruct (use_sigmoid_cls self).
    - apply max_last_Done in Hm as [-> ->]. rewrite Hscores.
      unfold row_count. simpl. split; [reflexivity | lia].
    - apply bind_Done_inv in Hm as (fg & Hfg & Hm).
      apply max_last_Done in Hm as [-> ->].
      apply drop_last_column_Done in Hfg. rewrite Hfg, Hscores.
      unfold row_count. simpl. split; [reflexivity | lia]. }
  destruct Hms as [Hms Hml].
  destruct (topk_last K m (Z.to_nat p)) as [ti|] eqn:Hti; [simpl|reflexivity].
  destruct (topk_last_one m r (Z.to_nat p) ti Htopk Hms Hml Hti) as [Hti1 Hti2].
  rewrite (arange_column_as_one ti _ Hti1). simpl.
  rewrite (index_pairs_one a1 ti _ _ _ Ha1 Hti1 Hti2).
  rewrite (index_pairs_one b2 ti _ _ _ Hb2 Hti1 Hti2).
  rewrite (index_pairs_one (activated K self c2) ti _ _ _ Hscores Hti1 Hti2).
  reflexivity.
Qed.

(** X18: for one image, the ncnn rewrite computes what the default rewrite
    computes.  With static shapes, a backend other than TensorRT and a batch
    size [cls_scores[0].shape[0]] of 1, both return the same result or raise
    the same exception, whatever the other arguments are: gathering the rows
    [topk_inds.view(-1)] of the only image is gathering with the pairs of
    [batch_inds] and [topk_inds].  The top-k kernel is only asked to return
    [k] indices for a row of at least [k] elements. *)
Theorem ncnn_agrees_for_one_image ctx self cls_scores bbox_preds img_metas
    with_nms cfg :
  is_dynamic_shape H ctx = false ->
  get_backend H ctx <> TENSORRT ->
  (forall k row, k <= length row -> length (topk K k row) = k) ->
  batch_size_of cls_scores = 1 ->
  anchor_head__get_bboxes__ncnn H K ctx self cls_scores bbox_preds img_metas
    with_nms cfg =
  anchor_head__get_bboxes H K ctx self cls_scores bbox_preds img_metas
    with_nms cfg.
Proof.
  intros Hdyn Hbackend Htopk Hbatch.
  unfold anchor_head__get_bboxes__ncnn, anchor_head__get_bboxes.
  rewrite Hdyn, !map_detach.
  destruct (py_assert (bool_decide (length cls_scores = _)));
    [simpl|reflexivity].
  unfold batch_size_of in Hbatch.
  destruct (cls_scores !! 0) as [first|] eqn:Hfirst; [simpl|reflexivity].
  simpl in Hbatch.
  destruct (shape first !! 0) as [b|] eqn:Hb; simpl in Hbatch;
    [subst b | discriminate].
  destruct (grid_anchors _ _ _) as [anchors|]; [simpl|reflexivity].
  destruct (py_assert _); [simpl|reflexivity].
  destruct (match cfg with Some c => Some c | None => test_cfg self end)
    as [c|]; [simpl|reflexivity].
  rewrite (mapM_ext (level_ncnn K self 1 (default (-1)%Z (nms_pre c)))
                    (level_default H K ctx self false 1
                                   (default (-1)%Z (nms_pre c)))).
  - reflexivity.
  - apply Forall_forall. intros item _.
    apply level_ncnn_default; assumption.
Qed.

Lemma level_default_fits ctx self dyn b p item lv :
  level_default H K ctx self dyn b p item = Done lv ->
  level_fits item.1.1 item.1.2.
Proof.
  unfold level_default. intros Hlv.
  apply bind_Done_inv in Hlv as ([] & Hsize & Hlv).
  apply bind_Done_inv in Hlv as (c1 & Hc1 & Hlv).
  apply bind_Done_inv in Hlv as (c2 & Hc2 & Hlv).
  apply bind_Done_inv in Hlv as (b1 & Hb1 & Hlv).
  apply py_assert_Done, bool_decide_eq_true_1 in Hsize.
  apply permute_0231_dims in Hc1, Hb1. split; auto.
Qed.

Lemma level_ncnn_fits self b p item lv :
  level_ncnn K self b p item = Done lv ->
  level_fits item.1.1 item.1.2.
Proof.
  unfold level_ncnn. intros Hlv.
  apply bind_Done_inv in Hlv as ([] & Hsize & Hlv).
  apply bind_Done_inv in Hlv as (c1 & Hc1 & Hlv).
  apply bind_Done_inv in Hlv as (c2 & Hc2 & Hlv).
  apply bind_Done_inv in Hlv as (b1 & Hb1 & Hlv).
  apply py_assert_Done, bool_decide_eq_true_1 in Hsize.
  apply permute_0231_dims in Hc1, Hb1. split; auto.
Qed.

Lemma Forall2_zip3 {A B C} (P : A -> B -> Prop) (l1 : list A) (l2 : list B)
    (l3 : list C) :
  length l1 = length l2 -> length l2 = length l3 ->
  Forall (fun item => P item.1.1 item.1.2) (zip (zip l1 l2) l3) ->
  Forall2 P l1 l2.
Proof.
  revert l2 l3.
  induction l1 as [|x l1 IH]; intros [|y l2] [|z l3] Hl1 Hl2 Hall;
    simpl in *; try discriminate; constructor.
  - apply Forall_cons in Hall as [Hx _]. exact Hx.
  - apply Forall_cons in Hall as [_ Hrest].
    injection Hl1 as Hl1. injection Hl2 as Hl2.
    exact (IH l2 l3 Hl1 Hl2 Hrest).
Qed.

Lemma finish_img_shape ctx self img_metas with_nms c levels r :
  finish H ctx self img_metas with_nms c levels = Done r ->
  is_Some (dict_get img_metas "img_shape").
Proof.
  unfold finish. intros Hf.
  apply bind_Done_inv in Hf as (vb & Hvb & Hf).
  apply bind_Done_inv in Hf as (vs & Hvs & Hf).
  apply bind_Done_inv in Hf as (va & Hva & Hf).
  apply bind_Done_inv in Hf as (ms & Hms & Hf).
  apply require_Done in Hms. eauto.
Qed.

(** X19: what [anchor_head__get_bboxes] needs to return at all.  If it
    returns, there is at least one level, [cls_scores] and [bbox_preds] have
    the same length, every [cls_score] and every [bbox_pred] has four
    dimensions and the two of a level agree in the last two, a
    configuration is given by [cfg] or by [self.test_cfg], and [img_metas]
    has the key ['img_shape']. *)
Theorem get_bboxes_requires ctx self cls_scores bbox_preds img_metas with_nms
    cfg r :
  anchor_head__get_bboxes H K ctx self cls_scores bbox_preds img_metas
    with_nms cfg = Done r ->
  cls_scores <> [] /\
  Forall2 level_fits cls_scores bbox_preds /\
  is_Some (used_cfg self cfg) /\
  is_Some (dict_get img_metas "img_shape").
Proof.
  intros Hr.
  apply get_bboxes_Done_inv in Hr
    as (first & c & anchors & levels & Hfirst & _ & Hc & _ & Hlen & Hlens &
        Hlevels & Hr).
  split; [intros ->; discriminate|].
  split; [|split; [rewrite Hc; eauto | eapply finish_img_shape; exact Hr]].
  apply (Forall2_zip3 _ _ _ anchors Hlen Hlens).
  apply mapM_Done_inv in Hlevels.
  apply Forall_forall. intros item Hitem.
  apply list_elem_of_lookup_1 in Hitem as [i Hi].
  destruct (Forall2_lookup_l _ _ _ _ _ Hlevels Hi) as (lv & _ & Hlv).
  eapply level_default_fits. exact Hlv.
Qed.

(** What a run of [anchor_head__get_bboxes__ncnn] that returns went
    through. *)
Lemma get_bboxes_ncnn_Done_inv ctx self cls_scores bbox_preds img_metas
    with_nms cfg r :
  anchor_head__get_bboxes__ncnn H K ctx self cls_scores bbox_preds img_metas
    with_nms cfg = Done r ->
  exists first c anchors levels,
    is_dynamic_shape H ctx = false /\
    cls_scores !! 0 = Some first /\
    used_cfg self cfg = Some c /\
    nms_pre_of self cfg = default (-1)%Z (nms_pre c) /\
    length cls_scores = length bbox_preds /\
    length bbox_preds = length anchors /\
    mapM (level_ncnn K self 1 (nms_pre_of self cfg))
         (zip (zip cls_scores bbox_preds) anchors) = Done levels /\
    finish H ctx self img_metas with_nms c levels = Done r.
Proof.
  unfold anchor_head__get_bboxes__ncnn. rewrite !map_detach. intros Hr.
  apply bind_Done_inv in Hr as ([] & Hlen & Hr).
  apply bind_Done_inv in Hr as ([] & Hdyn & Hr).
  apply bind_Done_inv in Hr as (first & Hfirst & Hr).
  apply bind_Done_inv in Hr as (anchors & Hanchors & Hr).
  apply bind_Done_inv in Hr as ([] & Hlens & Hr).
  apply bind_Done_inv in Hr as (c & Hc & Hr).
  apply bind_Done_inv in Hr as (levels & Hlevels & Hr).
  apply py_assert_Done, bool_decide_eq_true_1 in Hlen.
  apply py_assert_Done, negb_true_iff in Hdyn.
  apply py_assert_Done, bool_decide_eq_true_1 in Hlens as [_ Hlens].
  apply require_Done in Hfirst, Hc.
  assert (Hpre : nms_pre_of self cfg = default (-1)%Z (nms_pre c)).
  { unfold nms_pre_of, used_cfg. rewrite Hc. reflexivity. }
  exists first, c, anchors, levels. rewrite Hpre. auto 10.
Qed.

(** X20: what [anchor_head__get_bboxes__ncnn] needs to return at all: the
    same as the default rewrite, and a deploy configuration with static
    shapes. *)
Theorem get_bboxes_ncnn_requires ctx self cls_scores bbox_preds img_metas
    with_nms cfg r :
  anchor_head__get_bboxes__ncnn H K ctx self cls_scores bbox_preds img_metas
    with_nms cfg = Done r ->
  is_dynamic_shape H ctx = false /\
  cls_scores <> [] /\
  Forall2 level_fits cls_scores bbox_preds /\
  is_Some (used_cfg self cfg) /\
  is_Some (dict_get img_metas "img_shape").
Proof.
  intros Hr.
  apply get_bboxes_ncnn_Done_inv in Hr
    as (first & c & anchors & levels & Hdyn & Hfirst & Hc & _ & Hlen & Hlens &
        Hlevels & Hr).
  split; [exact Hdyn|].
  split; [intros ->; discriminate|].
  split; [|split; [rewrite Hc; eauto | eapply finish_img_shape; exact Hr]].
  apply (Forall2_zip3 _ _ _ anchors Hlen Hlens).
  apply mapM_Done_inv in Hlevels.
  apply Forall_forall. intros item Hitem.
  apply list_elem_of_lookup_1 in Hitem as [i Hi].
  destruct (Forall2_lookup_l _ _ _ _ _ Hlevels Hi) as (lv & _ & Hlv).
  eapply level_ncnn_fits. exact Hlv.
Qed.

Lemma index_rows_Done (t t' : @Tensor scalar) (ri : ITensor) :
  index_rows t ri = Done t' ->
  exists n rows k, shape t = [n; rows; k] /\
                   shape t' = [n; length (idata ri); k].
Proof.
  unfold index_rows.
  destruct (shape t) as [|n [|rows [|k [|? ?]]]] eqn:Hs; try discriminate.
  destruct (ishape ri) as [|? [|? ?]]; try discriminate.
  destruct (mapM _ _); [|discriminate]. intros [= <-]. eauto.
Qed.

(** The scores of a level of the ncnn rewrite: one row for every
    candidate. *)
Lemma level_ncnn_scores self p item lv :
  (forall k row, k <= length row -> length (topk K k row) = k) ->
  level_ncnn K self 1 p item = Done lv ->
  shape (level_scores lv) =
    [1; candidates self 1 p item.1.1; cls_out_channels self].
Proof.
  intros Htopk. unfold level_ncnn. intros Hlv.
  apply bind_Done_inv in Hlv as (_ & _ & Hlv).
  apply bind_Done_inv in Hlv as (c1 & Hc1 & Hlv).
  apply bind_Done_inv in Hlv as (c2 & Hc2 & Hlv).
  apply bind_Done_inv in Hlv as (b1 & Hb1 & Hlv).
  apply bind_Done_inv in Hlv as (b2 & Hb2 & Hlv).
  apply bind_Done_inv in Hlv as (a1 & Ha1 & Hlv).
  simpl in Hlv.
  fold (activated K self c2) in Hlv.
  apply permute_0231_Done in Hc1 as [Hn1 _].
  apply reshape3_Done in Hc2 as (Hs2 & _ & _).
  assert (Hscores : shape (activated K self c2) =
            [1; positions self 1 item.1.1; cls_out_channels self]).
  { rewrite shape_activated, Hs2, Hn1. reflexivity. }
  unfold candidates. destruct (decide (0 < p)%Z) as [Hp|Hp].
  - apply bind_Done_inv in Hlv as (m & Hm & Hlv).
    apply bind_Done_inv in Hlv as (ti & Hti & Hlv).
    apply bind_Done_inv in Hlv as (a2 & Ha2 & Hlv).
    apply bind_Done_inv in Hlv as (b3 & Hb3 & Hlv).
    apply bind_Done_inv in Hlv as (s3 & Hs3 & Hlv).
    injection Hlv as <-. simpl.
    assert (Hms : shape m = [1; positions self 1 item.1.1] /\
                  length (data m) = positions self 1 item.1.1).
    { destruct (use_sigmoid_cls self).
      - apply max_last_Done in Hm as [-> ->]. rewrite Hscores.
        unfold row_count. simpl. split; [reflexivity | lia].
      - apply bind_Done_inv in Hm as (fg & Hfg & Hm).
        apply max_last_Done in Hm as [-> ->].
        apply drop_last_column_Done in Hfg. rewrite Hfg, Hscores.
        unfold row_count. simpl. split; [reflexivity | lia]. }
    destruct Hms as [Hms Hml].
    destruct (topk_last_one m _ _ ti Htopk Hms Hml Hti) as [_ Hk].
    apply index_rows_Done in Hs3 as (n & rows & k & Hs & ->).
    rewrite Hscores in Hs. injection Hs as <- <- <-.
    simpl. rewrite Hk. reflexivity.
  - injection Hlv as <-. simpl. exact Hscores.
Qed.

(** X21: the scores that the ncnn rewrite returns without the NMS always
    have a first dimension of 1, whatever the batch dimension of the inputs
    is: the rows of all images of a level are taken as the rows of one.
    There are [nms_pre] candidates for every level when [nms_pre] is
    positive, and otherwise the number of elements of the level's
    [cls_score] divided by [cls_out_channels]. *)
Theorem get_bboxes_ncnn_scores_shape ctx self cls_scores bbox_preds img_metas
    cfg bboxes scores :
  (forall k row, k <= length row -> length (topk K k row) = k) ->
  anchor_head__get_bboxes__ncnn H K ctx self cls_scores bbox_preds img_metas
    false cfg = Done (Raw bboxes scores) ->
  shape scores =
    [1;
     sum_list (map (candidates self 1 (nms_pre_of self cfg)) cls_scores);
     score_columns self].
Proof.
  intros Htopk Hr.
  apply get_bboxes_ncnn_Done_inv in Hr
    as (first & c & anchors & levels & _ & _ & _ & _ & Hlen & Hlens &
        Hlevels & Hr).
  eapply finish_scores; [exact Hr|].
  apply mapM_Done_inv in Hlevels.
  rewrite <- (fst_zip3 cls_scores bbox_preds anchors Hlen Hlens) at 1.
  rewrite map_map. apply Forall2_fmap_l.
  eapply Forall2_impl; [exact Hlevels|].
  intros item lv Hlv. simpl in Hlv |- *.
  exact (level_ncnn_scores _ _ _ _ Htopk Hlv).
Qed.

End AnchorHeadProperties.

Lemma insert_desc_length (p : nat * Z) (l : list (nat * Z)) :
  length (insert_desc p l) = S (length l).
Proof.
  induction l as [|q l IH]; simpl; [reflexivity|].
  destruct (q.2 <=? p.2)%Z; simpl; [reflexivity | by rewrite IH].
Qed.

Lemma topk_largest_length (k : nat) (row : list Z) :
  k <= length row -> length (topk_largest k row) = k.
Proof.
  intros Hk. unfold topk_largest. rewrite length_take, length_map.
  assert (Hlen : forall l : list (nat * Z),
            length (foldr insert_desc [] l) = length l).
  { induction l as [|p l IH]; simpl; [reflexivity|].
    by rewrite insert_desc_length, IH. }
  rewrite Hlen, length_imap. lia.
Qed.

Lemma ncnn_rejects_dynamic_shape_witness :
  anchor_head.is_dynamic_shape head_helpers dynamic_ncnn = true /\
  anchor_head.anchor_head__get_bboxes__ncnn head_helpers head_kernels
    dynamic_ncnn two_class_head head_cls_scores head_bbox_preds head_metas
    true None = anchor_head.Failed anchor_head.AssertionError.
Proof.
  split; [reflexivity|].
  apply ncnn_rejects_dynamic_shape. reflexivity.
Defined.

Lemma get_bboxes_scores_shape_witness :
  anchor_head.anchor_head__get_bboxes head_helpers head_kernels static_onnx
    two_class_head head_cls_scores head_bbox_preds head_metas false None =
    anchor_head.Done (anchor_head.Raw head_bboxes head_scores) /\
  shape head_scores = [1; 2; 2].
Proof.
  split; [reflexivity|].
  exact (get_bboxes_scores_shape head_helpers head_kernels static_onnx
           two_class_head head_cls_scores head_bbox_preds head_metas None
           head_bboxes head_scores ltac:(discriminate) eq_refl).
Defined.

Lemma get_bboxes_ncnn_scores_shape_witness :
  anchor_head.anchor_head__get_bboxes__ncnn head_helpers head_kernels
    static_onnx two_class_head head_cls_scores head_bbox_preds head_metas
    false None =
    anchor_head.Done (anchor_head.Raw head_bboxes head_scores) /\
  shape head_scores = [1; 2; 2].
Proof.
  split; [reflexivity|].
  exact (get_bboxes_ncnn_scores_shape head_helpers head_kernels static_onnx
           two_class_head head_cls_scores head_bbox_preds head_metas None
           head_bboxes head_scores topk_largest_length eq_refl).
Defined.

Lemma get_bboxes_nms_pre_too_large_witness :
  level1_cls ∈ head_cls_scores /\
  exists e,
    anchor_head.anchor_head__get_bboxes head_helpers head_kernels static_onnx
      two_class_head head_cls_scores head_bbox_preds head_metas true
      (Some greedy_cfg) = anchor_head.Failed e.
Proof.
  assert (Hin : level1_cls ∈ head_cls_scores).
  { apply list_elem_of_further, list_elem_of_here. }
  split; [exact Hin|].
  apply (get_bboxes_nms_pre_too_large head_helpers head_kernels static_onnx
           two_class_head head_cls_scores head_bbox_preds head_metas true
           (Some greedy_cfg) level1_cls); [discriminate | exact Hin |].
  vm_compute. lia.
Defined.

Lemma ncnn_agrees_for_one_image_witness :
  anchor_head.batch_size_of head_cls_scores = 1 /\
  anchor_head.anchor_head__get_bboxes__ncnn head_helpers head_kernels
    static_onnx two_class_head head_cls_scores head_bbox_preds head_metas
    true None =
  anchor_head.anchor_head__get_bboxes head_helpers head_kernels static_onnx
    two_class_head head_cls_scores head_bbox_preds head_metas true None.
Proof.
  split; [reflexivity|].
  apply ncnn_agrees_for_one_image;
    [reflexivity | discriminate | exact topk_largest_length | reflexivity].
Defined.

Lemma get_bboxes_requires_witness :
  anchor_head.anchor_head__get_bboxes head_helpers head_kernels static_onnx
    two_class_head head_cls_scores head_bbox_preds head_metas false None =
    anchor_head.Done (anchor_head.Raw head_bboxes head_scores) /\
  head_cls_scores <> [] /\
  Forall2 anchor_head.level_fits head_cls_scores head_bbox_preds /\
  is_Some (anchor_head.used_cfg two_class_head None) /\
  is_Some (dict_get head_metas "img_shape").
Proof.
  split; [reflexivity|].
  exact (get_bboxes_requires head_helpers head_kernels static_onnx
           two_class_head head_cls_scores head_bbox_preds head_metas false
           None _ eq_refl).
Defined.

Lemma get_bboxes_ncnn_requires_witness :
  anchor_head.anchor_head__get_bboxes__ncnn head_helpers head_kernels
    static_onnx two_class_head head_cls_scores head_bbox_preds head_metas
    false None =
    anchor_head.Done (anchor_head.Raw head_bboxes head_scores) /\
  anchor_head.is_dynamic_shape head_helpers static_onnx = false /\
  head_cls_scores <> [] /\
  Forall2 anchor_head.level_fits head_cls_scores head_bbox_preds /\
  is_Some (anchor_head.used_cfg two_class_head None) /\
  is_Some (dict_get head_metas "img_shape").
Proof.
  split; [reflexivity|].
  exact (get_bboxes_ncnn_requires head_helpers head_kernels static_onnx
           two_class_head head_cls_scores head_bbox_preds head_metas false
           None _ eq_refl).
Defined.

